(** * benchmark_sqlite_params.py: buffered insertion strategies and their self-check

    A shallow embedding of [setup_db], [insert_values_params],
    [insert_values_executemany], [check_and_clean] and the data-generating
    part of [benchmark].  Python integers are [Z]; a row (a [dict] from
    column name to value) is a [gmap string string]; the session is an
    explicit state threaded through the calls, and an exception is an
    outcome returned together with the state reached when it was raised.
    Each function is given first on the path where the store accepts
    every call, then again (suffix [_try]) with the exceptions the store
    may raise. *)

From Stdlib Require Import ZArith Ascii.
From stdpp Require Import gmap strings list fin_maps.

Local Open Scope Z_scope.

(** ** Python built-ins used by the script *)

Module Py.

(** [range(n)]: the integers [0 .. n-1], empty when [n <= 0]. *)
Definition range (n : Z) : list Z := Z.of_nat <$> seq 0 (Z.to_nat n).

(** [enumerate(l)]. *)
Definition enumerate {A} (l : list A) : list (Z * A) :=
  zip (range (Z.of_nat (length l))) l.

(** [len(s)] of a string and of a list, as Python integers. *)
Definition len_str (s : string) : Z := Z.of_nat (String.length s).
Definition len {A} (l : list A) : Z := Z.of_nat (length l).

(** Decimal digits of a non-negative integer, most significant first. *)
Fixpoint digits_fuel (fuel : nat) (n : Z) (acc : list Z) : list Z :=
  match fuel with
  | O => acc
  | S fuel' =>
      if n <? 10 then n :: acc
      else digits_fuel fuel' (n / 10) (n `mod` 10 :: acc)
  end.

Definition digits (n : Z) : list Z := digits_fuel (S (Z.to_nat n)) n [].

Definition digit_char (d : Z) : ascii := ascii_of_nat (48 + Z.to_nat d).

Fixpoint render (ds : list Z) : string :=
  match ds with
  | [] => ""
  | d :: ds' => String (digit_char d) (render ds')
  end.

(** [str(n)] for an [int]. *)
Definition str (n : Z) : string :=
  if n <? 0 then "-" +:+ render (digits (- n)) else render (digits n).

(** Zero fill of a digit sequence up to a minimum width. *)
Definition zfill (w : Z) (ds : list Z) : list Z :=
  replicate (Z.to_nat (w - len ds)) 0 ++ ds.

(** [f'{i:0{w}}']: sign-aware zero padding to the minimum width [w]. *)
Definition format_zero (w i : Z) : string :=
  if i <? 0 then "-" +:+ render (zfill (w - 1) (digits (- i)))
  else render (zfill w (digits i)).

End Py.

(** ** SQLAlchemy objects and the store behind the session

    The relational store is an external collaborator.  It is modelled as
    far as the script observes it: the content of [mytable] as a list of
    stored tuples, a session whose statements act on a transaction-local
    view, and [commit] making that view durable.  This part gives the
    effect of each call that the store accepts; the exceptions it may
    raise instead are added under "Exceptions of the store". *)

(** [Column(name, String(width))]. *)
Record Column := { name : string; width : Z }.

(** [Table('mytable', meta, *columns)]. *)
Record Table := { table_name : string; columns : list Column }.

(** A row handed to an insert: a [dict] from column name to value. *)
Abbreviation Row := (gmap string string).

(** A stored tuple, one entry per table column; [None] is [NULL]. *)
Definition StoredRow := list (option string).

Inductive Statement :=
  | InsertValues (values : list Row)  (* [table.insert().values(buffer)] *)
  | Insert                            (* [table.insert()], parameters bound at execution *)
  | Delete                            (* [delete(table)] *)
  | SelectCount                       (* [select(func.count()).select_from(table)] *)
  | SelectOrderByDesc.                (* [session.query(table).order_by(table.c[0].desc())] *)

Inductive Event :=
  | Execute (stmt : Statement) (params : list Row)
  | Commit.

Record Session := {
  view : list StoredRow;     (* what the open transaction sees *)
  durable : list StoredRow;  (* what has been committed *)
  trace : list Event         (* statements and commits issued, oldest first *)
}.

(** The engine: the connect string and the content of [mytable] in the
    database it points to, [None] while the table does not exist. *)
Record Engine := { url : string; mytable : option (list StoredRow) }.

(** The tuple stored for a [dict]: the value bound to each column of the
    table, [NULL] for a column the [dict] does not mention. *)
Definition to_tuple (table : Table) (row : Row) : StoredRow :=
  (λ col, row !! name col) <$> columns table.

(** An insert statement is compiled for the keys of the first [dict] it
    is given: it names the columns that [dict] mentions, takes the value
    of each of them from every [dict], and leaves every other column
    [NULL].  The tuple stored for [row] by a statement compiled for
    [first]; a key that only a later [dict] has is dropped.  For dicts
    with the same keys it is [to_tuple table row]. *)
Definition bound_tuple (table : Table) (first row : Row) : StoredRow :=
  (λ col, match first !! name col with
          | Some _ => row !! name col
          | None => None
          end) <$> columns table.

(** Effect of one statement on the rows of the table.  A multi-row
    [VALUES] statement adds its rows at once; a parameterised insert is
    compiled for the first parameter set and executed once per parameter
    set.  Which statements the store rejects is another matter, and not
    the same for the two forms: see [Store]. *)
Definition run_statement (table : Table) (stmt : Statement)
    (params : list Row) (stored : list StoredRow) : list StoredRow :=
  match stmt with
  | InsertValues values =>
      match values with
      | [] => stored
      | first :: _ => stored ++ (bound_tuple table first <$> values)
      end
  | Insert =>
      match params with
      | [] => stored
      | first :: _ =>
          foldl (λ acc row, acc ++ [bound_tuple table first row]) stored params
      end
  | Delete => []
  | SelectCount | SelectOrderByDesc => stored
  end.

(** [session.execute(stmt, params)]. *)
Definition execute (session : Session) (table : Table) (stmt : Statement)
    (params : list Row) : Session :=
  {| view := run_statement table stmt params (view session);
     durable := durable session;
     trace := trace session ++ [Execute stmt params] |}.

(** [session.commit()]. *)
Definition commit (session : Session) : Session :=
  {| view := view session;
     durable := view session;
     trace := trace session ++ [Commit] |}.

(** [session.execute(count_stmt).all()[0][0]]. *)
Definition select_count (session : Session) (table : Table) : Z * Session :=
  (Py.len (view session), execute session table SelectCount []).

(** Ordering of column values as SQLite sorts text: bytewise, [NULL]
    below every string. *)
Definition value_ltb (a b : option string) : bool :=
  match a, b with
  | None, Some _ => true
  | Some x, Some y => String.ltb x y
  | _, None => false
  end.

(** The sort key [table.c[0]] of a stored tuple. *)
Definition sort_key (r : StoredRow) : option string := mjoin (head r).

(** [.order_by(table.c[0].desc()).first()]: the row whose first column
    is greatest, the earliest stored one among equals; [None] on an empty
    table. *)
Definition first_desc (stored : list StoredRow) : option StoredRow :=
  foldl (λ best r,
           match best with
           | None => Some r
           | Some b => if value_ltb (sort_key b) (sort_key r) then Some r else Some b
           end) None stored.

Definition query_first_desc (session : Session) (table : Table)
    : option StoredRow * Session :=
  (first_desc (view session), execute session table SelectOrderByDesc []).

(** [Session(engine)] and leaving its [with] block: uncommitted work is
    rolled back. *)
Definition Session_open (engine : Engine) : Session :=
  {| view := default [] (mytable engine);
     durable := default [] (mytable engine);
     trace := [] |}.

Definition Session_close (engine : Engine) (session : Session) : Engine :=
  {| url := url engine; mytable := Some (durable session) |}.

(** [meta.create_all(engine)] creates the table unless it exists;
    [table.drop(engine)] removes it. *)
Definition create_all (engine : Engine) : Engine :=
  {| url := url engine;
     mytable := Some (default [] (mytable engine)) |}.

Definition table_drop (engine : Engine) : Engine :=
  {| url := url engine; mytable := None |}.

(** [timeit.repeat(stmt, repeat=..., number=...)]: [repeat] trials of
    [number] executions each; the timings are not modelled. *)
Definition timeit_repeat_run (stmt : Session → Session) (repeat number : Z)
    (session : Session) : Session :=
  Nat.iter (Z.to_nat repeat) (Nat.iter (Z.to_nat number) stmt) session.

(** ** The script *)

Definition setup_db (database : option (list StoredRow)) (connect_str : string)
    (number_of_cols number_of_rows col_pad row_pad : Z) : Engine * Table :=
  let engine := {| url := connect_str; mytable := database |} in
  let columns :=
    (λ i, {| name := "col" +:+ Py.format_zero col_pad i;
             width := col_pad + row_pad + 8 |}) <$> Py.range number_of_cols in
  let mytable := {| table_name := "mytable"; columns := columns |} in
  let engine := create_all engine in
  (engine, mytable).

(** Loop body of [insert_values_params]; the state is the session and
    the buffer. *)
Definition insert_values_params_body (table : Table) (buffer_size : Z)
    (st : Session * list Row) (row : Row) : Session * list Row :=
  let '(session, buffer) := st in
  let buffer := buffer ++ [row] in
  if Py.len buffer >=? buffer_size then
    let stmt_values_params := InsertValues buffer in
    let session := execute session table stmt_values_params [] in
    (session, [])
  else (session, buffer).

(** The statement after the loop: flush what is left in the buffer. *)
Definition insert_values_params_rest (table : Table)
    (st : Session * list Row) : Session * list Row :=
  let '(session, buffer) := st in
  if Py.len buffer >? 0 then
    let stmt_values_params := InsertValues buffer in
    let session := execute session table stmt_values_params [] in
    (session, [])
  else (session, buffer).

Definition insert_values_params (session : Session) (table : Table)
    (rows : list Row) (buffer_size : Z) : Session :=
  let st := foldl (insert_values_params_body table buffer_size) (session, []) rows in
  let st := insert_values_params_rest table st in
  commit (fst st).

Definition insert_values_executemany_body (table : Table) (buffer_size : Z)
    (st : Session * list Row) (row : Row) : Session * list Row :=
  let '(session, buffer) := st in
  let buffer := buffer ++ [row] in
  if Py.len buffer >=? buffer_size then
    let session := execute session table Insert buffer in
    (session, [])
  else (session, buffer).

Definition insert_values_executemany_rest (table : Table)
    (st : Session * list Row) : Session * list Row :=
  let '(session, buffer) := st in
  if Py.len buffer >? 0 then
    let session := execute session table Insert buffer in
    (session, [])
  else (session, buffer).

Definition insert_values_executemany (session : Session) (table : Table)
    (rows : list Row) (buffer_size : Z) : Session :=
  let st := foldl (insert_values_executemany_body table buffer_size) (session, []) rows in
  let st := insert_values_executemany_rest table st in
  commit (fst st).

(** How a call ends: it returns, or one of the exceptions
    [check_and_clean] can raise propagates. *)
Inductive Outcome := Returned | AssertionError | TypeError | IndexError.

(** The right-hand side of the second assertion of [check_and_clean]. *)
Definition expected_last_val (number_of_rows number_of_cols : Z) : string :=
  "row" +:+ Py.str (number_of_rows - 1) +:+ "_col" +:+ Py.str (number_of_cols - 1).

Definition check_and_clean (session : Session) (table : Table)
    (number_of_rows number_of_cols timeit_number timeit_repeat : Z)
    : Outcome * Session :=
  let '(count, session) := select_count session table in
  if negb (count =? timeit_repeat * timeit_number * number_of_rows) then
    (AssertionError, session)
  else
    match columns table with
    | [] => (IndexError, session)                       (* [table.c[0]] *)
    | _ :: _ =>
        let '(last_row, session) := query_first_desc session table in
        match last_row with
        | None => (TypeError, session)                   (* [None[-1]] *)
        | Some last_row =>
            match last last_row with
            | None => (IndexError, session)              (* [()[-1]] *)
            | Some last_row_val =>
                if bool_decide
                     (last_row_val = Some (expected_last_val number_of_rows number_of_cols))
                then
                  let session := execute session table Delete [] in
                  let session := commit session in
                  (Returned, session)
                else (AssertionError, session)
            end
        end
    end.

(** The list comprehension bound to [rows] in [benchmark]. *)
Definition cell_value (row_pad col_pad r c : Z) : string :=
  "row" +:+ Py.format_zero row_pad r +:+ "_col" +:+ Py.format_zero col_pad c.

Definition generate_row (table : Table) (row_pad col_pad r : Z) : Row :=
  foldl (λ d '(c, col), <[name col := cell_value row_pad col_pad r c]> d)
        ∅ (Py.enumerate (columns table)).

Definition generate_rows (table : Table) (number_of_rows row_pad col_pad : Z)
    : list Row :=
  generate_row table row_pad col_pad <$> Py.range number_of_rows.

(** The two strategies of the script, as the values [stmt] ranges over. *)
Definition is_strategy (strategy : Session → Table → list Row → Z → Session) : Prop :=
  strategy = insert_values_params ∨ strategy = insert_values_executemany.

(** One pass of the [for stmt in ...] loop of [benchmark]. *)
Definition benchmark_trial
    (strategy : Session → Table → list Row → Z → Session)
    (engine : Engine) (table : Table) (rows : list Row)
    (number_of_rows number_of_cols timeit_number timeit_repeat buffer_size : Z)
    : Outcome * Engine :=
  let session := Session_open engine in
  let session := execute session table Delete [] in
  let session :=
    timeit_repeat_run (λ session, strategy session table rows buffer_size)
                      timeit_repeat timeit_number session in
  let '(outcome, session) :=
    check_and_clean session table number_of_rows number_of_cols
                    timeit_number timeit_repeat in
  (outcome, Session_close engine session).

Definition benchmark (database : option (list StoredRow)) (connect_str : string)
    (number_of_cols number_of_rows timeit_number timeit_repeat buffer_size : Z)
    : Outcome * Engine :=
  let col_pad := Py.len_str (Py.str number_of_cols) - 1 in
  let row_pad := Py.len_str (Py.str number_of_rows) - 1 in
  let '(engine, table) :=
    setup_db database connect_str number_of_cols number_of_rows col_pad row_pad in
  let rows := generate_rows table number_of_rows row_pad col_pad in
  let '(outcome, engine) :=
    benchmark_trial insert_values_params engine table rows
      number_of_rows number_of_cols timeit_number timeit_repeat buffer_size in
  match outcome with
  | Returned =>
      let '(outcome, engine) :=
        benchmark_trial insert_values_executemany engine table rows
          number_of_rows number_of_cols timeit_number timeit_repeat buffer_size in
      match outcome with
      | Returned => (Returned, table_drop engine)
      | _ => (outcome, engine)
      end
  | _ => (outcome, engine)
  end.

(** ** The buffering discipline shared by the two strategies

    Both functions run the same loop and differ only in how a full
    buffer is sent; [flush] is that step. *)

Definition buffered_body (flush : Session → list Row → Session)
    (buffer_size : Z) (st : Session * list Row) (row : Row)
    : Session * list Row :=
  let '(session, buffer) := st in
  let buffer := buffer ++ [row] in
  if Py.len buffer >=? buffer_size then (flush session buffer, [])
  else (session, buffer).

Definition buffered_rest (flush : Session → list Row → Session)
    (st : Session * list Row) : Session * list Row :=
  let '(session, buffer) := st in
  if Py.len buffer >? 0 then (flush session buffer, []) else (session, buffer).

Definition buffered_insert (flush : Session → list Row → Session)
    (session : Session) (rows : list Row) (buffer_size : Z) : Session :=
  commit (fst (buffered_rest flush
                 (foldl (buffered_body flush buffer_size) (session, []) rows))).

Definition flush_values (table : Table) (session : Session) (buffer : list Row)
    : Session :=
  execute session table (InsertValues buffer) [].

Definition flush_executemany (table : Table) (session : Session)
    (buffer : list Row) : Session :=
  execute session table Insert buffer.

Definition values_event (buffer : list Row) : Event :=
  Execute (InsertValues buffer) [].

Definition executemany_event (buffer : list Row) : Event :=
  Execute Insert buffer.

Definition is_commit (e : Event) : bool :=
  match e with Commit => true | Execute _ _ => false end.

Definition count_commits (events : list Event) : nat :=
  length (filter (λ e, is_commit e = true) events).

(** What an invocation adds to the trace: the in-loop flushes [full],
    the flush of the remainder [rest] when there is one, then the
    commit. *)
Definition issued (stmt : list Row → Event) (full : list (list Row))
    (rest : list Row) : list Event :=
  (stmt <$> full) ++ (if decide (rest = []) then [] else [stmt rest]) ++ [Commit].


(** The two conditions [check_and_clean] asserts, read off a session:
    the row count, and the last column of the row that sorts last. *)
Definition count_holds (session : Session)
    (number_of_rows timeit_number timeit_repeat : Z) : Prop :=
  Py.len (view session) = timeit_repeat * timeit_number * number_of_rows.

Definition last_row_val (session : Session) : option (option string) :=
  first_desc (view session) ≫= last.

Definition last_val_holds (session : Session)
    (number_of_rows number_of_cols : Z) : Prop :=
  last_row_val session = Some (Some (expected_last_val number_of_rows number_of_cols)).

(** The events a call added to the trace of the session it started from. *)
Definition added (before after : Session) : list Event :=
  drop (length (trace before)) (trace after).

(** The number a digit sequence denotes; inverse of [Py.digits]. *)
Definition undigits (ds : list Z) : Z := foldl (λ a d, 10 * a + d) 0 ds.

Definition is_digit (d : Z) : Prop := 0 ≤ d < 10.

(** The column name and the column object [setup_db] builds for index [i]. *)
Definition column_name (col_pad i : Z) : string :=
  "col" +:+ Py.format_zero col_pad i.

Definition column_names (table : Table) : list string := name <$> columns table.

(** Column values in ascending order, the complement of [value_ltb]. *)
Definition value_leb (a b : option string) : bool := negb (value_ltb b a).

(** The session on which a trial of [benchmark] calls [check_and_clean]:
    a fresh session, the initial delete, then the timed invocations. *)
Definition trial_session
    (strategy : Session → Table → list Row → Z → Session)
    (engine : Engine) (table : Table) (rows : list Row)
    (timeit_number timeit_repeat buffer_size : Z) : Session :=
  timeit_repeat_run (λ session, strategy session table rows buffer_size)
                    timeit_repeat timeit_number
                    (execute (Session_open engine) table Delete []).

(** The tuple stored for generated row [r] of a table with
    [number_of_cols] columns. *)
Definition row_tuple (number_of_cols row_pad col_pad r : Z) : StoredRow :=
  (λ c, Some (cell_value row_pad col_pad r c)) <$> Py.range number_of_cols.

(** ** Exceptions of the store

    The functions above are the script on the path where the store
    accepts every statement.  The functions below are the same code with
    that path no longer taken for granted: each call into SQLAlchemy may
    raise, and the exception propagates as in Python, ending the enclosing
    loops and functions at once.  What the store rejects is not decided
    here: its verdict on each call is a parameter, the [Store]. *)

(** Exceptions SQLAlchemy raises from the calls the script makes. *)
Inductive Raised :=
  | ArgumentError      (* [create_engine] on a string that is no URL *)
  | NoSuchModuleError  (* [create_engine] on an unknown dialect *)
  | CompileError       (* a statement that cannot be compiled *)
  | StatementError     (* a parameter set that lacks a bound key *)
  | OperationalError   (* the database rejects the statement *)
  | DataError          (* the database rejects a value *)
  | IntegrityError.    (* the database rejects a row *)

(** The verdict of the store on each call: [None] when the call goes
    through, [Some e] when it raises [e]. *)
Record Store := {
  connect_error : string → option Raised;                 (* [create_engine] *)
  create_error : Engine → Table → option Raised;          (* [meta.create_all] *)
  statement_error : Session → Table → Statement → list Row → option Raised;
                                                           (* [session.execute] *)
  commit_error : Session → option Raised;                 (* [session.commit] *)
  drop_error : Engine → Table → option Raised             (* [table.drop] *)
}.

(** A call either goes through, giving the next session, or raises,
    leaving the session as it was. *)
Inductive Run :=
  | Done (session : Session)
  | Raises (e : Raised) (session : Session).

Definition try_execute (store : Store) (session : Session) (table : Table)
    (stmt : Statement) (params : list Row) : Run :=
  match statement_error store session table stmt params with
  | Some e => Raises e session
  | None => Done (execute session table stmt params)
  end.

Definition try_commit (store : Store) (session : Session) : Run :=
  match commit_error store session with
  | Some e => Raises e session
  | None => Done (commit session)
  end.

(** The [for] loop of [insert_values_params]; an exception of
    [session.execute] leaves the loop. *)
Fixpoint insert_values_params_loop (store : Store) (table : Table)
    (buffer_size : Z) (session : Session) (buffer rows : list Row)
    : Run * list Row :=
  match rows with
  | [] => (Done session, buffer)
  | row :: rows' =>
      let buffer := buffer ++ [row] in
      if Py.len buffer >=? buffer_size then
        let stmt_values_params := InsertValues buffer in
        match try_execute store session table stmt_values_params [] with
        | Done session =>
            insert_values_params_loop store table buffer_size session [] rows'
        | Raises e session => (Raises e session, buffer)
        end
      else insert_values_params_loop store table buffer_size session buffer rows'
  end.

Definition insert_values_params_try (store : Store) (session : Session)
    (table : Table) (rows : list Row) (buffer_size : Z) : Run :=
  match insert_values_params_loop store table buffer_size session [] rows with
  | (Raises e session, _) => Raises e session
  | (Done session, buffer) =>
      match (if Py.len buffer >? 0 then
               let stmt_values_params := InsertValues buffer in
               try_execute store session table stmt_values_params []
             else Done session) with
      | Raises e session => Raises e session
      | Done session => try_commit store session
      end
  end.

Fixpoint insert_values_executemany_loop (store : Store) (table : Table)
    (buffer_size : Z) (session : Session) (buffer rows : list Row)
    : Run * list Row :=
  match rows with
  | [] => (Done session, buffer)
  | row :: rows' =>
      let buffer := buffer ++ [row] in
      if Py.len buffer >=? buffer_size then
        match try_execute store session table Insert buffer with
        | Done session =>
            insert_values_executemany_loop store table buffer_size session [] rows'
        | Raises e session => (Raises e session, buffer)
        end
      else insert_values_executemany_loop store table buffer_size session buffer rows'
  end.

Definition insert_values_executemany_try (store : Store) (session : Session)
    (table : Table) (rows : list Row) (buffer_size : Z) : Run :=
  match insert_values_executemany_loop store table buffer_size session [] rows with
  | (Raises e session, _) => Raises e session
  | (Done session, buffer) =>
      match (if Py.len buffer >? 0 then
               try_execute store session table Insert buffer
             else Done session) with
      | Raises e session => Raises e session
      | Done session => try_commit store session
      end
  end.

(** The shared shape of the two functions, for a flush that may raise. *)
Fixpoint buffered_loop_try (verdict : Session → list Row → option Raised)
    (flush : Session → list Row → Session) (buffer_size : Z)
    (session : Session) (buffer rows : list Row) : Run * list Row :=
  match rows with
  | [] => (Done session, buffer)
  | row :: rows' =>
      let buffer := buffer ++ [row] in
      if Py.len buffer >=? buffer_size then
        match verdict session buffer with
        | None => buffered_loop_try verdict flush buffer_size
                                    (flush session buffer) [] rows'
        | Some e => (Raises e session, buffer)
        end
      else buffered_loop_try verdict flush buffer_size session buffer rows'
  end.

Definition buffered_try (verdict : Session → list Row → option Raised)
    (commit_verdict : Session → option Raised)
    (flush : Session → list Row → Session)
    (session : Session) (rows : list Row) (buffer_size : Z) : Run :=
  match buffered_loop_try verdict flush buffer_size session [] rows with
  | (Raises e session, _) => Raises e session
  | (Done session, buffer) =>
      match (if Py.len buffer >? 0 then
               match verdict session buffer with
               | Some e => Raises e session
               | None => Done (flush session buffer)
               end
             else Done session) with
      | Raises e session => Raises e session
      | Done session =>
          match commit_verdict session with
          | Some e => Raises e session
          | None => Done (commit session)
          end
      end
  end.

(** A strategy with its exceptions, paired with its accepted path. *)
Definition is_strategy_try
    (strategy_try : Store → Session → Table → list Row → Z → Run)
    (strategy : Session → Table → list Row → Z → Session) : Prop :=
  (strategy_try = insert_values_params_try ∧ strategy = insert_values_params)
  ∨ (strategy_try = insert_values_executemany_try
     ∧ strategy = insert_values_executemany).

(** [timeit.repeat]: an exception in the timed statement ends all
    remaining executions and trials. *)
Fixpoint iter_try (k : nat) (stmt : Session → Run) (session : Session) : Run :=
  match k with
  | O => Done session
  | S k' =>
      match stmt session with
      | Done session => iter_try k' stmt session
      | Raises e session => Raises e session
      end
  end.

Definition timeit_repeat_try (stmt : Session → Run) (repeat number : Z)
    (session : Session) : Run :=
  iter_try (Z.to_nat repeat) (iter_try (Z.to_nat number) stmt) session.

(** How a function of the script ends: as on the accepted path, or with
    an exception of the store. *)
Inductive Ending := Ended (outcome : Outcome) | StoreRaised (e : Raised).

Definition check_and_clean_try (store : Store) (session : Session) (table : Table)
    (number_of_rows number_of_cols timeit_number timeit_repeat : Z)
    : Ending * Session :=
  match try_execute store session table SelectCount [] with
  | Raises e session => (StoreRaised e, session)
  | Done counted =>
      let count := Py.len (view session) in
      if negb (count =? timeit_repeat * timeit_number * number_of_rows) then
        (Ended AssertionError, counted)
      else
        match columns table with
        | [] => (Ended IndexError, counted)
        | _ :: _ =>
            match try_execute store counted table SelectOrderByDesc [] with
            | Raises e session => (StoreRaised e, session)
            | Done queried =>
                match first_desc (view counted) with
                | None => (Ended TypeError, queried)
                | Some last_row =>
                    match last last_row with
                    | None => (Ended IndexError, queried)
                    | Some last_row_val =>
                        if bool_decide
                             (last_row_val
                              = Some (expected_last_val number_of_rows number_of_cols))
                        then
                          match try_execute store queried table Delete [] with
                          | Raises e session => (StoreRaised e, session)
                          | Done deleted =>
                              match try_commit store deleted with
                              | Raises e session => (StoreRaised e, session)
                              | Done session => (Ended Returned, session)
                              end
                          end
                        else (Ended AssertionError, queried)
                    end
                end
            end
        end
  end.

Definition setup_db_try (store : Store) (database : option (list StoredRow))
    (connect_str : string) (number_of_cols number_of_rows col_pad row_pad : Z)
    : Raised + Engine * Table :=
  match connect_error store connect_str with
  | Some e => inl e
  | None =>
      let engine := {| url := connect_str; mytable := database |} in
      let columns :=
        (λ i, {| name := "col" +:+ Py.format_zero col_pad i;
                 width := col_pad + row_pad + 8 |}) <$> Py.range number_of_cols in
      let mytable := {| table_name := "mytable"; columns := columns |} in
      match create_error store engine mytable with
      | Some e => inl e
      | None => inr (create_all engine, mytable)
      end
  end.

Definition benchmark_trial_try (store : Store)
    (strategy_try : Store → Session → Table → list Row → Z → Run)
    (engine : Engine) (table : Table) (rows : list Row)
    (number_of_rows number_of_cols timeit_number timeit_repeat buffer_size : Z)
    : Ending * Engine :=
  let session := Session_open engine in
  match try_execute store session table Delete [] with
  | Raises e session => (StoreRaised e, Session_close engine session)
  | Done session =>
      match timeit_repeat_try
              (λ session, strategy_try store session table rows buffer_size)
              timeit_repeat timeit_number session with
      | Raises e session => (StoreRaised e, Session_close engine session)
      | Done session =>
          let '(ending, session) :=
            check_and_clean_try store session table number_of_rows number_of_cols
                                timeit_number timeit_repeat in
          (ending, Session_close engine session)
      end
  end.

Definition benchmark_try (store : Store) (database : option (list StoredRow))
    (connect_str : string)
    (number_of_cols number_of_rows timeit_number timeit_repeat buffer_size : Z)
    : Ending * Engine :=
  let col_pad := Py.len_str (Py.str number_of_cols) - 1 in
  let row_pad := Py.len_str (Py.str number_of_rows) - 1 in
  match setup_db_try store database connect_str number_of_cols number_of_rows
                     col_pad row_pad with
  | inl e => (StoreRaised e, {| url := connect_str; mytable := database |})
  | inr (engine, table) =>
      let rows := generate_rows table number_of_rows row_pad col_pad in
      let '(ending, engine) :=
        benchmark_trial_try store insert_values_params_try engine table rows
          number_of_rows number_of_cols timeit_number timeit_repeat buffer_size in
      match ending with
      | Ended Returned =>
          let '(ending, engine) :=
            benchmark_trial_try store insert_values_executemany_try engine table rows
              number_of_rows number_of_cols timeit_number timeit_repeat buffer_size in
          match ending with
          | Ended Returned =>
              match drop_error store engine table with
              | Some e => (StoreRaised e, engine)
              | None => (Ended Returned, table_drop engine)
              end
          | _ => (ending, engine)
          end
      | _ => (ending, engine)
      end
  end.

(** The columns an insert statement names: those the first [dict] it is
    given mentions. *)
Definition bound_columns (table : Table) (params : list Row) : list Column :=
  match params with
  | [] => []
  | first :: _ => filter (λ col, is_Some (first !! name col)) (columns table)
  end.

(** The number of variables a statement binds: one per named column for
    every row of a multi-row [VALUES] statement, one per named column in
    each execution of the single-row insert. *)
Definition bound_variables (table : Table) (stmt : Statement) (params : list Row)
    : Z :=
  match stmt with
  | InsertValues values => Py.len values * Py.len (bound_columns table values)
  | Insert => Py.len (bound_columns table params)
  | Delete | SelectCount | SelectOrderByDesc => 0
  end.

(** A store that takes every call except a statement binding more than
    [max_variables] variables, which SQLite rejects with "too many SQL
    variables" ([SQLITE_MAX_VARIABLE_NUMBER]). *)
Definition variable_limit_store (max_variables : Z) : Store :=
  {| connect_error := λ _, None;
     create_error := λ _ _, None;
     statement_error := λ _ table stmt params,
       if bound_variables table stmt params >? max_variables
       then Some OperationalError else None;
     commit_error := λ _, None;
     drop_error := λ _ _, None |}.

(** A row as the script passes it: the keys are the columns of the table. *)
Definition over_columns (table : Table) (row : Row) : Prop :=
  dom row = list_to_set (column_names table).

(** A store that takes every call. *)
Definition accepts_all (store : Store) : Prop :=
  (∀ connect_str, connect_error store connect_str = None)
  ∧ (∀ engine table, create_error store engine table = None)
  ∧ (∀ session table stmt params,
       statement_error store session table stmt params = None)
  ∧ (∀ session, commit_error store session = None)
  ∧ (∀ engine table, drop_error store engine table = None).
(** ** Properties of the buffering discipline *)

(** For dicts with the same keys the statement compiled for the first
    stores what each dict holds. *)
Lemma bound_tuple_over_columns table first row :
  over_columns table first → over_columns table row →
  bound_tuple table first row = to_tuple table row.
Proof.
  intros Hfirst Hrow. unfold bound_tuple, to_tuple.
  apply list_fmap_ext. intros i col _.
  destruct (first !! name col) eqn:E; [done|].
  symmetry. apply not_elem_of_dom. rewrite Hrow, <- Hfirst.
  by apply not_elem_of_dom.
Qed.


Section Buffered.
Context (table : Table).
Context (stmt : list Row → Event).
Context (flush : Session → list Row → Session).

Hypothesis flush_view : ∀ s b,
  Forall (over_columns table) b →
  view (flush s b) = view s ++ (to_tuple table <$> b).
Hypothesis flush_durable : ∀ s b, durable (flush s b) = durable s.
Hypothesis flush_trace : ∀ s b, trace (flush s b) = trace s ++ [stmt b].

(** Rows already stored followed by rows still buffered are the rows
    consumed so far, whatever the buffer size. *)
Lemma buffered_loop_view bs rows s buf :
  Forall (over_columns table) (buf ++ rows) →
  let st := foldl (buffered_body flush bs) (s, buf) rows in
  Forall (over_columns table) (snd st)
  ∧ view (fst st) ++ (to_tuple table <$> snd st)
    = view s ++ (to_tuple table <$> (buf ++ rows)).
Proof.
  revert s buf. induction rows as [|row rows IH]; intros s buf Hall; cbn.
  - rewrite app_nil_r in *. done.
  - rewrite (cons_middle row buf rows), app_assoc in Hall.
    pose proof Hall as Hall'. apply Forall_app in Hall' as [Hbuf Hrows].
    destruct (Py.len (buf ++ [row]) >=? bs); cbn.
    + destruct (IH (flush s (buf ++ [row])) [] Hrows) as [Hsnd Hview].
      cbn in Hsnd, Hview. split; [done|]. rewrite Hview.
      rewrite flush_view by done. rewrite !fmap_app, <- !app_assoc. done.
    + destruct (IH s (buf ++ [row]) Hall) as [Hsnd Hview].
      cbn in Hsnd, Hview. split; [done|]. rewrite Hview.
      by rewrite <- !app_assoc.
Qed.

Lemma buffered_loop_durable bs rows s buf :
  durable (fst (foldl (buffered_body flush bs) (s, buf) rows)) = durable s.
Proof.
  revert s buf. induction rows as [|row rows IH]; intros s buf; cbn; [done|].
  destruct (Py.len (buf ++ [row]) >=? bs); cbn; rewrite IH; auto.
Qed.

Lemma buffered_rest_view st :
  Forall (over_columns table) (snd st) →
  view (fst (buffered_rest flush st)) = view (fst st) ++ (to_tuple table <$> snd st).
Proof.
  destruct st as [s buf]. unfold buffered_rest. intros Hall.
  destruct (Z.gtb_spec (Py.len buf) 0) as [E|E]; cbn; [by apply flush_view|].
  destruct buf; [by rewrite app_nil_r|]. unfold Py.len in E. cbn in E. lia.
Qed.

Lemma buffered_rest_buffer st : snd (buffered_rest flush st) = [].
Proof.
  destruct st as [s buf]. unfold buffered_rest.
  destruct (Z.gtb_spec (Py.len buf) 0) as [E|E]; cbn; [done|].
  destruct buf; [done|]. unfold Py.len in E. cbn in E. lia.
Qed.

(** One invocation appends the tuples of all rows, in order, to the
    view and commits it. *)
Lemma buffered_insert_view s rows bs :
  Forall (over_columns table) rows →
  view (buffered_insert flush s rows bs) = view s ++ (to_tuple table <$> rows).
Proof.
  intros Hall. unfold buffered_insert. cbn.
  destruct (buffered_loop_view bs rows s [] Hall) as [Hsnd Hview].
  rewrite buffered_rest_view by done. exact Hview.
Qed.

Lemma buffered_insert_durable s rows bs :
  durable (buffered_insert flush s rows bs) = view (buffered_insert flush s rows bs).
Proof. reflexivity. Qed.

(** With a buffer size of at least one, the loop issues full batches
    only and leaves fewer than [bs] rows in the buffer. *)
Lemma buffered_loop_trace bs rows s buf :
  1 ≤ bs → Py.len buf < bs →
  let st := foldl (buffered_body flush bs) (s, buf) rows in
  ∃ batches,
    trace (fst st) = trace s ++ (stmt <$> batches)
    ∧ concat batches ++ snd st = buf ++ rows
    ∧ Forall (λ b, Py.len b = bs) batches
    ∧ Py.len (snd st) < bs.
Proof.
  intros Hbs. revert s buf.
  induction rows as [|row rows IH]; intros s buf Hbuf; cbn.
  - exists []. cbn. by rewrite !app_nil_r.
  - assert (Hlen : Py.len (buf ++ [row]) = Py.len buf + 1).
    { unfold Py.len. rewrite length_app. cbn. lia. }
    destruct (Z.geb_spec (Py.len (buf ++ [row])) bs) as [E|E]; cbn.
    + destruct (IH (flush s (buf ++ [row])) []) as (bt & Ht & Hc & Hf & Hl).
      { unfold Py.len. cbn. lia. }
      exists ((buf ++ [row]) :: bt). cbn in *. repeat split.
      * by rewrite Ht, flush_trace, <- app_assoc.
      * by rewrite <- !app_assoc, Hc.
      * constructor; [lia | done].
      * done.
    + destruct (IH s (buf ++ [row])) as (bt & Ht & Hc & Hf & Hl); [lia|].
      exists bt. cbn in *. repeat split; try done.
      by rewrite Hc, <- app_assoc.
Qed.


End Buffered.

(** The number of stored rows grows by the number of rows sent, whatever
    their keys. *)
Section BufferedCount.
Context (flush : Session → list Row → Session).

Hypothesis flush_count : ∀ s b,
  length (view (flush s b)) = (length (view s) + length b)%nat.

Lemma buffered_loop_count bs rows s buf :
  let st := foldl (buffered_body flush bs) (s, buf) rows in
  (length (view (fst st)) + length (snd st)
   = length (view s) + length buf + length rows)%nat.
Proof.
  revert s buf. induction rows as [|row rows IH]; intros s buf; cbn; [lia|].
  destruct (Py.len (buf ++ [row]) >=? bs); cbn.
  - specialize (IH (flush s (buf ++ [row])) []). cbn in IH. rewrite IH.
    rewrite flush_count, length_app. cbn. lia.
  - specialize (IH s (buf ++ [row])). cbn in IH. rewrite IH.
    rewrite length_app. cbn. lia.
Qed.

Lemma buffered_insert_count s rows bs :
  length (view (buffered_insert flush s rows bs))
  = (length (view s) + length rows)%nat.
Proof.
  unfold buffered_insert. cbn.
  pose proof (buffered_loop_count bs rows s []) as Hloop. cbn in Hloop.
  destruct (foldl (buffered_body flush bs) (s, []) rows) as [s' buf].
  cbn in *. unfold buffered_rest.
  destruct (Z.gtb_spec (Py.len buf) 0) as [E|E]; cbn.
  - rewrite flush_count. lia.
  - destruct buf; [cbn in Hloop; lia|]. unfold Py.len in E. cbn in E. lia.
Qed.

End BufferedCount.

(** A row sent on its own is stored as it is, whatever its keys. *)
Section BufferedSingletons.
Context (table : Table).
Context (flush : Session → list Row → Session).

Hypothesis flush_single : ∀ s row,
  view (flush s [row]) = view s ++ [to_tuple table row].


End BufferedSingletons.

(** ** The two strategies as instances of the discipline *)

Lemma insert_values_params_buffered session table rows buffer_size :
  insert_values_params session table rows buffer_size
  = buffered_insert (flush_values table) session rows buffer_size.
Proof. reflexivity. Qed.

Lemma insert_values_executemany_buffered session table rows buffer_size :
  insert_values_executemany session table rows buffer_size
  = buffered_insert (flush_executemany table) session rows buffer_size.
Proof. reflexivity. Qed.

Lemma bound_tuples_over_columns table first rows :
  over_columns table first → Forall (over_columns table) rows →
  bound_tuple table first <$> rows = to_tuple table <$> rows.
Proof.
  intros Hfirst Hall. apply list_fmap_ext. intros i row Hrow.
  apply bound_tuple_over_columns; [done|].
  rewrite Forall_forall in Hall. apply Hall. by eapply list_elem_of_lookup_2.
Qed.

Lemma flush_values_view table s b :
  Forall (over_columns table) b →
  view (flush_values table s b) = view s ++ (to_tuple table <$> b).
Proof.
  intros Hall. unfold flush_values, execute. cbn [view run_statement].
  destruct b as [|first b]; [by rewrite app_nil_r|].
  f_equal. apply bound_tuples_over_columns; [|done].
  by apply Forall_cons in Hall as [? _].
Qed.

(** Executing the single-row insert once per parameter set stores the
    same tuples as one multi-row statement. *)
Lemma executemany_fold table first params stored :
  foldl (λ acc row, acc ++ [bound_tuple table first row]) stored params
  = stored ++ (bound_tuple table first <$> params).
Proof.
  revert stored. induction params as [|row params IH]; intros stored; cbn.
  - by rewrite app_nil_r.
  - by rewrite IH, <- app_assoc.
Qed.

Lemma executemany_run table params stored :
  Forall (over_columns table) params →
  run_statement table Insert params stored = stored ++ (to_tuple table <$> params).
Proof.
  intros Hall. cbn [run_statement].
  destruct params as [|first params]; [by rewrite app_nil_r|].
  rewrite executemany_fold. f_equal. apply bound_tuples_over_columns; [|done].
  by apply Forall_cons in Hall as [? _].
Qed.

Lemma flush_executemany_view table s b :
  Forall (over_columns table) b →
  view (flush_executemany table s b) = view s ++ (to_tuple table <$> b).
Proof. apply executemany_run. Qed.

Lemma flush_values_count table s b :
  length (view (flush_values table s b)) = (length (view s) + length b)%nat.
Proof.
  unfold flush_values, execute. cbn [view run_statement].
  destruct b as [|first b]; [cbn; lia|].
  by rewrite length_app, length_fmap.
Qed.

Lemma flush_executemany_count table s b :
  length (view (flush_executemany table s b)) = (length (view s) + length b)%nat.
Proof.
  unfold flush_executemany, execute. cbn [view run_statement].
  destruct b as [|first b]; [cbn; lia|].
  by rewrite executemany_fold, length_app, length_fmap.
Qed.



Lemma insert_values_params_view s table rows bs :
  Forall (over_columns table) rows →
  view (insert_values_params s table rows bs) = view s ++ (to_tuple table <$> rows).
Proof.
  intros Hall. rewrite insert_values_params_buffered.
  apply buffered_insert_view; [apply flush_values_view | done].
Qed.

Lemma insert_values_executemany_view s table rows bs :
  Forall (over_columns table) rows →
  view (insert_values_executemany s table rows bs)
  = view s ++ (to_tuple table <$> rows).
Proof.
  intros Hall. rewrite insert_values_executemany_buffered.
  apply buffered_insert_view; [apply flush_executemany_view | done].
Qed.

Lemma strategy_count strategy s table rows bs :
  is_strategy strategy →
  length (view (strategy s table rows bs)) = (length (view s) + length rows)%nat.
Proof.
  intros [-> | ->].
  - rewrite insert_values_params_buffered.
    apply buffered_insert_count, flush_values_count.
  - rewrite insert_values_executemany_buffered.
    apply buffered_insert_count, flush_executemany_count.
Qed.

Lemma count_commits_issued stmt full rest :
  (∀ b, is_commit (stmt b) = false) → count_commits (issued stmt full rest) = 1%nat.
Proof.
  intros Hstmt. unfold count_commits, issued.
  rewrite !filter_app, !length_app.
  assert (Hfull : filter (λ e, is_commit e = true) (stmt <$> full) = []).
  { induction full as [|b full IH]; [done|].
    rewrite fmap_cons, filter_cons_False; [done | by rewrite Hstmt]. }
  rewrite Hfull. destruct (decide (rest = [])); [done|].
  rewrite filter_cons_False; [done | by rewrite Hstmt].
Qed.

(** Trace of one invocation of the shared discipline, for a buffer size
    of at least one. *)
Lemma buffered_insert_trace stmt flush s rows bs :
  (∀ s b, trace (flush s b) = trace s ++ [stmt b]) →
  1 ≤ bs →
  ∃ full rest,
    trace (buffered_insert flush s rows bs) = trace s ++ issued stmt full rest
    ∧ concat full ++ rest = rows
    ∧ Forall (λ b, Py.len b = bs) full
    ∧ Py.len rest < bs.
Proof.
  intros Hflush Hbs.
  destruct (buffered_loop_trace stmt flush Hflush bs rows s []) as (full & Ht & Hc & Hf & Hl);
    [done | unfold Py.len; cbn; lia |].
  cbn in Ht, Hc, Hl. unfold buffered_insert.
  destruct (foldl (buffered_body flush bs) (s, []) rows) as [s' rest] eqn:Hloop.
  cbn in Ht, Hc, Hl. exists full, rest. repeat split; try done.
  unfold buffered_rest, issued.
  destruct (Z.gtb_spec (Py.len rest) 0) as [E|E]; cbn.
  - destruct (decide (rest = [])) as [->|_]; [unfold Py.len in E; cbn in E; lia|].
    by rewrite Hflush, Ht, <- !app_assoc.
  - destruct (decide (rest = [])) as [_|Hne].
    + by rewrite Ht, <- !app_assoc.
    + destruct rest; [done|]. unfold Py.len in E. cbn in E. lia.
Qed.

(** ** Row counts *)

Lemma timeit_iter_count (stmt : Session → Session) (n : nat) :
  (∀ s, length (view (stmt s)) = (length (view s) + n)%nat) →
  ∀ (k : nat) s,
    length (view (Nat.iter k stmt s)) = (length (view s) + k * n)%nat.
Proof.
  intros Hstmt k s. induction k as [|k IH]; [cbn; lia|].
  rewrite Nat.iter_succ, Hstmt, IH. lia.
Qed.

Lemma timeit_repeat_run_iter (stmt : Session → Session) repeat number s :
  timeit_repeat_run stmt repeat number s
  = Nat.iter (Z.to_nat repeat * Z.to_nat number) stmt s.
Proof.
  unfold timeit_repeat_run. induction (Z.to_nat repeat) as [|r IH]; [done|].
  rewrite Nat.iter_succ, IH. change (S r * Z.to_nat number)%nat
    with (Z.to_nat number + r * Z.to_nat number)%nat.
  by rewrite Nat.iter_add.
Qed.

Lemma length_range n : length (Py.range n) = Z.to_nat n.
Proof. unfold Py.range. by rewrite length_fmap, length_seq. Qed.

Lemma length_generate_rows table number_of_rows row_pad col_pad :
  length (generate_rows table number_of_rows row_pad col_pad)
  = Z.to_nat number_of_rows.
Proof. unfold generate_rows. by rewrite length_fmap, length_range. Qed.

Lemma strategy_view strategy s table rows bs :
  is_strategy strategy → Forall (over_columns table) rows →
  view (strategy s table rows bs) = view s ++ (to_tuple table <$> rows).
Proof.
  intros [-> | ->] Hall;
    [by apply insert_values_params_view | by apply insert_values_executemany_view].
Qed.

(** ** Flushes and the commit *)

Lemma buffered_body_clears flush bs s buf row :
  buffered_body flush bs (s, buf) row = (flush s (buf ++ [row]), [])
  ∧ bs ≤ Py.len (buf ++ [row])
  ∨ buffered_body flush bs (s, buf) row = (s, buf ++ [row])
    ∧ Py.len (buf ++ [row]) < bs.
Proof.
  unfold buffered_body.
  destruct (Z.geb_spec (Py.len (buf ++ [row])) bs); [left | right]; done.
Qed.



(** ** [check_and_clean] *)

(** Closes a goal [e ∉ l] for an explicit list [l] of other events. *)
Ltac absent :=
  let H := fresh in
  intros H;
  repeat (apply elem_of_cons in H as [H|H]; [discriminate H|]);
  by apply elem_of_nil in H.

Lemma check_and_clean_cases session table number_of_rows number_of_cols
    timeit_number timeit_repeat :
  let result := check_and_clean session table number_of_rows number_of_cols
                                timeit_number timeit_repeat in
  let counted := execute session table SelectCount [] in
  let queried := execute counted table SelectOrderByDesc [] in
  (¬ count_holds session number_of_rows timeit_number timeit_repeat
   ∧ result = (AssertionError, counted))
  ∨ (count_holds session number_of_rows timeit_number timeit_repeat
     ∧ columns table = [] ∧ result = (IndexError, counted))
  ∨ (count_holds session number_of_rows timeit_number timeit_repeat
     ∧ columns table ≠ [] ∧ last_row_val session = None
     ∧ (result = (TypeError, queried) ∨ result = (IndexError, queried)))
  ∨ (count_holds session number_of_rows timeit_number timeit_repeat
     ∧ columns table ≠ []
     ∧ (∃ v, last_row_val session = Some v)
     ∧ ¬ last_val_holds session number_of_rows number_of_cols
     ∧ result = (AssertionError, queried))
  ∨ (count_holds session number_of_rows timeit_number timeit_repeat
     ∧ last_val_holds session number_of_rows number_of_cols
     ∧ result = (Returned, commit (execute queried table Delete []))).
Proof.
  unfold check_and_clean, select_count, query_first_desc, count_holds,
    last_val_holds, last_row_val. cbn zeta.
  destruct (Z.eqb_spec (Py.len (view session))
              (timeit_repeat * timeit_number * number_of_rows)) as [Hc|Hc]; cbn [negb].
  2: { left. done. }
  right. destruct (columns table) as [|col cols] eqn:Hcols.
  { left. done. }
  right. change (view (execute session table SelectCount [])) with (view session).
  destruct (first_desc (view session)) as [row|] eqn:Hrow; cbn [mbind option_bind].
  2: { left. repeat split; try done. by left. }
  destruct (last row) as [val|] eqn:Hval.
  2: { left. repeat split; try done. by right. }
  right. case_bool_decide as Hv.
  - right. subst val. done.
  - left. repeat split; try done; [by eexists | congruence].
Qed.

(** C7. When the count assertion or the last-value assertion of
    [check_and_clean] fails, the call ends with [AssertionError] before
    the delete: only the queries were issued, and the rows the session
    sees and the committed rows are unchanged.  Whenever the call does
    not return, no delete and no commit were issued; when it returns,
    both assertions held and the delete and the commit followed the two
    queries. *)
Theorem check_and_clean_failure session table number_of_rows number_of_cols
    timeit_number timeit_repeat :
  let result := check_and_clean session table number_of_rows number_of_cols
                                timeit_number timeit_repeat in
  (¬ count_holds session number_of_rows timeit_number timeit_repeat →
   fst result = AssertionError
   ∧ added session (snd result) = [Execute SelectCount []])
  ∧ (count_holds session number_of_rows timeit_number timeit_repeat →
     columns table ≠ [] →
     (∃ v, last_row_val session = Some v) →
     ¬ last_val_holds session number_of_rows number_of_cols →
     fst result = AssertionError
     ∧ added session (snd result)
       = [Execute SelectCount []; Execute SelectOrderByDesc []])
  ∧ (fst result ≠ Returned →
     view (snd result) = view session
     ∧ durable (snd result) = durable session
     ∧ (Execute Delete [] ∉ added session (snd result))
     ∧ (Commit ∉ added session (snd result)))
  ∧ (fst result = Returned →
     count_holds session number_of_rows timeit_number timeit_repeat
     ∧ last_val_holds session number_of_rows number_of_cols
     ∧ added session (snd result)
       = [Execute SelectCount []; Execute SelectOrderByDesc [];
          Execute Delete []; Commit]).
Proof.
  assert (Hadd : ∀ s evs, drop (length (trace s)) (trace s ++ evs) = evs).
  { intros s evs. by rewrite drop_app_length. }
  pose proof (check_and_clean_cases session table number_of_rows number_of_cols
                timeit_number timeit_repeat) as Hcases.
  cbn zeta in *. unfold added, last_val_holds in *.
  destruct Hcases as [[Hc ->] | [(Hc & Hcols & ->) | [(Hc & Hcols & Hv & Hr)
                     | [(Hc & Hcols & Hv & Hnv & ->) | (Hc & Hv & ->)]]]];
    cbn [fst snd].
  - cbn. rewrite Hadd. repeat split; try done; absent.
  - cbn. rewrite Hadd. repeat split; try done; absent.
  - destruct Hr as [-> | ->]; cbn; rewrite <- app_assoc, Hadd; cbn.
    all: repeat split; try done; try congruence; try absent.
    all: exfalso; match goal with H : ∃ _, _ |- _ => destruct H end; congruence.
  - cbn. rewrite <- app_assoc, Hadd. cbn. repeat split; try done; absent.
  - cbn. rewrite <- !app_assoc, Hadd. cbn. repeat split; try done.
Qed.

Lemma check_and_clean_failure_witness :
  let table := snd (setup_db None "sqlite:///app.db" 1 2 0 0) in
  let rows := generate_rows table 2 0 0 in
  let session :=
    insert_values_params (Session_open (Build_Engine "sqlite:///app.db" (Some [])))
                         table rows 1000 in
  let result := check_and_clean session table 3 1 1 1 in
  fst result = AssertionError
  ∧ view (snd result) = view session
  ∧ (Execute Delete [] ∉ added session (snd result)).
Proof.
  pose proof (check_and_clean_failure
    (insert_values_params (Session_open (Build_Engine "sqlite:///app.db" (Some [])))
       (snd (setup_db None "sqlite:///app.db" 1 2 0 0))
       (generate_rows (snd (setup_db None "sqlite:///app.db" 1 2 0 0)) 2 0 0) 1000)
    (snd (setup_db None "sqlite:///app.db" 1 2 0 0)) 3 1 1 1) as (Hcount & _ & Hfail & _).
  assert (Hne : ¬ count_holds
    (insert_values_params (Session_open (Build_Engine "sqlite:///app.db" (Some [])))
       (snd (setup_db None "sqlite:///app.db" 1 2 0 0))
       (generate_rows (snd (setup_db None "sqlite:///app.db" 1 2 0 0)) 2 0 0) 1000)
    3 1 1).
  { unfold count_holds. vm_compute. discriminate. }
  destruct (Hcount Hne) as [Hout _].
  assert (Hnr : fst (check_and_clean
    (insert_values_params (Session_open (Build_Engine "sqlite:///app.db" (Some [])))
       (snd (setup_db None "sqlite:///app.db" 1 2 0 0))
       (generate_rows (snd (setup_db None "sqlite:///app.db" 1 2 0 0)) 2 0 0) 1000)
    (snd (setup_db None "sqlite:///app.db" 1 2 0 0)) 3 1 1 1) ≠ Returned).
  { rewrite Hout. discriminate. }
  destruct (Hfail Hnr) as (Hview & _ & Hdel & _).
  split; [exact Hout | split; [exact Hview | exact Hdel]].
Defined.

(** C8. When [check_and_clean] returns, the table is empty: the session
    sees no rows and no rows are committed. *)
Theorem check_and_clean_empties session table number_of_rows number_of_cols
    timeit_number timeit_repeat :
  fst (check_and_clean session table number_of_rows number_of_cols
                       timeit_number timeit_repeat) = Returned →
  let session' := snd (check_and_clean session table number_of_rows number_of_cols
                                       timeit_number timeit_repeat) in
  view session' = [] ∧ durable session' = []
  ∧ fst (select_count session' table) = 0.
Proof.
  intros Hret.
  pose proof (check_and_clean_cases session table number_of_rows number_of_cols
                timeit_number timeit_repeat) as Hcases.
  cbn zeta in *.
  destruct Hcases as [[Hc Hr] | [(Hc & Hcols & Hr) | [(Hc & Hcols & Hv & Hr)
                     | [(Hc & Hcols & Hv & Hnv & Hr) | (Hc & Hv & Hr)]]]].
  5: { rewrite Hr. done. }
  all: try (rewrite Hr in Hret; discriminate Hret).
  destruct Hr as [Hr | Hr]; rewrite Hr in Hret; discriminate Hret.
Qed.

Lemma check_and_clean_empties_witness :
  let table := snd (setup_db None "sqlite:///app.db" 3 2 0 0) in
  let rows := generate_rows table 2 0 0 in
  let session :=
    insert_values_executemany
      (Session_open (Build_Engine "sqlite:///app.db" (Some []))) table rows 1 in
  view session ≠ []
  ∧ view (snd (check_and_clean session table 2 3 1 1)) = [].
Proof.
  split; [vm_compute; discriminate|].
  refine (proj1 (check_and_clean_empties
    (insert_values_executemany
       (Session_open (Build_Engine "sqlite:///app.db" (Some [])))
       (snd (setup_db None "sqlite:///app.db" 3 2 0 0))
       (generate_rows (snd (setup_db None "sqlite:///app.db" 3 2 0 0)) 2 0 0) 1)
    (snd (setup_db None "sqlite:///app.db" 3 2 0 0)) 2 3 1 1 _)).
  vm_compute. reflexivity.
Defined.

(** ** Decimal formatting *)

Lemma digits_fuel_acc fuel n acc :
  Py.digits_fuel fuel n acc = Py.digits_fuel fuel n [] ++ acc.
Proof.
  revert n acc. induction fuel as [|fuel IH]; intros n acc; cbn; [done|].
  destruct (n <? 10); [done|].
  rewrite (IH _ (_ :: acc)), (IH _ [_]), <- app_assoc. done.
Qed.

Lemma undigits_snoc ds d : undigits (ds ++ [d]) = 10 * undigits ds + d.
Proof. unfold undigits. by rewrite foldl_app. Qed.

Lemma digits_fuel_spec fuel n :
  0 ≤ n → (Z.to_nat n < fuel)%nat →
  undigits (Py.digits_fuel fuel n []) = n
  ∧ Forall is_digit (Py.digits_fuel fuel n []).
Proof.
  revert n. induction fuel as [|fuel IH]; intros n Hn Hfuel; [lia|]. cbn.
  destruct (Z.ltb_spec n 10) as [Hlt|Hge].
  - split; [unfold undigits; cbn; lia|]. repeat constructor; lia.
  - rewrite digits_fuel_acc.
    assert (Hdiv : 0 ≤ n / 10 < n).
    { split; [apply Z.div_pos; lia | apply Z.div_lt; lia]. }
    destruct (IH (n / 10)) as [Hval Hdig]; [lia | lia |].
    split.
    + rewrite undigits_snoc, Hval. symmetry. apply Z.div_mod. lia.
    + apply Forall_app. split; [done|].
      repeat constructor; apply Z.mod_pos_bound; lia.
Qed.

Lemma undigits_digits n : 0 ≤ n → undigits (Py.digits n) = n.
Proof. intros Hn. apply digits_fuel_spec; [done | lia]. Qed.

Lemma digits_is_digit n : 0 ≤ n → Forall is_digit (Py.digits n).
Proof. intros Hn. apply digits_fuel_spec; [done | lia]. Qed.

Lemma undigits_zfill w ds : undigits (Py.zfill w ds) = undigits ds.
Proof.
  unfold Py.zfill, undigits. rewrite foldl_app.
  assert (Hz : ∀ k, foldl (λ a d : Z, 10 * a + d) 0 (replicate k 0) = 0).
  { intros k. induction k as [|k IH]; cbn; [done|]. exact IH. }
  by rewrite Hz.
Qed.

Lemma zfill_is_digit w ds : Forall is_digit ds → Forall is_digit (Py.zfill w ds).
Proof.
  intros Hds. unfold Py.zfill. apply Forall_app. split; [|done].
  apply Forall_replicate. unfold is_digit. lia.
Qed.

Lemma digit_char_inj d1 d2 :
  is_digit d1 → is_digit d2 → Py.digit_char d1 = Py.digit_char d2 → d1 = d2.
Proof.
  unfold is_digit, Py.digit_char. intros H1 H2 Heq.
  apply (f_equal nat_of_ascii) in Heq.
  rewrite !nat_ascii_embedding in Heq by lia. lia.
Qed.

Lemma render_inj ds1 ds2 :
  Forall is_digit ds1 → Forall is_digit ds2 →
  Py.render ds1 = Py.render ds2 → ds1 = ds2.
Proof.
  intros H1. revert ds2. induction H1 as [|d1 ds1 Hd1 _ IH];
    intros ds2 H2 Heq; destruct H2 as [|d2 ds2 Hd2 H2]; cbn in Heq;
    try discriminate; [done|].
  injection Heq as Hc Hr. f_equal; [by apply digit_char_inj | by apply IH].
Qed.

(** Zero-padded formatting loses nothing: distinct non-negative indices
    give distinct strings, whatever the width. *)
Lemma format_zero_inj w i j :
  0 ≤ i → 0 ≤ j → Py.format_zero w i = Py.format_zero w j → i = j.
Proof.
  intros Hi Hj. unfold Py.format_zero.
  destruct (Z.ltb_spec i 0); [lia|]. destruct (Z.ltb_spec j 0); [lia|].
  intros Heq. apply render_inj in Heq;
    [| by apply zfill_is_digit, digits_is_digit ..].
  apply (f_equal undigits) in Heq.
  by rewrite !undigits_zfill, !undigits_digits in Heq.
Qed.

(** ** Columns and generated rows *)

Lemma range_elem i n : i ∈ Py.range n ↔ 0 ≤ i < n.
Proof.
  unfold Py.range. rewrite list_elem_of_fmap. split.
  - intros (k & -> & Hk). apply elem_of_seq in Hk. lia.
  - intros Hi. exists (Z.to_nat i). split; [lia|]. apply elem_of_seq. lia.
Qed.

Lemma range_NoDup n : NoDup (Py.range n).
Proof.
  unfold Py.range. apply NoDup_fmap_2; [|apply NoDup_seq].
  intros a b Hab. lia.
Qed.

Lemma range_lookup n i :
  0 ≤ i < n → Py.range n !! Z.to_nat i = Some i.
Proof.
  intros Hi. unfold Py.range. rewrite list_lookup_fmap, lookup_seq_lt by lia.
  cbn. f_equal. lia.
Qed.

Lemma enumerate_fmap_range {A} (f : Z → A) n :
  Py.enumerate (f <$> Py.range n) = (λ i, (i, f i)) <$> Py.range n.
Proof.
  unfold Py.enumerate. rewrite length_fmap, length_range.
  assert (Hr : Py.range (Z.of_nat (Z.to_nat n)) = Py.range n).
  { unfold Py.range. by rewrite Nat2Z.id. }
  rewrite Hr, zip_with_fmap_r, zip_with_diag. done.
Qed.

Lemma setup_db_column_names database connect_str number_of_cols number_of_rows
    col_pad row_pad :
  column_names (snd (setup_db database connect_str number_of_cols number_of_rows
                              col_pad row_pad))
  = column_name col_pad <$> Py.range number_of_cols.
Proof. unfold column_names. cbn. by rewrite <- list_fmap_compose. Qed.

Lemma column_name_inj col_pad i j :
  0 ≤ i → 0 ≤ j → column_name col_pad i = column_name col_pad j → i = j.
Proof.
  intros Hi Hj Heq. unfold column_name in Heq.
  apply String.app_inj in Heq. by apply (format_zero_inj col_pad).
Qed.

Lemma column_names_NoDup col_pad n :
  NoDup (column_name col_pad <$> Py.range n).
Proof.
  apply NoDup_fmap_2_strong; [|apply range_NoDup].
  intros i j Hi Hj. apply range_elem in Hi, Hj.
  apply column_name_inj; lia.
Qed.

(** A [dict] comprehension over keys that do not repeat binds every key
    to its own value and has no other keys. *)
Lemma dict_comprehension_lookup (key val : Z → string) (l : list Z) (d : Row) j :
  NoDup (key <$> l) → j ∈ l →
  foldl (λ d i, <[key i := val i]> d) d l !! key j = Some (val j).
Proof.
  revert d. induction l as [|i l IH]; intros d Hnd Hj; [by apply elem_of_nil in Hj|].
  rewrite fmap_cons in Hnd. apply NoDup_cons in Hnd as [Hi Hnd]. cbn.
  destruct (decide (j ∈ l)) as [Hin|Hnin]; [by apply IH|].
  apply elem_of_cons in Hj as [->|Hj]; [|done].
  clear IH Hnd Hnin. revert d.
  induction l as [|k l IH]; intros d; cbn; [by rewrite lookup_insert_eq|].
  rewrite fmap_cons, not_elem_of_cons in Hi. destruct Hi as [Hne Hi].
  rewrite insert_insert_ne by done. by apply IH.
Qed.

Lemma dict_comprehension_dom (key val : Z → string) (l : list Z) (d : Row) :
  dom (foldl (λ d i, <[key i := val i]> d) d l)
  = dom d ∪ list_to_set (key <$> l).
Proof.
  revert d. induction l as [|i l IH]; intros d; cbn.
  - by rewrite union_empty_r_L.
  - rewrite IH, dom_insert_L, (comm_L (∪) {[key i]} (dom d)), <- (assoc_L (∪)).
    done.
Qed.

Lemma generate_row_range database connect_str number_of_cols number_of_rows
    col_pad row_pad row_pad' col_pad' r :
  generate_row (snd (setup_db database connect_str number_of_cols number_of_rows
                              col_pad row_pad)) row_pad' col_pad' r
  = foldl (λ d c, <[column_name col_pad c := cell_value row_pad' col_pad' r c]> d)
          ∅ (Py.range number_of_cols).
Proof.
  unfold generate_row. cbn [snd setup_db columns].
  rewrite enumerate_fmap_range, foldl_fmap. done.
Qed.

(** C5. For [number_of_cols >= 1] and [number_of_rows >= 0], the table
    has exactly [number_of_cols] columns, column [i] is named ['col']
    followed by the zero-padded index [i], the names are pairwise
    distinct, there are exactly [number_of_rows] rows, and row [r] binds
    every column name to one value, the cell value of [(r, c)], and has
    no other key. *)
Theorem generated_schema_and_rows database connect_str number_of_cols
    number_of_rows :
  1 ≤ number_of_cols → 0 ≤ number_of_rows →
  let col_pad := Py.len_str (Py.str number_of_cols) - 1 in
  let row_pad := Py.len_str (Py.str number_of_rows) - 1 in
  let table := snd (setup_db database connect_str number_of_cols number_of_rows
                             col_pad row_pad) in
  let rows := generate_rows table number_of_rows row_pad col_pad in
  Py.len (columns table) = number_of_cols
  ∧ NoDup (column_names table)
  ∧ (∀ c, 0 ≤ c < number_of_cols →
       column_names table !! Z.to_nat c = Some ("col" +:+ Py.format_zero col_pad c))
  ∧ Py.len rows = number_of_rows
  ∧ (∀ r, 0 ≤ r < number_of_rows →
       ∃ row, rows !! Z.to_nat r = Some row
         ∧ dom row = list_to_set (column_names table)
         ∧ size row = Z.to_nat number_of_cols
         ∧ ∀ c, 0 ≤ c < number_of_cols →
             row !! ("col" +:+ Py.format_zero col_pad c)
             = Some (cell_value row_pad col_pad r c)).
Proof.
  intros Hcols Hrows col_pad row_pad table rows.
  assert (Hnames : column_names table = column_name col_pad <$> Py.range number_of_cols)
    by apply setup_db_column_names.
  assert (Hnd : NoDup (column_names table)).
  { rewrite Hnames. apply column_names_NoDup. }
  split; [|split; [|split; [|split]]].
  - unfold Py.len, table. cbn. rewrite length_fmap, length_range. lia.
  - exact Hnd.
  - intros c Hc. rewrite Hnames, list_lookup_fmap, range_lookup by done. done.
  - unfold Py.len, rows. rewrite length_generate_rows. lia.
  - intros r Hr. exists (generate_row table row_pad col_pad r).
    assert (Hdom : dom (generate_row table row_pad col_pad r)
                   = list_to_set (column_names table)).
    { unfold table. rewrite generate_row_range, dict_comprehension_dom.
      rewrite dom_empty_L, union_empty_l_L. fold table. by rewrite Hnames. }
    split; [|split; [|split]].
    + unfold rows, generate_rows.
      rewrite list_lookup_fmap, range_lookup by done. done.
    + exact Hdom.
    + rewrite <- size_dom, Hdom, size_list_to_set by done.
      rewrite Hnames, length_fmap, length_range. done.
    + intros c Hc. unfold table. rewrite generate_row_range.
      apply (dict_comprehension_lookup (column_name col_pad)
               (cell_value row_pad col_pad r)).
      * apply column_names_NoDup.
      * by apply range_elem.
Qed.

Lemma generated_schema_and_rows_witness :
  let table := snd (setup_db None "sqlite:///app.db" 3 2 0 0) in
  column_names table = ["col0"; "col1"; "col2"]
  ∧ Py.len (generate_rows table 2 0 0) = 2.
Proof.
  assert (H3 : 1 ≤ 3) by lia. assert (H2 : 0 ≤ 2) by lia.
  pose proof (generated_schema_and_rows None "sqlite:///app.db" 3 2 H3 H2)
    as (_ & _ & _ & Hlen & _).
  split; [vm_compute; reflexivity | exact Hlen].
Defined.

(** ** Where the script misses its own checks *)

(** C3. With 11 rows and one column the rows are padded to one digit,
    so the first column of row 9, ["row9_col0"], sorts after that of row
    10, ["row10_col0"]: the row count is as asserted, but the last column
    of the row that sorts last is ["row9_col0"] and not the expected
    ["row10_col0"], and the second assertion of [check_and_clean] fails
    in the first trial of [benchmark]. *)
Theorem last_row_check_fails_for_11_rows :
  let number_of_cols := 1 in
  let number_of_rows := 11 in
  let col_pad := Py.len_str (Py.str number_of_cols) - 1 in
  let row_pad := Py.len_str (Py.str number_of_rows) - 1 in
  let '(engine, table) :=
    setup_db None "sqlite:///app.db" number_of_cols number_of_rows col_pad row_pad in
  let rows := generate_rows table number_of_rows row_pad col_pad in
  let session :=
    timeit_repeat_run (λ s, insert_values_params s table rows 1000) 1 1
                      (execute (Session_open engine) table Delete []) in
  (col_pad, row_pad) = (0, 1)
  ∧ count_holds session number_of_rows 1 1
  ∧ last_row_val session = Some (Some "row9_col0")
  ∧ expected_last_val number_of_rows number_of_cols = "row10_col0"
  ∧ String.ltb "row10_col0" "row9_col0" = true
  ∧ fst (check_and_clean session table number_of_rows number_of_cols 1 1)
    = AssertionError
  ∧ fst (benchmark None "sqlite:///app.db" number_of_cols number_of_rows 1 1 1000)
    = AssertionError.
Proof. vm_compute. repeat split; reflexivity. Qed.

(** C9. With one row and one column both pad widths are 0, the column is
    declared [String(8)], and the only generated value, ["row0_col0"],
    has 9 characters. *)
Theorem cell_value_exceeds_declared_width :
  let number_of_cols := 1 in
  let number_of_rows := 1 in
  let col_pad := Py.len_str (Py.str number_of_cols) - 1 in
  let row_pad := Py.len_str (Py.str number_of_rows) - 1 in
  let table :=
    snd (setup_db None "sqlite:///app.db" number_of_cols number_of_rows
                  col_pad row_pad) in
  (col_pad, row_pad) = (0, 0)
  ∧ width <$> columns table = [8]
  ∧ to_tuple table <$> generate_rows table number_of_rows row_pad col_pad
    = [[Some "row0_col0"]]
  ∧ cell_value row_pad col_pad 0 0 = "row0_col0"
  ∧ Py.len_str (cell_value row_pad col_pad 0 0) = 9
  ∧ ¬ Py.len_str (cell_value row_pad col_pad 0 0) ≤ col_pad + row_pad + 8.
Proof. vm_compute. repeat split; try reflexivity. intros H. apply H. reflexivity. Qed.

(** *** How far a cell value can exceed the declared width *)

Lemma length_str_app (s1 s2 : string) :
  String.length (s1 +:+ s2) = (String.length s1 + String.length s2)%nat.
Proof.
  induction s1 as [|a s1 IH]; [done|].
  change (S (String.length (s1 +:+ s2))
          = S (String.length s1 + String.length s2)).
  by rewrite IH.
Qed.

Lemma length_render ds : String.length (Py.render ds) = length ds.
Proof. induction ds as [|d ds IH]; cbn; [done|]. by rewrite IH. Qed.

Lemma digits_fuel_length_pos fuel n :
  (0 < fuel)%nat → (1 ≤ length (Py.digits_fuel fuel n []))%nat.
Proof.
  destruct fuel as [|fuel]; [lia|]. intros _. cbn.
  destruct (n <? 10); cbn; [lia|].
  rewrite digits_fuel_acc, length_app. cbn. lia.
Qed.

(** A smaller number has no more digits, whatever fuel each was given,
    as long as it was enough. *)
Lemma digits_fuel_length_mono fuel1 fuel2 a b :
  0 ≤ a ≤ b → (Z.to_nat a < fuel1)%nat → (Z.to_nat b < fuel2)%nat →
  (length (Py.digits_fuel fuel1 a []) ≤ length (Py.digits_fuel fuel2 b []))%nat.
Proof.
  revert fuel2 a b. induction fuel1 as [|fuel1 IH]; intros fuel2 a b Hab Ha Hb; [lia|].
  cbn. destruct (Z.ltb_spec a 10) as [Hlt|Hge].
  - cbn. apply digits_fuel_length_pos. lia.
  - destruct fuel2 as [|fuel2]; [lia|]. cbn.
    destruct (Z.ltb_spec b 10) as [Hb10|_]; [lia|].
    rewrite (digits_fuel_acc fuel1), (digits_fuel_acc fuel2), !length_app. cbn.
    assert (Ha' : 0 ≤ a / 10 < a) by (split; [apply Z.div_pos | apply Z.div_lt]; lia).
    assert (Hb' : 0 ≤ b / 10 < b) by (split; [apply Z.div_pos | apply Z.div_lt]; lia).
    assert (Hdiv : a / 10 ≤ b / 10) by (apply Z.div_le_mono; lia).
    specialize (IH fuel2 (a / 10) (b / 10)). lia.
Qed.

Lemma digits_length_mono a b :
  0 ≤ a ≤ b → (length (Py.digits a) ≤ length (Py.digits b))%nat.
Proof. intros Hab. apply digits_fuel_length_mono; lia. Qed.

(** An index below the count is printed in at most one character more
    than the pad width derived from the count. *)
Lemma format_zero_length n i :
  0 ≤ i < n →
  Py.len_str (Py.format_zero (Py.len_str (Py.str n) - 1) i)
  ≤ Py.len_str (Py.str n).
Proof.
  intros Hi. unfold Py.format_zero, Py.str, Py.len_str.
  destruct (Z.ltb_spec i 0); [lia|]. destruct (Z.ltb_spec n 0); [lia|].
  rewrite !length_render. unfold Py.zfill, Py.len.
  rewrite length_app, length_replicate.
  pose proof (digits_length_mono i n). lia.
Qed.

(** The width that always suffices is [col_pad + row_pad + 9]. *)
Lemma cell_value_length number_of_cols number_of_rows r c :
  0 ≤ r < number_of_rows → 0 ≤ c < number_of_cols →
  let col_pad := Py.len_str (Py.str number_of_cols) - 1 in
  let row_pad := Py.len_str (Py.str number_of_rows) - 1 in
  Py.len_str (cell_value row_pad col_pad r c) ≤ col_pad + row_pad + 9.
Proof.
  intros Hr Hc col_pad row_pad.
  pose proof (format_zero_length number_of_rows r Hr) as Hrow.
  pose proof (format_zero_length number_of_cols c Hc) as Hcol.
  fold row_pad in Hrow. fold col_pad in Hcol.
  unfold cell_value. unfold Py.len_str in *.
  rewrite !length_str_app. cbn [String.length].
  lia.
Qed.

(** * Further properties of the script *)

(** ** Decimal digits: recursion equations and size *)

Lemma digits_fuel_enough fuel1 fuel2 n :
  0 ≤ n → (Z.to_nat n < fuel1)%nat → (Z.to_nat n < fuel2)%nat →
  Py.digits_fuel fuel1 n [] = Py.digits_fuel fuel2 n [].
Proof.
  revert fuel2 n. induction fuel1 as [|fuel1 IH]; intros fuel2 n Hn H1 H2; [lia|].
  destruct fuel2 as [|fuel2]; [lia|]. cbn.
  destruct (Z.ltb_spec n 10) as [Hlt|Hge]; [done|].
  rewrite (digits_fuel_acc fuel1), (digits_fuel_acc fuel2).
  assert (Hdiv : 0 ≤ n / 10 < n) by (split; [apply Z.div_pos | apply Z.div_lt]; lia).
  f_equal. apply IH; lia.
Qed.

Lemma digits_fuel_S fuel n acc :
  Py.digits_fuel (S fuel) n acc
  = if n <? 10 then n :: acc
    else Py.digits_fuel fuel (n / 10) (n `mod` 10 :: acc).
Proof. reflexivity. Qed.

Lemma digits_small n : 0 ≤ n < 10 → Py.digits n = [n].
Proof.
  intros Hn. unfold Py.digits. cbn. destruct (Z.ltb_spec n 10); [done | lia].
Qed.

Lemma digits_step n : 10 ≤ n → Py.digits n = Py.digits (n / 10) ++ [n `mod` 10].
Proof.
  intros Hn. unfold Py.digits. rewrite digits_fuel_S.
  destruct (Z.ltb_spec n 10); [lia|].
  rewrite digits_fuel_acc. f_equal.
  assert (Hdiv : 0 ≤ n / 10 < n) by (split; [apply Z.div_pos | apply Z.div_lt]; lia).
  apply digits_fuel_enough; lia.
Qed.

(** A positive number with [k] digits lies between [10^(k-1)] and [10^k]. *)
Lemma digits_length_bounds n :
  0 ≤ n →
  1 ≤ Py.len (Py.digits n)
  ∧ n < 10 ^ Py.len (Py.digits n)
  ∧ (1 ≤ n → 10 ^ (Py.len (Py.digits n) - 1) ≤ n).
Proof.
  intros Hn. pattern n. apply Z_lt_induction; [|done]. clear n Hn.
  intros n IH.
  destruct (Z.lt_ge_cases n 0) as [Hneg|Hn].
  { unfold Py.digits. rewrite digits_fuel_S.
    destruct (Z.ltb_spec n 10); [|lia]. unfold Py.len. cbn. lia. }
  destruct (Z.lt_ge_cases n 10) as [Hlt|Hge].
  - rewrite digits_small by lia. unfold Py.len. cbn. lia.
  - rewrite digits_step by done. unfold Py.len in *. rewrite length_app.
    cbn [length].
    assert (Hdiv : 0 ≤ n / 10 < n) by (split; [apply Z.div_pos | apply Z.div_lt]; lia).
    destruct (IH (n / 10)) as (Hpos & Hup & Hlow); [lia|].
    assert (1 ≤ n / 10) by (apply Z.div_le_lower_bound; lia).
    specialize (Hlow ltac:(lia)).
    set (k := Z.of_nat (length (Py.digits (n / 10)))) in *.
    replace (Z.of_nat (length (Py.digits (n / 10)) + 1)) with (k + 1) by lia.
    replace (k + 1 - 1) with ((k - 1) + 1) by lia.
    rewrite !Z.pow_add_r by lia. change (10 ^ 1) with 10.
    pose proof (Z.div_mod n 10 ltac:(lia)) as Hdm.
    pose proof (Z.mod_pos_bound n 10 ltac:(lia)) as Hmod.
    split; [lia|]. split; [lia|]. intros _. lia.
Qed.

Lemma digits_length_le n w :
  0 ≤ n < 10 ^ w → 1 ≤ w → Py.len (Py.digits n) ≤ w.
Proof.
  intros Hn Hw. destruct (digits_length_bounds n) as (Hpos & _ & Hlow); [lia|].
  destruct (Z.le_gt_cases (Py.len (Py.digits n)) w) as [|Hgt]; [done|].
  destruct (Z.eq_dec n 0) as [->|Hnz].
  - rewrite digits_small in * by lia. unfold Py.len in *. cbn in *. lia.
  - specialize (Hlow ltac:(lia)).
    assert (10 ^ w ≤ 10 ^ (Py.len (Py.digits n) - 1))
      by (apply Z.pow_le_mono_r; lia).
    lia.
Qed.

Lemma digits_length_ge n w :
  0 ≤ w → 10 ^ w ≤ n → w + 1 ≤ Py.len (Py.digits n).
Proof.
  intros Hw Hn.
  assert (0 < 10 ^ w) by (apply Z.pow_pos_nonneg; lia).
  destruct (digits_length_bounds n) as (Hpos & Hup & _); [lia|].
  destruct (Z.le_gt_cases (w + 1) (Py.len (Py.digits n))) as [|Hlt]; [done|].
  assert (10 ^ Py.len (Py.digits n) ≤ 10 ^ w) by (apply Z.pow_le_mono_r; lia).
  lia.
Qed.

Lemma len_str_nonneg n : 0 ≤ n → Py.len_str (Py.str n) = Py.len (Py.digits n).
Proof.
  intros Hn. unfold Py.str, Py.len_str, Py.len.
  destruct (Z.ltb_spec n 0); [lia|]. by rewrite length_render.
Qed.

Lemma zfill_short w ds : w ≤ Py.len ds → Py.zfill w ds = ds.
Proof.
  intros Hw. unfold Py.zfill. replace (Z.to_nat (w - Py.len ds)) with 0%nat by lia.
  done.
Qed.

Lemma length_zfill w ds : Py.len (Py.zfill w ds) = Z.max w (Py.len ds).
Proof.
  unfold Py.zfill, Py.len. rewrite length_app, length_replicate.
  fold (Py.len ds). unfold Py.len. lia.
Qed.

Lemma str_nonneg n : 0 ≤ n → Py.str n = Py.render (Py.digits n).
Proof. intros Hn. unfold Py.str. by destruct (Z.ltb_spec n 0); [lia|]. Qed.

Lemma format_zero_nonneg w i :
  0 ≤ i → Py.format_zero w i = Py.render (Py.zfill w (Py.digits i)).
Proof. intros Hi. unfold Py.format_zero. by destruct (Z.ltb_spec i 0); [lia|]. Qed.

(** The largest index is printed without padding: it has at least as
    many digits as the pad width derived from the count. *)
Lemma format_zero_last n :
  1 ≤ n → Py.format_zero (Py.len_str (Py.str n) - 1) (n - 1) = Py.str (n - 1).
Proof.
  intros Hn. rewrite format_zero_nonneg, (str_nonneg (n - 1)) by lia.
  rewrite zfill_short; [done|]. rewrite len_str_nonneg by lia.
  destruct (Z.lt_ge_cases n 10) as [Hlt|Hge].
  - rewrite (digits_small n), (digits_small (n - 1)) by lia.
    unfold Py.len. cbn. lia.
  - assert (Hle : n / 10 ≤ n - 1).
    { pose proof (Z.div_lt n 10 ltac:(lia) ltac:(lia)). lia. }
    rewrite (digits_step n) by done. unfold Py.len. rewrite length_app.
    cbn [length].
    pose proof (digits_length_mono (n / 10) (n - 1)) as Hmono.
    assert (0 ≤ n / 10) by (apply Z.div_pos; lia).
    specialize (Hmono ltac:(lia)). lia.
Qed.

(** ** What is stored for a generated row, and the value the check expects *)

Lemma generate_row_tuple database connect_str number_of_cols number_of_rows
    col_pad row_pad r :
  let table := snd (setup_db database connect_str number_of_cols number_of_rows
                             col_pad row_pad) in
  to_tuple table (generate_row table row_pad col_pad r)
  = (λ c, Some (cell_value row_pad col_pad r c)) <$> Py.range number_of_cols.
Proof.
  intros table. unfold to_tuple, table. rewrite generate_row_range.
  cbn [snd setup_db columns]. rewrite <- list_fmap_compose.
  apply list_fmap_ext. intros k c Hc. cbn.
  apply (dict_comprehension_lookup (column_name col_pad)
           (cell_value row_pad col_pad r)).
  - apply column_names_NoDup.
  - by apply list_elem_of_lookup_2 in Hc.
Qed.

Lemma cell_value_last number_of_rows number_of_cols :
  1 ≤ number_of_rows → 1 ≤ number_of_cols →
  let col_pad := Py.len_str (Py.str number_of_cols) - 1 in
  let row_pad := Py.len_str (Py.str number_of_rows) - 1 in
  cell_value row_pad col_pad (number_of_rows - 1) (number_of_cols - 1)
  = expected_last_val number_of_rows number_of_cols.
Proof.
  intros Hr Hc col_pad row_pad. unfold cell_value, expected_last_val, col_pad, row_pad.
  by rewrite !format_zero_last.
Qed.

(** X1. The tuples stored for the generated rows are, row by row and
    column by column in table order, the cell values: one entry per
    column and no [NULL]. *)
Theorem generated_tuples database connect_str number_of_cols number_of_rows
    col_pad row_pad :
  let table := snd (setup_db database connect_str number_of_cols number_of_rows
                             col_pad row_pad) in
  to_tuple table <$> generate_rows table number_of_rows row_pad col_pad
  = (λ r, (λ c, Some (cell_value row_pad col_pad r c)) <$> Py.range number_of_cols)
      <$> Py.range number_of_rows.
Proof.
  intros table. unfold generate_rows. rewrite <- list_fmap_compose.
  apply list_fmap_ext. intros k r Hr. apply generate_row_tuple.
Qed.

(** X2. For at least one row and one column, the value generated for the
    last column of the last row is exactly the string the second
    assertion of [check_and_clean] compares with: the padding never
    touches the largest indices. *)
Theorem last_cell_is_expected number_of_rows number_of_cols :
  1 ≤ number_of_rows → 1 ≤ number_of_cols →
  let col_pad := Py.len_str (Py.str number_of_cols) - 1 in
  let row_pad := Py.len_str (Py.str number_of_rows) - 1 in
  cell_value row_pad col_pad (number_of_rows - 1) (number_of_cols - 1)
  = expected_last_val number_of_rows number_of_cols.
Proof. intros Hr Hc. by apply cell_value_last. Qed.

Lemma last_cell_is_expected_witness :
  cell_value 2 1 99 89 = expected_last_val 100 90.
Proof.
  assert (H100 : 1 ≤ 100) by lia. assert (H90 : 1 ≤ 90) by lia.
  exact (last_cell_is_expected 100 90 H100 H90).
Defined.

(** ** Ordering of the first column *)

Lemma str_app_cons c s t : String c s +:+ t = String c (s +:+ t).
Proof. reflexivity. Qed.

Lemma ascii_compare_refl c : Ascii.compare c c = Eq.
Proof. unfold Ascii.compare. apply N.compare_refl. Qed.

Lemma str_compare_cons c s1 s2 :
  String.compare (String c s1) (String c s2) = String.compare s1 s2.
Proof. cbn. by rewrite ascii_compare_refl. Qed.

Lemma str_compare_cons_lt c1 c2 s1 s2 :
  Ascii.compare c1 c2 = Lt →
  String.compare (String c1 s1) (String c2 s2) = Lt.
Proof. intros H. cbn [String.compare]. by rewrite H. Qed.

Lemma str_compare_app p s1 s2 :
  String.compare (p +:+ s1) (p +:+ s2) = String.compare s1 s2.
Proof.
  induction p as [|c p IH]; [done|]. by rewrite !str_app_cons, str_compare_cons.
Qed.

Lemma str_compare_refl s : String.compare s s = Eq.
Proof. induction s as [|c s IH]; [done|]. by rewrite str_compare_cons. Qed.

Lemma is_digit_cases d :
  is_digit d →
  d = 0 ∨ d = 1 ∨ d = 2 ∨ d = 3 ∨ d = 4 ∨ d = 5 ∨ d = 6 ∨ d = 7 ∨ d = 8 ∨ d = 9.
Proof. unfold is_digit. lia. Qed.

Lemma digit_char_compare d1 d2 :
  is_digit d1 → is_digit d2 → d1 < d2 →
  Ascii.compare (Py.digit_char d1) (Py.digit_char d2) = Lt.
Proof.
  intros H1 H2 Hlt.
  apply is_digit_cases in H1. apply is_digit_cases in H2.
  repeat destruct H1 as [->|H1]; try subst d1;
    repeat destruct H2 as [->|H2]; try subst d2;
    solve [reflexivity | lia].
Qed.

Lemma digit_char_below_underscore d :
  is_digit d → Ascii.compare (Py.digit_char d) "_" = Lt.
Proof.
  intros H. apply is_digit_cases in H.
  repeat destruct H as [->|H]; try subst d; reflexivity.
Qed.

Lemma undigits_cons d ds :
  undigits (d :: ds) = d * 10 ^ Py.len ds + undigits ds.
Proof.
  unfold undigits. cbn [foldl]. replace (10 * 0 + d) with d by lia.
  generalize d. clear d.
  induction ds as [|e ds IH] using rev_ind; intros d.
  - unfold Py.len. cbn. lia.
  - rewrite !foldl_app. cbn [foldl]. rewrite (IH d).
    unfold Py.len. rewrite length_app. cbn [length].
    replace (Z.of_nat (length ds + 1)) with (Z.of_nat (length ds) + 1) by lia.
    rewrite Z.pow_add_r by lia. change (10 ^ 1) with 10. lia.
Qed.

Lemma undigits_bound ds :
  Forall is_digit ds → 0 ≤ undigits ds < 10 ^ Py.len ds.
Proof.
  induction 1 as [|d ds Hd _ IH].
  - unfold undigits, Py.len. cbn. lia.
  - rewrite undigits_cons. unfold Py.len in *. cbn [length].
    rewrite Nat2Z.inj_succ, Z.pow_succ_r by lia. unfold is_digit in Hd. nia.
Qed.

(** Digit strings of equal length compare as the numbers they denote,
    whatever follows them. *)
Lemma render_compare ds1 ds2 s1 s2 :
  Forall is_digit ds1 → Forall is_digit ds2 → length ds1 = length ds2 →
  undigits ds1 < undigits ds2 →
  String.compare (Py.render ds1 +:+ s1) (Py.render ds2 +:+ s2) = Lt.
Proof.
  intros H1. revert ds2. induction H1 as [|d1 ds1 Hd1 Hds1 IH];
    intros ds2 H2 Hlen Hlt; destruct H2 as [|d2 ds2 Hd2 Hds2];
    try discriminate Hlen.
  - unfold undigits in Hlt. cbn in Hlt. lia.
  - injection Hlen as Hlen. rewrite !undigits_cons in Hlt.
    assert (Hl : Py.len ds1 = Py.len ds2) by (unfold Py.len; lia).
    pose proof (undigits_bound ds1 Hds1) as Hb1.
    pose proof (undigits_bound ds2 Hds2) as Hb2.
    rewrite Hl in *.
    cbn [Py.render]. rewrite !str_app_cons.
    destruct (Z.lt_trichotomy d1 d2) as [Hd|[Hd|Hd]].
    + by apply str_compare_cons_lt, digit_char_compare.
    + subst d2. rewrite str_compare_cons. apply IH; [done | done | lia].
    + exfalso. nia.
Qed.

(** A digit string one longer than a run of nines sorts below the run
    followed by an underscore. *)
Lemma render_compare_nines w ds s1 s2 :
  Forall is_digit ds → length ds = S w →
  String.compare (Py.render ds +:+ s1)
                 (Py.render (replicate w 9) +:+ String "_" s2) = Lt.
Proof.
  revert ds. induction w as [|w IH]; intros ds Hds Hlen;
    destruct Hds as [|d ds Hd Hds]; try discriminate Hlen;
    injection Hlen as Hlen; cbn [replicate Py.render]; rewrite !str_app_cons.
  - by apply str_compare_cons_lt, digit_char_below_underscore.
  - destruct (Z.eq_dec d 9) as [->|Hne].
    + rewrite str_compare_cons. by apply IH.
    + apply str_compare_cons_lt, digit_char_compare;
        [done | unfold is_digit; lia | unfold is_digit in Hd; lia].
Qed.

Lemma digits_nines w : (1 ≤ w)%nat → Py.digits (10 ^ Z.of_nat w - 1) = replicate w 9.
Proof.
  induction w as [|w IH]; [lia|]. intros _.
  destruct w as [|w]; [by rewrite digits_small|].
  assert (Hpow : 10 ^ Z.of_nat (S (S w)) = 10 * 10 ^ Z.of_nat (S w)).
  { rewrite (Nat2Z.inj_succ (S w)), Z.pow_succ_r by lia. done. }
  assert (Hpos : 10 ≤ 10 ^ Z.of_nat (S w)).
  { rewrite Nat2Z.inj_succ, Z.pow_succ_r by lia.
    assert (0 < 10 ^ Z.of_nat w) by (apply Z.pow_pos_nonneg; lia). lia. }
  rewrite digits_step by lia.
  replace ((10 ^ Z.of_nat (S (S w)) - 1) / 10) with (10 ^ Z.of_nat (S w) - 1)
    by (apply (Z.div_unique _ _ _ 9); lia).
  replace ((10 ^ Z.of_nat (S (S w)) - 1) `mod` 10) with 9
    by (apply (Z.mod_unique _ _ (10 ^ Z.of_nat (S w) - 1)); lia).
  rewrite IH by lia. by rewrite <- replicate_S_end.
Qed.

(** ** The row that sorts last *)

Lemma str_leb_ltb a b : String.leb b a = negb (String.ltb a b).
Proof.
  unfold String.leb, String.ltb. rewrite (String.compare_antisym b a).
  by destruct (String.compare a b).
Qed.

Lemma str_leb_trans a b c :
  String.leb a b = true → String.leb b c = true → String.leb a c = true.
Proof.
  intros Hab Hbc. apply Is_true_true. apply Is_true_true in Hab, Hbc.
  change (String.le a c). change (String.le a b) in Hab. change (String.le b c) in Hbc.
  by etrans.
Qed.

Lemma str_ltb_trans a b c :
  String.ltb a b = true → String.ltb b c = true → String.ltb a c = true.
Proof.
  intros Hab Hbc.
  destruct (String.ltb a c) eqn:Hac; [done|]. exfalso.
  assert (Hca : String.leb c a = true) by (by rewrite str_leb_ltb, Hac).
  assert (Hab' : String.leb a b = true).
  { unfold String.leb, String.ltb in *. by destruct (String.compare a b). }
  assert (Hbc' : String.leb b c = true).
  { unfold String.leb, String.ltb in *. by destruct (String.compare b c). }
  assert (Hba : String.leb b a = true) by (by eapply str_leb_trans).
  assert (a = b) by (by apply String.leb_antisym). subst b.
  unfold String.ltb in Hab. by rewrite str_compare_refl in Hab.
Qed.

Lemma value_ltb_trans a b c :
  value_ltb a b = true → value_ltb b c = true → value_ltb a c = true.
Proof.
  destruct a as [x|], b as [y|], c as [z|]; cbn; try done.
  apply str_ltb_trans.
Qed.

Lemma value_leb_trans a b c :
  value_leb a b = true → value_leb b c = true → value_leb a c = true.
Proof.
  unfold value_leb. destruct a as [x|], b as [y|], c as [z|]; cbn; try done.
  rewrite <- !str_leb_ltb. apply str_leb_trans.
Qed.

Lemma value_leb_ltb a b : value_leb a b = true ↔ value_ltb b a = false.
Proof. unfold value_leb. by destruct (value_ltb b a). Qed.

(** The fold behind [first_desc] keeps a row that no row seen so far
    exceeds. *)
Lemma first_desc_fold b0 l :
  ∃ b,
    foldl (λ best r,
             match best with
             | None => Some r
             | Some b => if value_ltb (sort_key b) (sort_key r) then Some r else Some b
             end) (Some b0) l = Some b
    ∧ (b = b0 ∨ b ∈ l)
    ∧ value_leb (sort_key b0) (sort_key b) = true
    ∧ ∀ x, x ∈ l → value_leb (sort_key x) (sort_key b) = true.
Proof.
  revert b0. induction l as [|r l IH]; intros b0; cbn [foldl].
  - exists b0. repeat split; [by left | |].
    + apply value_leb_ltb. destruct (sort_key b0); cbn; [|done].
      unfold String.ltb. by rewrite str_compare_refl.
    + intros x Hx. by apply elem_of_nil in Hx.
  - destruct (value_ltb (sort_key b0) (sort_key r)) eqn:Hlt.
    + destruct (IH r) as (b & Hb & Hin & Hge & Hall). exists b.
      assert (Hb0 : value_leb (sort_key b0) (sort_key b) = true).
      { apply value_leb_ltb. destruct (value_ltb (sort_key b) (sort_key b0)) eqn:E; [|done].
        apply value_leb_ltb in Hge.
        by rewrite (value_ltb_trans _ _ _ E Hlt) in Hge. }
      repeat split; [done | | done |].
      * right. destruct Hin as [->|Hin]; [by left | by right].
      * intros x Hx. apply elem_of_cons in Hx as [->|Hx]; [done | by apply Hall].
    + destruct (IH b0) as (b & Hb & Hin & Hge & Hall). exists b.
      repeat split; [done | | done |].
      * destruct Hin as [->|Hin]; [by left | right; by right].
      * intros x Hx. apply elem_of_cons in Hx as [->|Hx]; [|by apply Hall].
        eapply value_leb_trans; [|exact Hge]. by apply value_leb_ltb.
Qed.

Lemma first_desc_spec l :
  l ≠ [] →
  ∃ b, first_desc l = Some b ∧ b ∈ l
       ∧ ∀ x, x ∈ l → value_ltb (sort_key b) (sort_key x) = false.
Proof.
  destruct l as [|b0 l]; [done|]. intros _. unfold first_desc. cbn [foldl].
  destruct (first_desc_fold b0 l) as (b & Hb & Hin & Hge & Hall).
  exists b. repeat split; [done | |].
  - destruct Hin as [->|Hin]; [by left | by right].
  - intros x Hx. apply value_leb_ltb.
    apply elem_of_cons in Hx as [->|Hx]; [done | by apply Hall].
Qed.

Lemma first_desc_nil : first_desc [] = None.
Proof. reflexivity. Qed.

(** ** The session a trial checks *)

Lemma benchmark_trial_unfold strategy engine table rows number_of_rows
    number_of_cols timeit_number timeit_repeat buffer_size :
  benchmark_trial strategy engine table rows number_of_rows number_of_cols
                  timeit_number timeit_repeat buffer_size
  = (fst (check_and_clean
            (trial_session strategy engine table rows timeit_number timeit_repeat
                           buffer_size)
            table number_of_rows number_of_cols timeit_number timeit_repeat),
     Session_close engine
       (snd (check_and_clean
               (trial_session strategy engine table rows timeit_number timeit_repeat
                              buffer_size)
               table number_of_rows number_of_cols timeit_number timeit_repeat))).
Proof.
  unfold benchmark_trial, trial_session.
  by destruct (check_and_clean _ _ _ _ _ _).
Qed.

Lemma join_replicate_comm {A} k (l : list A) :
  mjoin (replicate k l) ++ l = l ++ mjoin (replicate k l).
Proof.
  induction k as [|k IH]; [cbn; by rewrite app_nil_r|].
  change (mjoin (replicate (S k) l)) with (l ++ mjoin (replicate k l)).
  by rewrite <- app_assoc, IH.
Qed.

Lemma iter_view (stmt : Session → Session) (extra : list StoredRow) :
  (∀ s, view (stmt s) = view s ++ extra) →
  ∀ (k : nat) s, view (Nat.iter k stmt s) = view s ++ mjoin (replicate k extra).
Proof.
  intros Hstmt k s. induction k as [|k IH]; [cbn; by rewrite app_nil_r|].
  rewrite Nat.iter_succ, Hstmt, IH, <- app_assoc. f_equal.
  apply join_replicate_comm.
Qed.

Lemma elem_of_join_replicate {A} (x : A) k l :
  x ∈ mjoin (replicate k l) ↔ (0 < k)%nat ∧ x ∈ l.
Proof.
  induction k as [|k IH].
  - cbn. split; [intros H; by apply elem_of_nil in H | lia].
  - change (mjoin (replicate (S k) l)) with (l ++ mjoin (replicate k l)).
    rewrite elem_of_app, IH.
    split; [intros [?|[? ?]]; split; (lia || done) | tauto].
Qed.

Lemma length_join_replicate {A} k (l : list A) :
  length (mjoin (replicate k l)) = (k * length l)%nat.
Proof.
  induction k as [|k IH]; [done|].
  change (mjoin (replicate (S k) l)) with (l ++ mjoin (replicate k l)).
  rewrite length_app, IH. lia.
Qed.

Lemma trial_session_view strategy engine table rows timeit_number timeit_repeat
    buffer_size :
  is_strategy strategy → Forall (over_columns table) rows →
  view (trial_session strategy engine table rows timeit_number timeit_repeat
                      buffer_size)
  = mjoin (replicate (Z.to_nat timeit_repeat * Z.to_nat timeit_number)
                     (to_tuple table <$> rows)).
Proof.
  intros Hs Hall. unfold trial_session. rewrite timeit_repeat_run_iter.
  rewrite (iter_view _ (to_tuple table <$> rows)); [done|].
  intros s. by apply strategy_view.
Qed.

Lemma strategy_durable strategy s table rows bs :
  is_strategy strategy →
  durable (strategy s table rows bs) = view (strategy s table rows bs).
Proof. by intros [-> | ->]. Qed.

Lemma trial_session_durable strategy engine table rows timeit_number timeit_repeat
    buffer_size :
  is_strategy strategy → 1 ≤ timeit_number → 1 ≤ timeit_repeat →
  durable (trial_session strategy engine table rows timeit_number timeit_repeat
                         buffer_size)
  = view (trial_session strategy engine table rows timeit_number timeit_repeat
                        buffer_size).
Proof.
  intros Hs HN HR. unfold trial_session. rewrite timeit_repeat_run_iter.
  destruct (Z.to_nat timeit_repeat * Z.to_nat timeit_number)%nat as [|k] eqn:Hk; [nia|].
  rewrite Nat.iter_succ. by apply strategy_durable.
Qed.

Lemma range_head n : 1 ≤ n → head (Py.range n) = Some 0.
Proof.
  intros Hn. unfold Py.range. destruct (Z.to_nat n) as [|k] eqn:Hk; [lia|]. done.
Qed.

Lemma range_last n : 1 ≤ n → last (Py.range n) = Some (n - 1).
Proof.
  intros Hn. unfold Py.range. destruct (Z.to_nat n) as [|k] eqn:Hk; [lia|].
  rewrite seq_S, fmap_app.
  change (Z.of_nat <$> [(0 + k)%nat]) with [Z.of_nat (0 + k)].
  rewrite last_snoc. f_equal. lia.
Qed.

Lemma row_tuple_key number_of_cols row_pad col_pad r :
  1 ≤ number_of_cols →
  sort_key (row_tuple number_of_cols row_pad col_pad r)
  = Some (cell_value row_pad col_pad r 0).
Proof.
  intros Hn. unfold sort_key, row_tuple.
  pose proof (range_head number_of_cols Hn) as Hh.
  destruct (Py.range number_of_cols) as [|c cs]; [done|].
  cbn in Hh. injection Hh as ->. done.
Qed.

Lemma row_tuple_last number_of_cols row_pad col_pad r :
  1 ≤ number_of_cols →
  last (row_tuple number_of_cols row_pad col_pad r)
  = Some (Some (cell_value row_pad col_pad r (number_of_cols - 1))).
Proof.
  intros Hn. unfold row_tuple. by rewrite fmap_last, range_last.
Qed.

(** The rows the script generates have the columns of its table as
    their keys. *)
Lemma generate_rows_over_columns database connect_str number_of_cols number_of_rows
    col_pad row_pad number_of_rows' row_pad' col_pad' :
  let table := snd (setup_db database connect_str number_of_cols number_of_rows
                             col_pad row_pad) in
  Forall (over_columns table) (generate_rows table number_of_rows' row_pad' col_pad').
Proof.
  intros table. unfold generate_rows. apply Forall_fmap, Forall_forall.
  intros r _. unfold over_columns, table. cbn [compose].
  rewrite generate_row_range, dict_comprehension_dom, dom_empty_L, union_empty_l_L.
  by rewrite setup_db_column_names.
Qed.

(** What the session of a trial of [benchmark] sees: copies of the
    tuples of rows [0 .. number_of_rows - 1], one copy per invocation. *)
Lemma trial_session_rows strategy database connect_str number_of_cols
    number_of_rows col_pad row_pad engine timeit_number timeit_repeat buffer_size :
  is_strategy strategy →
  let table := snd (setup_db database connect_str number_of_cols number_of_rows
                             col_pad row_pad) in
  view (trial_session strategy engine table
          (generate_rows table number_of_rows row_pad col_pad)
          timeit_number timeit_repeat buffer_size)
  = mjoin (replicate (Z.to_nat timeit_repeat * Z.to_nat timeit_number)
             (row_tuple number_of_cols row_pad col_pad <$> Py.range number_of_rows)).
Proof.
  intros Hs table.
  rewrite trial_session_view by (done || apply generate_rows_over_columns).
  f_equal. f_equal.
  unfold generate_rows. rewrite <- list_fmap_compose.
  apply list_fmap_ext. intros k r Hr.
  exact (generate_row_tuple database connect_str number_of_cols number_of_rows
           col_pad row_pad r).
Qed.

Lemma setup_db_pair database connect_str number_of_cols number_of_rows
    col_pad row_pad :
  setup_db database connect_str number_of_cols number_of_rows col_pad row_pad
  = (create_all {| url := connect_str; mytable := database |},
     snd (setup_db database connect_str number_of_cols number_of_rows
                   col_pad row_pad)).
Proof. reflexivity. Qed.

Lemma setup_db_columns database connect_str number_of_cols number_of_rows
    col_pad row_pad :
  1 ≤ number_of_cols →
  columns (snd (setup_db database connect_str number_of_cols number_of_rows
                         col_pad row_pad)) ≠ [].
Proof.
  intros Hn Hnil. apply (f_equal length) in Hnil.
  cbn in Hnil. rewrite length_fmap, length_range in Hnil. lia.
Qed.

(** *** Order of the sort keys of the generated rows *)

Lemma cell_key_lt row_pad col_pad r1 r2 c1 c2 :
  0 ≤ r1 < r2 →
  Py.len (Py.zfill row_pad (Py.digits r1)) = Py.len (Py.zfill row_pad (Py.digits r2)) →
  String.ltb (cell_value row_pad col_pad r1 c1) (cell_value row_pad col_pad r2 c2)
  = true.
Proof.
  intros Hr Hlen. unfold cell_value, String.ltb.
  rewrite str_compare_app, (format_zero_nonneg row_pad r1),
    (format_zero_nonneg row_pad r2) by lia.
  rewrite render_compare; [done | | | |].
  - apply zfill_is_digit, digits_is_digit. lia.
  - apply zfill_is_digit, digits_is_digit. lia.
  - unfold Py.len in Hlen. lia.
  - rewrite !undigits_zfill, !undigits_digits by lia. lia.
Qed.

Lemma zfill_width n row_pad r :
  0 ≤ r < n → n ≤ 10 ^ Z.max 1 row_pad →
  Py.len (Py.zfill row_pad (Py.digits r)) = Z.max 1 row_pad.
Proof.
  intros Hr Hn. rewrite length_zfill.
  destruct (digits_length_bounds r) as (Hpos & _ & _); [lia|].
  pose proof (digits_length_le r (Z.max 1 row_pad)). lia.
Qed.

Lemma cell_key_lt_nines row_pad col_pad m c1 c2 :
  1 ≤ row_pad → 0 ≤ m → Py.len (Py.digits m) = row_pad + 1 →
  String.ltb (cell_value row_pad col_pad m c1)
             (cell_value row_pad col_pad (10 ^ row_pad - 1) c2) = true.
Proof.
  intros Hp Hm Hlen. unfold cell_value, String.ltb.
  assert (0 < 10 ^ row_pad) by (apply Z.pow_pos_nonneg; lia).
  rewrite str_compare_app, (format_zero_nonneg row_pad m),
    (format_zero_nonneg row_pad (10 ^ row_pad - 1)) by lia.
  rewrite (zfill_short _ (Py.digits m)) by lia.
  replace (10 ^ row_pad - 1) with (10 ^ Z.of_nat (Z.to_nat row_pad) - 1)
    by (by rewrite Z2Nat.id by lia).
  rewrite digits_nines by lia.
  rewrite zfill_short by (unfold Py.len; rewrite length_replicate; lia).
  change ("_col" +:+ Py.format_zero col_pad c2)
    with (String "_" ("col" +:+ Py.format_zero col_pad c2)).
  rewrite (render_compare_nines (Z.to_nat row_pad)); [done | |].
  - by apply digits_is_digit.
  - unfold Py.len in Hlen. lia.
Qed.

Lemma render_underscore_inj ds1 ds2 t1 t2 :
  Forall is_digit ds1 → Forall is_digit ds2 →
  Py.render ds1 +:+ String "_" t1 = Py.render ds2 +:+ String "_" t2 →
  ds1 = ds2.
Proof.
  intros Hd1. revert ds2.
  induction Hd1 as [|d1 ds1 Hd1 _ IH]; intros ds2 Hd2 Heq;
    destruct Hd2 as [|d2 ds2 Hd2 Hds2]; cbn [Py.render] in Heq;
    rewrite ?str_app_cons in Heq.
  - done.
  - exfalso. change ("" +:+ String "_" t1) with (String "_" t1) in Heq.
    injection Heq as Hc _. apply is_digit_cases in Hd2.
    repeat destruct Hd2 as [->|Hd2]; try subst d2; discriminate Hc.
  - exfalso. change ("" +:+ String "_" t2) with (String "_" t2) in Heq.
    injection Heq as Hc _. apply is_digit_cases in Hd1.
    repeat destruct Hd1 as [->|Hd1]; try subst d1; discriminate Hc.
  - injection Heq as Hc Hr. f_equal; [by apply digit_char_inj | by apply IH].
Qed.

(** Cells of different rows differ, whatever the columns. *)
Lemma cell_value_row_inj row_pad col_pad r1 r2 c1 c2 :
  0 ≤ r1 → 0 ≤ r2 →
  cell_value row_pad col_pad r1 c1 = cell_value row_pad col_pad r2 c2 → r1 = r2.
Proof.
  intros H1 H2 Heq. unfold cell_value in Heq.
  apply String.app_inj in Heq.
  rewrite (format_zero_nonneg row_pad r1), (format_zero_nonneg row_pad r2)
    in Heq by lia.
  change ("_col" +:+ Py.format_zero col_pad c1)
    with (String "_" ("col" +:+ Py.format_zero col_pad c1)) in Heq.
  change ("_col" +:+ Py.format_zero col_pad c2)
    with (String "_" ("col" +:+ Py.format_zero col_pad c2)) in Heq.
  apply render_underscore_inj in Heq;
    [| by apply zfill_is_digit, digits_is_digit ..].
  apply (f_equal undigits) in Heq.
  by rewrite !undigits_zfill, !undigits_digits in Heq.
Qed.

(** ** Outcome of a trial *)

Section Trial.
Context (strategy : Session → Table → list Row → Z → Session).
Context (database : option (list StoredRow)) (connect_str : string).
Context (number_of_cols number_of_rows timeit_number timeit_repeat buffer_size : Z).
Context (engine : Engine).
Hypothesis strategy_ok : is_strategy strategy.

Let col_pad := Py.len_str (Py.str number_of_cols) - 1.
Let row_pad := Py.len_str (Py.str number_of_rows) - 1.
Let table := snd (setup_db database connect_str number_of_cols number_of_rows
                           col_pad row_pad).
Let rows := generate_rows table number_of_rows row_pad col_pad.
Let session := trial_session strategy engine table rows timeit_number timeit_repeat
                             buffer_size.

Lemma trial_view :
  view session
  = mjoin (replicate (Z.to_nat timeit_repeat * Z.to_nat timeit_number)
             (row_tuple number_of_cols row_pad col_pad <$> Py.range number_of_rows)).
Proof. by apply trial_session_rows. Qed.

Lemma trial_view_elem x :
  x ∈ view session ↔
  (1 ≤ timeit_repeat ∧ 1 ≤ timeit_number)
  ∧ ∃ r, 0 ≤ r < number_of_rows ∧ x = row_tuple number_of_cols row_pad col_pad r.
Proof.
  rewrite trial_view, elem_of_join_replicate, list_elem_of_fmap.
  split.
  - intros [Hk (r & -> & Hr)]. apply range_elem in Hr. split; [nia | by exists r].
  - intros [[HR HN] (r & Hr & ->)]. split; [nia|].
    exists r. split; [done | by apply range_elem].
Qed.

Lemma trial_count :
  0 ≤ timeit_repeat → 0 ≤ timeit_number → 0 ≤ number_of_rows →
  count_holds session number_of_rows timeit_number timeit_repeat.
Proof.
  intros HR HN Hrows. unfold count_holds, Py.len.
  rewrite trial_view, length_join_replicate, length_fmap, length_range. nia.
Qed.

(** The row the ordered query returns is a generated row whose first
    column no other generated row exceeds. *)
Lemma trial_last_row :
  1 ≤ number_of_cols → 1 ≤ number_of_rows →
  1 ≤ timeit_repeat → 1 ≤ timeit_number →
  ∃ r, 0 ≤ r < number_of_rows
       ∧ last_row_val session
         = Some (Some (cell_value row_pad col_pad r (number_of_cols - 1)))
       ∧ ∀ r', 0 ≤ r' < number_of_rows →
           String.ltb (cell_value row_pad col_pad r 0)
                      (cell_value row_pad col_pad r' 0) = false.
Proof.
  intros Hcols Hrows HR HN.
  destruct (first_desc_spec (view session)) as (b & Hb & Hin & Hmax).
  { intros Hnil.
    assert (Hx : row_tuple number_of_cols row_pad col_pad 0 ∈ view session).
    { apply trial_view_elem. split; [done|]. exists 0. split; [lia | done]. }
    rewrite Hnil in Hx. by apply elem_of_nil in Hx. }
  apply trial_view_elem in Hin as [_ (r & Hr & ->)].
  exists r. split; [done|]. split.
  - unfold last_row_val. rewrite Hb. cbn [mbind option_bind].
    by apply row_tuple_last.
  - intros r' Hr'.
    specialize (Hmax (row_tuple number_of_cols row_pad col_pad r')).
    rewrite !row_tuple_key in Hmax by done. apply Hmax.
    apply trial_view_elem. split; [done|]. by exists r'.
Qed.

End Trial.

(** ** Outcomes of [check_and_clean] from the two conditions *)

Lemma check_and_clean_returns session table number_of_rows number_of_cols
    timeit_number timeit_repeat :
  count_holds session number_of_rows timeit_number timeit_repeat →
  columns table ≠ [] →
  last_val_holds session number_of_rows number_of_cols →
  check_and_clean session table number_of_rows number_of_cols
                  timeit_number timeit_repeat
  = (Returned,
     commit (execute (execute (execute session table SelectCount [])
                              table SelectOrderByDesc [])
                     table Delete [])).
Proof.
  intros Hc Hcols Hv.
  pose proof (check_and_clean_cases session table number_of_rows number_of_cols
                timeit_number timeit_repeat) as Hcases.
  cbn zeta in Hcases. unfold last_val_holds in *.
  destruct Hcases as [[Hn _] | [(_ & Hn & _) | [(_ & _ & Hn & _)
                     | [(_ & _ & _ & Hn & _) | (_ & _ & Hr)]]]];
    [done | done | congruence | done | done].
Qed.

Lemma check_and_clean_mismatch session table number_of_rows number_of_cols
    timeit_number timeit_repeat v :
  count_holds session number_of_rows timeit_number timeit_repeat →
  columns table ≠ [] →
  last_row_val session = Some v →
  v ≠ Some (expected_last_val number_of_rows number_of_cols) →
  check_and_clean session table number_of_rows number_of_cols
                  timeit_number timeit_repeat
  = (AssertionError,
     execute (execute session table SelectCount []) table SelectOrderByDesc []).
Proof.
  intros Hc Hcols Hv Hne.
  pose proof (check_and_clean_cases session table number_of_rows number_of_cols
                timeit_number timeit_repeat) as Hcases.
  cbn zeta in Hcases. unfold last_val_holds in *.
  destruct Hcases as [[Hn _] | [(_ & Hn & _) | [(_ & _ & Hn & _)
                     | [(_ & _ & _ & _ & Hr) | (_ & Hn & _)]]]];
    [done | done | congruence | done | congruence].
Qed.

Lemma check_and_clean_empty_table session table number_of_rows number_of_cols
    timeit_number timeit_repeat :
  count_holds session number_of_rows timeit_number timeit_repeat →
  columns table ≠ [] →
  view session = [] →
  check_and_clean session table number_of_rows number_of_cols
                  timeit_number timeit_repeat
  = (TypeError,
     execute (execute session table SelectCount []) table SelectOrderByDesc []).
Proof.
  intros Hc Hcols Hempty.
  unfold check_and_clean, select_count, query_first_desc. cbn zeta.
  unfold count_holds in Hc.
  destruct (Z.eqb_spec (Py.len (view session))
              (timeit_repeat * timeit_number * number_of_rows)) as [_|Hn];
    [|done]. cbn [negb].
  destruct (columns table) as [|col cols]; [done|].
  change (view (execute session table SelectCount [])) with (view session).
  by rewrite Hempty.
Qed.

(** [check_and_clean] reads the session only through the rows it sees. *)
Lemma check_and_clean_view_only s1 s2 table number_of_rows number_of_cols
    timeit_number timeit_repeat :
  view s1 = view s2 →
  fst (check_and_clean s1 table number_of_rows number_of_cols
                       timeit_number timeit_repeat)
  = fst (check_and_clean s2 table number_of_rows number_of_cols
                         timeit_number timeit_repeat)
  ∧ view (snd (check_and_clean s1 table number_of_rows number_of_cols
                               timeit_number timeit_repeat))
    = view (snd (check_and_clean s2 table number_of_rows number_of_cols
                                 timeit_number timeit_repeat))
  ∧ (durable s1 = durable s2 →
     durable (snd (check_and_clean s1 table number_of_rows number_of_cols
                                   timeit_number timeit_repeat))
     = durable (snd (check_and_clean s2 table number_of_rows number_of_cols
                                     timeit_number timeit_repeat))).
Proof.
  intros Hview.
  unfold check_and_clean, select_count, query_first_desc. cbn zeta.
  change (view (execute s1 table SelectCount [])) with (view s1).
  change (view (execute s2 table SelectCount [])) with (view s2).
  rewrite Hview.
  destruct (negb _); [by cbn|].
  destruct (columns table) as [|col cols]; [by cbn|].
  destruct (first_desc (view s2)) as [row|]; [|by cbn].
  destruct (last row) as [val|]; [|by cbn].
  case_bool_decide; by cbn.
Qed.

(** ** When [benchmark] passes its own checks *)

Lemma benchmark_unfold database connect_str number_of_cols number_of_rows
    timeit_number timeit_repeat buffer_size :
  benchmark database connect_str number_of_cols number_of_rows timeit_number
            timeit_repeat buffer_size
  = let col_pad := Py.len_str (Py.str number_of_cols) - 1 in
    let row_pad := Py.len_str (Py.str number_of_rows) - 1 in
    let table := snd (setup_db database connect_str number_of_cols number_of_rows
                               col_pad row_pad) in
    let rows := generate_rows table number_of_rows row_pad col_pad in
    let first :=
      benchmark_trial insert_values_params
        (create_all {| url := connect_str; mytable := database |}) table rows
        number_of_rows number_of_cols timeit_number timeit_repeat buffer_size in
    match fst first with
    | Returned =>
        let second :=
          benchmark_trial insert_values_executemany (snd first) table rows
            number_of_rows number_of_cols timeit_number timeit_repeat buffer_size in
        match fst second with
        | Returned => (Returned, table_drop (snd second))
        | outcome => (outcome, snd second)
        end
    | outcome => (outcome, snd first)
    end.
Proof.
  unfold benchmark. cbv zeta. rewrite setup_db_pair. cbv beta iota.
  destruct (benchmark_trial insert_values_params _ _ _ _ _ _ _ _) as [o1 e1].
  cbn [fst snd]. destruct o1; try reflexivity.
  destruct (benchmark_trial insert_values_executemany _ _ _ _ _ _ _ _) as [o2 e2].
  cbn [fst snd]. by destruct o2.
Qed.

Lemma equal_width_rows n :
  1 ≤ n → (n ≤ 10 ∨ ∃ k, 0 ≤ k ∧ n = 10 ^ k) →
  n ≤ 10 ^ Z.max 1 (Py.len_str (Py.str n) - 1).
Proof.
  intros Hn [Hle | (k & Hk & ->)].
  - assert (10 ^ 1 ≤ 10 ^ Z.max 1 (Py.len_str (Py.str n) - 1))
      by (apply Z.pow_le_mono_r; lia).
    change (10 ^ 1) with 10 in *. lia.
  - apply Z.pow_le_mono_r; [lia|].
    rewrite len_str_nonneg by lia.
    pose proof (digits_length_ge (10 ^ k) k). lia.
Qed.

Lemma unequal_width_rows n :
  10 < n → (∀ k, n ≠ 10 ^ k) →
  let row_pad := Py.len_str (Py.str n) - 1 in
  1 ≤ row_pad ∧ 10 ^ row_pad < n ∧ Py.len (Py.digits (n - 1)) = row_pad + 1.
Proof.
  intros Hn Hpow row_pad. unfold row_pad. rewrite len_str_nonneg by lia.
  destruct (digits_length_bounds n) as (_ & _ & Hlow); [lia|].
  specialize (Hlow ltac:(lia)).
  pose proof (digits_length_ge n 1) as Hge. change (10 ^ 1) with 10 in Hge.
  specialize (Hge ltac:(lia) ltac:(lia)).
  specialize (Hpow (Py.len (Py.digits n) - 1)).
  split; [lia|]. split; [lia|].
  pose proof (digits_length_ge (n - 1) (Py.len (Py.digits n) - 1)) as Hge1.
  pose proof (digits_length_mono (n - 1) n) as Hmono.
  unfold Py.len in *. lia.
Qed.

Section TrialOutcome.
Context (strategy : Session → Table → list Row → Z → Session).
Context (database : option (list StoredRow)) (connect_str : string).
Context (number_of_cols number_of_rows timeit_number timeit_repeat buffer_size : Z).
Context (engine : Engine).
Hypothesis strategy_ok : is_strategy strategy.
Hypothesis cols_ok : 1 ≤ number_of_cols.
Hypothesis number_ok : 1 ≤ timeit_number.
Hypothesis repeat_ok : 1 ≤ timeit_repeat.

Let col_pad := Py.len_str (Py.str number_of_cols) - 1.
Let row_pad := Py.len_str (Py.str number_of_rows) - 1.
Let table := snd (setup_db database connect_str number_of_cols number_of_rows
                           col_pad row_pad).
Let rows := generate_rows table number_of_rows row_pad col_pad.

Lemma benchmark_trial_passes :
  1 ≤ number_of_rows → number_of_rows ≤ 10 ^ Z.max 1 row_pad →
  benchmark_trial strategy engine table rows number_of_rows number_of_cols
                  timeit_number timeit_repeat buffer_size
  = (Returned, {| url := url engine; mytable := Some [] |}).
Proof.
  intros Hrows Hwidth. rewrite benchmark_trial_unfold.
  unfold rows, table, row_pad, col_pad in *.
  rewrite check_and_clean_returns; [done | | |].
  - apply trial_count; [done | lia ..].
  - by apply setup_db_columns.
  - destruct (trial_last_row strategy database connect_str number_of_cols
                number_of_rows timeit_number timeit_repeat buffer_size engine)
      as (r & Hr & Hval & Hmax); [done ..|].
    assert (r = number_of_rows - 1) as ->.
    { destruct (Z.eq_dec r (number_of_rows - 1)) as [|Hne]; [done|]. exfalso.
      specialize (Hmax (number_of_rows - 1) ltac:(lia)).
      rewrite cell_key_lt in Hmax; [done | lia |].
      rewrite (zfill_width number_of_rows _ r) by (lia || exact Hwidth).
      by rewrite (zfill_width number_of_rows _ (number_of_rows - 1))
        by (lia || exact Hwidth). }
    unfold last_val_holds. rewrite Hval. do 2 f_equal.
    by apply cell_value_last.
Qed.

Lemma benchmark_trial_fails :
  10 < number_of_rows → (∀ k, number_of_rows ≠ 10 ^ k) →
  benchmark_trial strategy engine table rows number_of_rows number_of_cols
                  timeit_number timeit_repeat buffer_size
  = (AssertionError,
     {| url := url engine;
        mytable :=
          Some (mjoin (replicate (Z.to_nat timeit_repeat * Z.to_nat timeit_number)
                         (row_tuple number_of_cols row_pad col_pad
                            <$> Py.range number_of_rows))) |}).
Proof.
  intros Hrows Hpow. rewrite benchmark_trial_unfold.
  destruct (unequal_width_rows number_of_rows Hrows Hpow) as (Hpad & Hlt & Hlen).
  unfold rows, table, row_pad, col_pad in *.
  destruct (trial_last_row strategy database connect_str number_of_cols
              number_of_rows timeit_number timeit_repeat buffer_size engine)
    as (r & Hr & Hval & Hmax); [done | done | lia | done | done |].
  assert (Hne : r ≠ number_of_rows - 1).
  { intros ->.
    assert (0 < 10 ^ (Py.len_str (Py.str number_of_rows) - 1))
      by (apply Z.pow_pos_nonneg; lia).
    specialize (Hmax (10 ^ (Py.len_str (Py.str number_of_rows) - 1) - 1) ltac:(lia)).
    rewrite cell_key_lt_nines in Hmax; [done | done | lia | done]. }
  assert (Hcount := trial_count strategy database connect_str number_of_cols
                      number_of_rows timeit_number timeit_repeat buffer_size engine
                      strategy_ok ltac:(lia) ltac:(lia) ltac:(lia)).
  rewrite (check_and_clean_mismatch _ _ _ _ _ _ _ Hcount
             (setup_db_columns _ _ _ _ _ _ cols_ok) Hval).
  - cbn [fst snd]. unfold Session_close. do 3 f_equal.
    change (durable (execute (execute ?s _ _ _) _ _ _)) with (durable s).
    rewrite trial_session_durable by done. by apply trial_session_rows.
  - intros Heq. apply (inj Some) in Heq. apply Hne.
    rewrite <- (cell_value_last number_of_rows number_of_cols) in Heq by lia.
    apply cell_value_row_inj in Heq; lia.
Qed.

End TrialOutcome.

(** On the accepted path [benchmark] returns with the table dropped when
    all row indices print to the same width. *)
Lemma benchmark_passes database connect_str number_of_cols number_of_rows
    timeit_number timeit_repeat buffer_size :
  1 ≤ number_of_cols → 1 ≤ number_of_rows →
  number_of_rows ≤ 10 ∨ (∃ k, 0 ≤ k ∧ number_of_rows = 10 ^ k) →
  1 ≤ timeit_number → 1 ≤ timeit_repeat →
  benchmark database connect_str number_of_cols number_of_rows timeit_number
            timeit_repeat buffer_size
  = (Returned, {| url := connect_str; mytable := None |}).
Proof.
  intros Hcols Hrows Hshape HN HR.
  pose proof (equal_width_rows number_of_rows Hrows Hshape) as Hwidth.
  rewrite benchmark_unfold. cbv zeta.
  rewrite benchmark_trial_passes by (done || by left).
  cbn [fst snd].
  rewrite benchmark_trial_passes by (done || by right).
  reflexivity.
Qed.

(** On the accepted path the second assertion fails in the first trial
    when the row indices print to different widths. *)
Lemma benchmark_fails database connect_str number_of_cols number_of_rows
    timeit_number timeit_repeat buffer_size :
  1 ≤ number_of_cols → 10 < number_of_rows → (∀ k, number_of_rows ≠ 10 ^ k) →
  1 ≤ timeit_number → 1 ≤ timeit_repeat →
  let col_pad := Py.len_str (Py.str number_of_cols) - 1 in
  let row_pad := Py.len_str (Py.str number_of_rows) - 1 in
  benchmark database connect_str number_of_cols number_of_rows timeit_number
            timeit_repeat buffer_size
  = (AssertionError,
     {| url := connect_str;
        mytable :=
          Some (mjoin (replicate (Z.to_nat timeit_repeat * Z.to_nat timeit_number)
                         (row_tuple number_of_cols row_pad col_pad
                            <$> Py.range number_of_rows))) |}).
Proof.
  intros Hcols Hrows Hshape HN HR col_pad row_pad.
  rewrite benchmark_unfold. cbv zeta.
  rewrite benchmark_trial_fails by (done || by left).
  reflexivity.
Qed.

(** On the accepted path a run that inserts nothing ends with
    [TypeError]. *)
Lemma benchmark_empty_run database connect_str number_of_cols number_of_rows
    timeit_number timeit_repeat buffer_size :
  1 ≤ number_of_cols →
  0 ≤ number_of_rows → 0 ≤ timeit_number → 0 ≤ timeit_repeat →
  timeit_repeat * timeit_number * number_of_rows = 0 →
  fst (benchmark database connect_str number_of_cols number_of_rows timeit_number
                 timeit_repeat buffer_size) = TypeError.
Proof.
  intros Hcols Hrows HN HR Hzero.
  rewrite benchmark_unfold. cbv zeta.
  rewrite benchmark_trial_unfold.
  rewrite check_and_clean_empty_table; [done | | |].
  - apply trial_count; [by left | done ..].
  - by apply setup_db_columns.
  - apply length_zero_iff_nil.
    rewrite trial_session_view; [|by left | apply generate_rows_over_columns].
    rewrite length_join_replicate, length_fmap, length_generate_rows. nia.
Qed.

(** ** Trials compared *)

Lemma trial_session_durable_gen strategy engine table rows timeit_number
    timeit_repeat buffer_size :
  is_strategy strategy →
  durable (trial_session strategy engine table rows timeit_number timeit_repeat
                         buffer_size)
  = match (Z.to_nat timeit_repeat * Z.to_nat timeit_number)%nat with
    | O => default [] (mytable engine)
    | S _ => view (trial_session strategy engine table rows timeit_number
                                 timeit_repeat buffer_size)
    end.
Proof.
  intros Hs. unfold trial_session. rewrite timeit_repeat_run_iter.
  destruct (Z.to_nat timeit_repeat * Z.to_nat timeit_number)%nat as [|k]; [done|].
  rewrite Nat.iter_succ. by apply strategy_durable.
Qed.

Lemma trial_outcome_view_only strategy1 strategy2 engine1 engine2 table rows
    number_of_rows number_of_cols timeit_number timeit_repeat buffer_size :
  is_strategy strategy1 → is_strategy strategy2 →
  Forall (over_columns table) rows →
  fst (benchmark_trial strategy1 engine1 table rows number_of_rows number_of_cols
                       timeit_number timeit_repeat buffer_size)
  = fst (benchmark_trial strategy2 engine2 table rows number_of_rows number_of_cols
                         timeit_number timeit_repeat buffer_size).
Proof.
  intros H1 H2 Hall. rewrite !benchmark_trial_unfold. cbn [fst].
  apply check_and_clean_view_only. by rewrite !trial_session_view.
Qed.

Lemma benchmark_fst database connect_str number_of_cols number_of_rows
    timeit_number timeit_repeat buffer_size :
  fst (benchmark database connect_str number_of_cols number_of_rows timeit_number
                 timeit_repeat buffer_size)
  = let col_pad := Py.len_str (Py.str number_of_cols) - 1 in
    let row_pad := Py.len_str (Py.str number_of_rows) - 1 in
    let table := snd (setup_db database connect_str number_of_cols number_of_rows
                               col_pad row_pad) in
    let rows := generate_rows table number_of_rows row_pad col_pad in
    let first :=
      benchmark_trial insert_values_params
        (create_all {| url := connect_str; mytable := database |}) table rows
        number_of_rows number_of_cols timeit_number timeit_repeat buffer_size in
    match fst first with
    | Returned =>
        fst (benchmark_trial insert_values_executemany (snd first) table rows
               number_of_rows number_of_cols timeit_number timeit_repeat buffer_size)
    | outcome => outcome
    end.
Proof.
  rewrite benchmark_unfold. cbv zeta.
  destruct (fst (benchmark_trial insert_values_params _ _ _ _ _ _ _ _)); try done.
  by destruct (fst (benchmark_trial insert_values_executemany _ _ _ _ _ _ _ _)).
Qed.

(** On the accepted path a trial ends the same way with either
    strategy. *)
Lemma trials_agree engine table rows number_of_rows number_of_cols
    timeit_number timeit_repeat buffer_size :
  Forall (over_columns table) rows →
  benchmark_trial insert_values_params engine table rows number_of_rows
                  number_of_cols timeit_number timeit_repeat buffer_size
  = benchmark_trial insert_values_executemany engine table rows number_of_rows
                    number_of_cols timeit_number timeit_repeat buffer_size.
Proof.
  intros Hall. rewrite !benchmark_trial_unfold.
  assert (Hp : is_strategy insert_values_params) by (by left).
  assert (He : is_strategy insert_values_executemany) by (by right).
  set (s1 := trial_session insert_values_params engine table rows timeit_number
                           timeit_repeat buffer_size).
  set (s2 := trial_session insert_values_executemany engine table rows timeit_number
                           timeit_repeat buffer_size).
  assert (Hview : view s1 = view s2).
  { unfold s1, s2. by rewrite !trial_session_view. }
  assert (Hdur : durable s1 = durable s2).
  { unfold s1, s2. rewrite !trial_session_durable_gen by done.
    destruct (Z.to_nat timeit_repeat * Z.to_nat timeit_number)%nat; [done|].
    exact Hview. }
  destruct (check_and_clean_view_only s1 s2 table number_of_rows number_of_cols
              timeit_number timeit_repeat Hview) as (Hfst & _ & Hd).
  unfold Session_close. by rewrite Hfst, (Hd Hdur).
Qed.

(** On the accepted path the outcome does not depend on the prior
    content: each trial starts by deleting all rows. *)
Lemma benchmark_outcome_independent database1 database2 connect_str1 connect_str2
    number_of_cols number_of_rows timeit_number timeit_repeat buffer_size :
  fst (benchmark database1 connect_str1 number_of_cols number_of_rows timeit_number
                 timeit_repeat buffer_size)
  = fst (benchmark database2 connect_str2 number_of_cols number_of_rows
                   timeit_number timeit_repeat buffer_size).
Proof.
  rewrite !benchmark_fst. cbv zeta.
  change (snd (setup_db database2 connect_str2 number_of_cols number_of_rows
                        (Py.len_str (Py.str number_of_cols) - 1)
                        (Py.len_str (Py.str number_of_rows) - 1)))
    with (snd (setup_db database1 connect_str1 number_of_cols number_of_rows
                        (Py.len_str (Py.str number_of_cols) - 1)
                        (Py.len_str (Py.str number_of_rows) - 1))).
  assert (Hp : is_strategy insert_values_params) by (by left).
  assert (He : is_strategy insert_values_executemany) by (by right).
  pose proof (generate_rows_over_columns database1 connect_str1 number_of_cols
                number_of_rows (Py.len_str (Py.str number_of_cols) - 1)
                (Py.len_str (Py.str number_of_rows) - 1) number_of_rows
                (Py.len_str (Py.str number_of_rows) - 1)
                (Py.len_str (Py.str number_of_cols) - 1)) as Hall.
  cbv zeta in Hall.
  rewrite (trial_outcome_view_only insert_values_params insert_values_params
             (create_all {| url := connect_str1; mytable := database1 |})
             (create_all {| url := connect_str2; mytable := database2 |})) by done.
  destruct (fst (benchmark_trial insert_values_params _ _ _ _ _ _ _ _)); try done.
  by apply trial_outcome_view_only.
Qed.

(** ** How many statements an invocation issues *)

Lemma length_concat_uniform (full : list (list Row)) bs :
  Forall (λ b, Py.len b = bs) full →
  Py.len (concat full) = Py.len full * bs.
Proof.
  unfold Py.len. induction 1 as [|b full Hb _ IH]; cbn [concat length]; [lia|].
  rewrite length_app. lia.
Qed.

Lemma added_app s s' events :
  trace s' = trace s ++ events → added s s' = events.
Proof. intros H. unfold added. by rewrite H, drop_app_length. Qed.

Lemma length_issued stmt full rest :
  Py.len (issued stmt full rest)
  = Py.len full + (if decide (rest = []) then 0 else 1) + 1.
Proof.
  unfold issued, Py.len. rewrite !length_app, length_fmap.
  destruct (decide (rest = [])); cbn [length]; lia.
Qed.

Lemma buffered_insert_statements stmt flush s rows bs :
  (∀ s b, trace (flush s b) = trace s ++ [stmt b]) →
  1 ≤ bs →
  Py.len (added s (buffered_insert flush s rows bs))
  = (Py.len rows + bs - 1) / bs + 1.
Proof.
  intros Hflush Hbs.
  destruct (buffered_insert_trace stmt flush s rows bs Hflush Hbs)
    as (full & rest & Ht & Hc & Hf & Hl).
  rewrite (added_app _ _ _ Ht), length_issued. f_equal.
  assert (Hrows : Py.len rows = Py.len full * bs + Py.len rest).
  { rewrite <- Hc. unfold Py.len at 1. rewrite length_app.
    pose proof (length_concat_uniform full bs Hf) as Hu. unfold Py.len in *. lia. }
  assert (Hrest : 0 ≤ Py.len rest) by (unfold Py.len; lia).
  destruct (decide (rest = [])) as [->|Hne].
  - apply (Z.div_unique _ _ _ (bs - 1)); [lia|].
    unfold Py.len in *. cbn [length] in *. lia.
  - assert (1 ≤ Py.len rest) by (destruct rest; [done | unfold Py.len; cbn; lia]).
    apply (Z.div_unique _ _ _ (Py.len rest - 1)); lia.
Qed.

(** ** Declared width against generated values *)

(** X10. For a row index below the row count and a column index below
    the column count, the generated cell value has at most
    [col_pad + row_pad + 9] characters, one more than the declared
    width; it fits the declared width [col_pad + row_pad + 8] whenever
    the row index has at most [row_pad] digits or the column index at
    most [col_pad] digits. *)
Theorem cell_value_width number_of_cols number_of_rows r c :
  0 ≤ r < number_of_rows → 0 ≤ c < number_of_cols →
  let col_pad := Py.len_str (Py.str number_of_cols) - 1 in
  let row_pad := Py.len_str (Py.str number_of_rows) - 1 in
  Py.len_str (cell_value row_pad col_pad r c) ≤ col_pad + row_pad + 9
  ∧ (Py.len (Py.digits r) ≤ row_pad ∨ Py.len (Py.digits c) ≤ col_pad →
     Py.len_str (cell_value row_pad col_pad r c) ≤ col_pad + row_pad + 8).
Proof.
  intros Hr Hc col_pad row_pad.
  pose proof (format_zero_length number_of_rows r Hr) as Hrow.
  pose proof (format_zero_length number_of_cols c Hc) as Hcol.
  fold row_pad in Hrow. fold col_pad in Hcol.
  assert (Hlen : Py.len_str (cell_value row_pad col_pad r c)
                 = 7 + Py.len_str (Py.format_zero row_pad r)
                   + Py.len_str (Py.format_zero col_pad c)).
  { unfold cell_value, Py.len_str. rewrite !length_str_app. cbn [String.length]. lia. }
  assert (Hfr : Py.len_str (Py.format_zero row_pad r)
                = Z.max row_pad (Py.len (Py.digits r))).
  { rewrite format_zero_nonneg by lia. unfold Py.len_str.
    rewrite length_render. apply length_zfill. }
  assert (Hfc : Py.len_str (Py.format_zero col_pad c)
                = Z.max col_pad (Py.len (Py.digits c))).
  { rewrite format_zero_nonneg by lia. unfold Py.len_str.
    rewrite length_render. apply length_zfill. }
  split; [lia|]. intros [Hd|Hd]; lia.
Qed.

Lemma cell_value_width_witness :
  Py.len_str (cell_value 2 1 99 89) ≤ 1 + 2 + 8.
Proof.
  assert (Hr : 0 ≤ 99 < 100) by lia. assert (Hc : 0 ≤ 89 < 90) by lia.
  apply (proj2 (cell_value_width 90 100 99 89 Hr Hc)).
  left. vm_compute. discriminate.
Defined.

(** On the accepted path a negative row count fails the count
    assertion. *)
Lemma benchmark_negative_rows database connect_str number_of_cols number_of_rows
    timeit_number timeit_repeat buffer_size :
  number_of_rows < 0 → 1 ≤ timeit_number → 1 ≤ timeit_repeat →
  generate_rows (snd (setup_db database connect_str number_of_cols number_of_rows
                               (Py.len_str (Py.str number_of_cols) - 1)
                               (Py.len_str (Py.str number_of_rows) - 1)))
                number_of_rows
                (Py.len_str (Py.str number_of_rows) - 1)
                (Py.len_str (Py.str number_of_cols) - 1) = []
  ∧ fst (benchmark database connect_str number_of_cols number_of_rows timeit_number
                   timeit_repeat buffer_size) = AssertionError.
Proof.
  intros Hrows HN HR.
  assert (Hnil : ∀ table row_pad col_pad,
             generate_rows table number_of_rows row_pad col_pad = []).
  { intros table row_pad col_pad. apply length_zero_iff_nil.
    rewrite length_generate_rows. lia. }
  split; [apply Hnil|].
  rewrite benchmark_unfold. cbv zeta. rewrite benchmark_trial_unfold.
  pose proof (check_and_clean_cases
    (trial_session insert_values_params
       (create_all {| url := connect_str; mytable := database |})
       (snd (setup_db database connect_str number_of_cols number_of_rows
                      (Py.len_str (Py.str number_of_cols) - 1)
                      (Py.len_str (Py.str number_of_rows) - 1)))
       (generate_rows
          (snd (setup_db database connect_str number_of_cols number_of_rows
                         (Py.len_str (Py.str number_of_cols) - 1)
                         (Py.len_str (Py.str number_of_rows) - 1)))
          number_of_rows (Py.len_str (Py.str number_of_rows) - 1)
          (Py.len_str (Py.str number_of_cols) - 1))
       timeit_number timeit_repeat buffer_size)
    (snd (setup_db database connect_str number_of_cols number_of_rows
                   (Py.len_str (Py.str number_of_cols) - 1)
                   (Py.len_str (Py.str number_of_rows) - 1)))
    number_of_rows number_of_cols timeit_number timeit_repeat) as Hcases.
  cbv zeta in Hcases.
  assert (Hcount : ∀ s : Session,
             count_holds s number_of_rows timeit_number timeit_repeat → False).
  { intros s Hc. unfold count_holds, Py.len in Hc. nia. }
  destruct Hcases as [[_ ->] | [(Hc & _) | [(Hc & _) | [(Hc & _) | (Hc & _)]]]];
    [done | by apply Hcount in Hc ..].
Qed.


(** * The script with the exceptions of the store *)

(** ** The buffering discipline when a flush may raise *)

Section BufferedTry.
Context (verdict : Session → list Row → option Raised).
Context (commit_verdict : Session → option Raised).
Context (flush : Session → list Row → Session).

(** A loop that raises nothing is the loop of the accepted path. *)
Lemma buffered_loop_try_done bs rows s buf s' buf' :
  buffered_loop_try verdict flush bs s buf rows = (Done s', buf') →
  foldl (buffered_body flush bs) (s, buf) rows = (s', buf').
Proof.
  revert s buf. induction rows as [|row rows IH]; intros s buf Hrun; cbn in *.
  - by simplify_eq.
  - destruct (Py.len (buf ++ [row]) >=? bs); [|by apply IH].
    destruct (verdict s (buf ++ [row])); [done | by apply IH].
Qed.

Lemma buffered_try_done bs rows s s' :
  buffered_try verdict commit_verdict flush s rows bs = Done s' →
  s' = buffered_insert flush s rows bs.
Proof.
  unfold buffered_try, buffered_insert. intros Hrun.
  destruct (buffered_loop_try verdict flush bs s [] rows) as [[s1|e s1] buf] eqn:Hloop;
    [|done].
  rewrite (buffered_loop_try_done _ _ _ _ _ _ Hloop). unfold buffered_rest.
  destruct (Py.len buf >? 0).
  - destruct (verdict s1 buf); [done|]. cbn.
    destruct (commit_verdict (flush s1 buf)); [done|]. by simplify_eq.
  - cbn. destruct (commit_verdict s1); [done|]. by simplify_eq.
Qed.

(** When every flush and the commit are accepted, nothing is raised. *)
Lemma buffered_loop_try_accepted bs rows s buf :
  (∀ s b, verdict s b = None) →
  buffered_loop_try verdict flush bs s buf rows
  = (Done (fst (foldl (buffered_body flush bs) (s, buf) rows)),
     snd (foldl (buffered_body flush bs) (s, buf) rows)).
Proof.
  intros Hok. revert s buf. induction rows as [|row rows IH]; intros s buf; cbn.
  - done.
  - destruct (Py.len (buf ++ [row]) >=? bs); [|by apply IH].
    rewrite Hok. by apply IH.
Qed.

Lemma buffered_try_accepted bs rows s :
  (∀ s b, verdict s b = None) → (∀ s, commit_verdict s = None) →
  buffered_try verdict commit_verdict flush s rows bs
  = Done (buffered_insert flush s rows bs).
Proof.
  intros Hok Hcommit. unfold buffered_try, buffered_insert.
  rewrite buffered_loop_try_accepted by done.
  destruct (foldl (buffered_body flush bs) (s, []) rows) as [s1 buf].
  cbn [fst snd]. unfold buffered_rest.
  destruct (Py.len buf >? 0); cbn; by rewrite ?Hok, Hcommit.
Qed.

(** If the store rejects the first full buffer, the invocation raises
    before anything is stored. *)
Lemma buffered_loop_try_first_rejected bs rows s buf e :
  Py.len buf < bs → bs ≤ Py.len buf + Py.len rows →
  verdict s (take (Z.to_nat bs) (buf ++ rows)) = Some e →
  fst (buffered_loop_try verdict flush bs s buf rows) = Raises e s.
Proof.
  revert buf. induction rows as [|row rows IH]; intros buf Hbuf Hlen Hv.
  - unfold Py.len in *. cbn in *. lia.
  - cbn [buffered_loop_try].
    assert (Hl : Py.len (buf ++ [row]) = Py.len buf + 1).
    { unfold Py.len. rewrite length_app. cbn. lia. }
    destruct (Z.geb_spec (Py.len (buf ++ [row])) bs) as [Hge|Hlt].
    + assert (Htake : take (Z.to_nat bs) (buf ++ row :: rows) = buf ++ [row]).
      { rewrite (cons_middle row buf rows), app_assoc.
        apply take_app_length'. unfold Py.len in *. lia. }
      rewrite Htake in Hv. by rewrite Hv.
    + apply IH; [lia | |].
      * unfold Py.len in *. cbn [length] in Hlen. lia.
      * by rewrite <- app_assoc.
Qed.

Lemma buffered_try_first_rejected bs rows s e :
  1 ≤ bs → bs ≤ Py.len rows →
  verdict s (take (Z.to_nat bs) rows) = Some e →
  buffered_try verdict commit_verdict flush s rows bs = Raises e s.
Proof.
  intros Hbs Hlen Hv. unfold buffered_try.
  pose proof (buffered_loop_try_first_rejected bs rows s [] e) as Hloop.
  destruct (buffered_loop_try verdict flush bs s [] rows) as [r buf].
  cbn [fst] in Hloop. rewrite Hloop; [done | | |done].
  - unfold Py.len. cbn. lia.
  - unfold Py.len in *. cbn. lia.
Qed.

End BufferedTry.

(** ** The two strategies as instances *)

Lemma insert_values_params_loop_buffered store table bs s buf rows :
  insert_values_params_loop store table bs s buf rows
  = buffered_loop_try (λ s b, statement_error store s table (InsertValues b) [])
                      (flush_values table) bs s buf rows.
Proof.
  revert s buf. induction rows as [|row rows IH]; intros s buf; cbn; [done|].
  destruct (Py.len (buf ++ [row]) >=? bs); [|by apply IH].
  unfold try_execute.
  destruct (statement_error store s table (InsertValues (buf ++ [row])) []);
    [done | by apply IH].
Qed.

Lemma insert_values_params_try_buffered store s table rows bs :
  insert_values_params_try store s table rows bs
  = buffered_try (λ s b, statement_error store s table (InsertValues b) [])
                 (commit_error store) (flush_values table) s rows bs.
Proof.
  unfold insert_values_params_try, buffered_try.
  by rewrite insert_values_params_loop_buffered.
Qed.

Lemma insert_values_executemany_loop_buffered store table bs s buf rows :
  insert_values_executemany_loop store table bs s buf rows
  = buffered_loop_try (λ s b, statement_error store s table Insert b)
                      (flush_executemany table) bs s buf rows.
Proof.
  revert s buf. induction rows as [|row rows IH]; intros s buf; cbn; [done|].
  destruct (Py.len (buf ++ [row]) >=? bs); [|by apply IH].
  unfold try_execute.
  destruct (statement_error store s table Insert (buf ++ [row]));
    [done | by apply IH].
Qed.

Lemma insert_values_executemany_try_buffered store s table rows bs :
  insert_values_executemany_try store s table rows bs
  = buffered_try (λ s b, statement_error store s table Insert b)
                 (commit_error store) (flush_executemany table) s rows bs.
Proof.
  unfold insert_values_executemany_try, buffered_try.
  by rewrite insert_values_executemany_loop_buffered.
Qed.

(** An invocation that raises nothing is the invocation of the accepted
    path. *)
Lemma strategy_try_done strategy_try strategy store s table rows bs s' :
  is_strategy_try strategy_try strategy →
  strategy_try store s table rows bs = Done s' →
  s' = strategy s table rows bs.
Proof.
  intros [[-> ->] | [-> ->]] Hrun.
  - rewrite insert_values_params_try_buffered in Hrun.
    by apply buffered_try_done in Hrun.
  - rewrite insert_values_executemany_try_buffered in Hrun.
    by apply buffered_try_done in Hrun.
Qed.

Lemma strategy_try_is_strategy strategy_try strategy :
  is_strategy_try strategy_try strategy → is_strategy strategy.
Proof. intros [[_ ->] | [_ ->]]; [by left | by right]. Qed.

Lemma strategy_try_accepted strategy_try strategy store s table rows bs :
  is_strategy_try strategy_try strategy → accepts_all store →
  strategy_try store s table rows bs = Done (strategy s table rows bs).
Proof.
  intros [[-> ->] | [-> ->]] (_ & _ & Hstmt & Hcommit & _).
  - rewrite insert_values_params_try_buffered, insert_values_params_buffered.
    by apply buffered_try_accepted.
  - rewrite insert_values_executemany_try_buffered,
      insert_values_executemany_buffered.
    by apply buffered_try_accepted.
Qed.

(** ** Repetition, check and trial with exceptions *)

Lemma iter_try_done (stmt_try : Session → Run) (stmt : Session → Session) k s s' :
  (∀ s s', stmt_try s = Done s' → s' = stmt s) →
  iter_try k stmt_try s = Done s' → s' = Nat.iter k stmt s.
Proof.
  intros Hstmt. revert s. induction k as [|k IH]; intros s Hrun; cbn in Hrun.
  - by simplify_eq.
  - destruct (stmt_try s) as [s1|e s1] eqn:H1; [|done].
    rewrite Nat.iter_succ_r, <- (Hstmt _ _ H1). by apply IH.
Qed.

Lemma iter_try_accepted (stmt_try : Session → Run) (stmt : Session → Session) k s :
  (∀ s, stmt_try s = Done (stmt s)) →
  iter_try k stmt_try s = Done (Nat.iter k stmt s).
Proof.
  intros Hstmt. revert s. induction k as [|k IH]; intros s; cbn [iter_try]; [done|].
  by rewrite Hstmt, IH, Nat.iter_succ_r.
Qed.

Lemma timeit_repeat_try_done (stmt_try : Session → Run) (stmt : Session → Session)
    repeat number s s' :
  (∀ s s', stmt_try s = Done s' → s' = stmt s) →
  timeit_repeat_try stmt_try repeat number s = Done s' →
  s' = timeit_repeat_run stmt repeat number s.
Proof.
  intros Hstmt Hrun. unfold timeit_repeat_try in Hrun. unfold timeit_repeat_run.
  apply (iter_try_done _ (Nat.iter (Z.to_nat number) stmt)) in Hrun; [done|].
  intros s1 s2. by apply iter_try_done.
Qed.

Lemma timeit_repeat_try_accepted (stmt_try : Session → Run)
    (stmt : Session → Session) repeat number s :
  (∀ s, stmt_try s = Done (stmt s)) →
  timeit_repeat_try stmt_try repeat number s
  = Done (timeit_repeat_run stmt repeat number s).
Proof.
  intros Hstmt. unfold timeit_repeat_try, timeit_repeat_run.
  apply iter_try_accepted. intros s1. by apply iter_try_accepted.
Qed.

Lemma check_and_clean_try_ended store session table number_of_rows number_of_cols
    timeit_number timeit_repeat outcome session' :
  check_and_clean_try store session table number_of_rows number_of_cols
                      timeit_number timeit_repeat = (Ended outcome, session') →
  check_and_clean session table number_of_rows number_of_cols
                  timeit_number timeit_repeat = (outcome, session').
Proof.
  unfold check_and_clean_try, check_and_clean, select_count, query_first_desc,
    try_execute, try_commit.
  cbn zeta.
  destruct (statement_error store session table SelectCount []); [done|].
  destruct (negb _); [intros ?; by simplify_eq|].
  destruct (columns table) as [|col cols]; [intros ?; by simplify_eq|].
  destruct (statement_error store _ table SelectOrderByDesc []); [done|].
  change (view (execute session table SelectCount [])) with (view session).
  destruct (first_desc (view session)) as [row|]; [|intros ?; by simplify_eq].
  destruct (last row) as [val|]; [|intros ?; by simplify_eq].
  case_bool_decide; [|intros ?; by simplify_eq].
  destruct (statement_error store _ table Delete []); [done|].
  destruct (commit_error store _); [done|]. intros ?. by simplify_eq.
Qed.

Lemma check_and_clean_try_accepted store session table number_of_rows
    number_of_cols timeit_number timeit_repeat :
  accepts_all store →
  check_and_clean_try store session table number_of_rows number_of_cols
                      timeit_number timeit_repeat
  = (Ended (fst (check_and_clean session table number_of_rows number_of_cols
                                 timeit_number timeit_repeat)),
     snd (check_and_clean session table number_of_rows number_of_cols
                          timeit_number timeit_repeat)).
Proof.
  intros (_ & _ & Hstmt & Hcommit & _).
  unfold check_and_clean_try, check_and_clean, select_count, query_first_desc,
    try_execute, try_commit.
  cbn zeta. rewrite !Hstmt.
  destruct (negb _); [done|].
  destruct (columns table) as [|col cols]; [done|].
  rewrite ?Hstmt.
  change (view (execute session table SelectCount [])) with (view session).
  destruct (first_desc (view session)) as [row|]; [|done].
  destruct (last row) as [val|]; [|done].
  case_bool_decide; [|done]. by rewrite ?Hstmt, Hcommit.
Qed.

Lemma benchmark_trial_try_ended store strategy_try strategy engine table rows
    number_of_rows number_of_cols timeit_number timeit_repeat buffer_size
    outcome engine' :
  is_strategy_try strategy_try strategy →
  benchmark_trial_try store strategy_try engine table rows number_of_rows
    number_of_cols timeit_number timeit_repeat buffer_size = (Ended outcome, engine') →
  benchmark_trial strategy engine table rows number_of_rows number_of_cols
    timeit_number timeit_repeat buffer_size = (outcome, engine').
Proof.
  intros Hs. unfold benchmark_trial_try, benchmark_trial, try_execute.
  destruct (statement_error store (Session_open engine) table Delete []); [done|].
  destruct (timeit_repeat_try _ _ _ _) as [s1|e s1] eqn:Htimeit; [|done].
  apply (timeit_repeat_try_done _ (λ s, strategy s table rows buffer_size))
    in Htimeit; [|intros s2 s3; by apply strategy_try_done].
  rewrite <- Htimeit.
  destruct (check_and_clean_try store s1 table number_of_rows number_of_cols
              timeit_number timeit_repeat) as [ending s2] eqn:Hcheck.
  intros Heq. simplify_eq.
  by rewrite (check_and_clean_try_ended _ _ _ _ _ _ _ _ _ Hcheck).
Qed.

Lemma benchmark_trial_try_accepted store strategy_try strategy engine table rows
    number_of_rows number_of_cols timeit_number timeit_repeat buffer_size :
  is_strategy_try strategy_try strategy → accepts_all store →
  benchmark_trial_try store strategy_try engine table rows number_of_rows
    number_of_cols timeit_number timeit_repeat buffer_size
  = (Ended (fst (benchmark_trial strategy engine table rows number_of_rows
                   number_of_cols timeit_number timeit_repeat buffer_size)),
     snd (benchmark_trial strategy engine table rows number_of_rows
            number_of_cols timeit_number timeit_repeat buffer_size)).
Proof.
  intros Hs Hall. unfold benchmark_trial_try, benchmark_trial, try_execute.
  rewrite (proj1 (proj2 (proj2 Hall))).
  rewrite (timeit_repeat_try_accepted _ (λ s, strategy s table rows buffer_size))
    by (intros s; by apply strategy_try_accepted).
  rewrite check_and_clean_try_accepted by done.
  by destruct (check_and_clean _ _ _ _ _ _).
Qed.

Lemma setup_db_try_ok store database connect_str number_of_cols number_of_rows
    col_pad row_pad result :
  setup_db_try store database connect_str number_of_cols number_of_rows
               col_pad row_pad = inr result →
  result = setup_db database connect_str number_of_cols number_of_rows
                    col_pad row_pad.
Proof.
  unfold setup_db_try, setup_db. cbn zeta.
  destruct (connect_error store connect_str); [done|].
  destruct (create_error store _ _); [done|]. intros ?. by simplify_eq.
Qed.

Lemma setup_db_try_accepted store database connect_str number_of_cols
    number_of_rows col_pad row_pad :
  accepts_all store →
  setup_db_try store database connect_str number_of_cols number_of_rows
               col_pad row_pad
  = inr (setup_db database connect_str number_of_cols number_of_rows
                  col_pad row_pad).
Proof.
  intros (Hconnect & Hcreate & _). unfold setup_db_try, setup_db. cbn zeta.
  by rewrite Hconnect, Hcreate.
Qed.

(** A run of [benchmark] in which the store raises nothing is the run
    of the accepted path. *)
Lemma benchmark_try_ended store database connect_str number_of_cols number_of_rows
    timeit_number timeit_repeat buffer_size outcome engine :
  benchmark_try store database connect_str number_of_cols number_of_rows
                timeit_number timeit_repeat buffer_size = (Ended outcome, engine) →
  benchmark database connect_str number_of_cols number_of_rows timeit_number
            timeit_repeat buffer_size = (outcome, engine).
Proof.
  unfold benchmark_try. cbv zeta. rewrite benchmark_unfold. cbv zeta.
  destruct (setup_db_try _ _ _ _ _ _ _) as [e|[engine0 table]] eqn:Hsetup; [done|].
  apply setup_db_try_ok in Hsetup.
  assert (He : engine0 = create_all {| url := connect_str; mytable := database |})
    by (apply (f_equal fst) in Hsetup; exact Hsetup).
  assert (Ht : table = snd (setup_db database connect_str number_of_cols
                                     number_of_rows
                                     (Py.len_str (Py.str number_of_cols) - 1)
                                     (Py.len_str (Py.str number_of_rows) - 1)))
    by (apply (f_equal snd) in Hsetup; exact Hsetup).
  clear Hsetup. subst engine0 table.
  destruct (benchmark_trial_try store insert_values_params_try _ _ _ _ _ _ _ _)
    as [[o1|e1] engine1] eqn:H1; [|done].
  apply (benchmark_trial_try_ended _ _ insert_values_params) in H1; [|by left].
  rewrite H1. cbn [fst snd].
  destruct o1; try (intros ?; by simplify_eq).
  destruct (benchmark_trial_try store insert_values_executemany_try _ _ _ _ _ _ _ _)
    as [[o2|e2] engine2] eqn:H2; [|done].
  apply (benchmark_trial_try_ended _ _ insert_values_executemany) in H2; [|by right].
  rewrite H2. cbn [fst snd].
  destruct o2; try (intros ?; by simplify_eq).
  destruct (drop_error store engine2 _); [done|]. intros ?. by simplify_eq.
Qed.

Lemma benchmark_try_accepted store database connect_str number_of_cols
    number_of_rows timeit_number timeit_repeat buffer_size :
  accepts_all store →
  benchmark_try store database connect_str number_of_cols number_of_rows
                timeit_number timeit_repeat buffer_size
  = (Ended (fst (benchmark database connect_str number_of_cols number_of_rows
                           timeit_number timeit_repeat buffer_size)),
     snd (benchmark database connect_str number_of_cols number_of_rows
                    timeit_number timeit_repeat buffer_size)).
Proof.
  intros Hall. unfold benchmark_try. cbv zeta. rewrite benchmark_unfold. cbv zeta.
  rewrite setup_db_try_accepted, setup_db_pair by done.
  rewrite (benchmark_trial_try_accepted _ _ insert_values_params) by (done || by left).
  destruct (benchmark_trial insert_values_params _ _ _ _ _ _ _ _) as [o1 engine1].
  cbn [fst snd]. destruct o1; try done.
  rewrite (benchmark_trial_try_accepted _ _ insert_values_executemany)
    by (done || by right).
  destruct (benchmark_trial insert_values_executemany _ _ _ _ _ _ _ _) as [o2 engine2].
  cbn [fst snd]. destruct o2; try done.
  by rewrite (proj2 (proj2 (proj2 (proj2 Hall)))).
Qed.

(** ** A store with a limit on bound variables *)

Lemma len_setup_db_columns database connect_str number_of_cols number_of_rows
    col_pad row_pad :
  0 ≤ number_of_cols →
  Py.len (columns (snd (setup_db database connect_str number_of_cols
                                 number_of_rows col_pad row_pad)))
  = number_of_cols.
Proof.
  intros Hn. unfold Py.len. cbn [snd setup_db columns].
  rewrite length_fmap, length_range. lia.
Qed.

Lemma len_generate_rows table number_of_rows row_pad col_pad :
  0 ≤ number_of_rows →
  Py.len (generate_rows table number_of_rows row_pad col_pad) = number_of_rows.
Proof. intros Hn. unfold Py.len. rewrite length_generate_rows. lia. Qed.

(** A statement for dicts with the columns of the table as their keys
    names every column. *)
Lemma bound_columns_over_columns table params :
  params ≠ [] → Forall (over_columns table) params →
  bound_columns table params = columns table.
Proof.
  intros Hne Hall. destruct params as [|first params]; [done|].
  apply Forall_cons in Hall as [Hfirst _]. cbn [bound_columns].
  assert (Hcols : Forall (λ col, is_Some (first !! name col)) (columns table)).
  { apply Forall_forall. intros col Hcol. apply elem_of_dom. rewrite Hfirst.
    apply elem_of_list_to_set. unfold column_names.
    apply list_elem_of_fmap. by exists col. }
  induction Hcols as [|col cols Hcol _ IH]; [done|].
  rewrite filter_cons_True by done. by rewrite IH.
Qed.


(** The multi-row statement of a full buffer binds
    [buffer_size * len(columns)] variables; over the limit the first
    flush raises and nothing is stored. *)
Lemma values_over_limit max_variables s table rows bs :
  Forall (over_columns table) rows →
  1 ≤ bs → bs ≤ Py.len rows → max_variables < bs * Py.len (columns table) →
  insert_values_params_try (variable_limit_store max_variables) s table rows bs
  = Raises OperationalError s.
Proof.
  intros Hall Hbs Hlen Hmax. rewrite insert_values_params_try_buffered.
  apply buffered_try_first_rejected; [done | done |].
  cbn [statement_error variable_limit_store bound_variables].
  assert (Htake : Py.len (take (Z.to_nat bs) rows) = bs).
  { unfold Py.len in *. rewrite length_take. lia. }
  rewrite bound_columns_over_columns.
  - rewrite Htake.
    by destruct (Z.gtb_spec (bs * Py.len (columns table)) max_variables); [|lia].
  - intros Hnil. rewrite Hnil in Htake. unfold Py.len in Htake. cbn in Htake. lia.
  - by apply Forall_take.
Qed.


(** ** Row counts when the store lets the statements through *)

(** C1 fails as stated.  On a store that rejects statements binding more
    than 250000 variables, one invocation of [insert_values_params] on the
    script's own 1000 rows of 251 columns with the default buffer size raises
    [OperationalError] on its first flush and inserts nothing; and for
    [number_of_rows = -3] the table holds 0 rows where the asserted count is
    [1 * 1 * -3]. *)
Lemma inserted_row_count_counterexample :
  (let col_pad := Py.len_str (Py.str 251) - 1 in
   let row_pad := Py.len_str (Py.str 1000) - 1 in
   let table := snd (setup_db None "sqlite:///app.db" 251 1000 col_pad row_pad) in
   let rows := generate_rows table 1000 row_pad col_pad in
   let session :=
     execute (Session_open (create_all {| url := "sqlite:///app.db";
                                          mytable := None |})) table Delete [] in
   Py.len rows = 1000
   ∧ insert_values_params_try (variable_limit_store 250000) session table rows 1000
     = Raises OperationalError session
   ∧ view session = [])
  ∧ (let col_pad := Py.len_str (Py.str 1) - 1 in
     let row_pad := Py.len_str (Py.str (-3)) - 1 in
     let table := snd (setup_db None "sqlite:///app.db" 1 (-3) col_pad row_pad) in
     let rows := generate_rows table (-3) row_pad col_pad in
     let session :=
       timeit_repeat_run (λ s, insert_values_params s table rows 1000) 1 1
         (execute (Session_open (create_all {| url := "sqlite:///app.db";
                                               mytable := None |})) table Delete []) in
     fst (select_count session table) = 0
     ∧ fst (select_count session table) ≠ 1 * 1 * -3).
Proof.
  split.
  - cbv zeta. split; [by apply len_generate_rows|]. split; [|done].
    apply values_over_limit; [apply generate_rows_over_columns | lia | |].
    + rewrite len_generate_rows; lia.
    + rewrite len_setup_db_columns; lia.
  - vm_compute. split; [reflexivity | discriminate].
Qed.

(** C1, amended.  For a buffer size of at least one, an invocation of
    either strategy in which the store raises nothing adds exactly
    [len(rows)] rows to the table; [k] such invocations starting from an
    empty table leave [k * len(rows)] rows; and in [benchmark], for
    non-negative [timeit_repeat], [timeit_number] and [number_of_rows],
    when the initial delete and the timed invocations raise nothing the
    count [check_and_clean] reads is
    [timeit_repeat * timeit_number * number_of_rows]. *)
Theorem inserted_row_count_accepted (store : Store)
    (strategy_try : Store → Session → Table → list Row → Z → Run)
    (strategy : Session → Table → list Row → Z → Session)
    (buffer_size timeit_repeat timeit_number number_of_rows : Z) :
  is_strategy_try strategy_try strategy →
  1 ≤ buffer_size →
  0 ≤ timeit_repeat → 0 ≤ timeit_number → 0 ≤ number_of_rows →
  (∀ session table rows session',
     strategy_try store session table rows buffer_size = Done session' →
     Py.len (view session') = Py.len (view session) + Py.len rows)
  ∧ (∀ session table rows (k : nat) session',
       view session = [] →
       iter_try k (λ s, strategy_try store s table rows buffer_size) session
       = Done session' →
       Py.len (view session') = Z.of_nat k * Py.len rows)
  ∧ (∀ engine table row_pad col_pad deleted session',
       let rows := generate_rows table number_of_rows row_pad col_pad in
       try_execute store (Session_open engine) table Delete [] = Done deleted →
       timeit_repeat_try (λ s, strategy_try store s table rows buffer_size)
                         timeit_repeat timeit_number deleted = Done session' →
       fst (select_count session' table)
       = timeit_repeat * timeit_number * number_of_rows).
Proof.
  intros Hs Hbs HR HN Hrows.
  pose proof (strategy_try_is_strategy _ _ Hs) as Hstrat.
  assert (Hiter : ∀ session table rows (k : nat),
             length (view (Nat.iter k (λ s, strategy s table rows buffer_size) session))
             = (length (view session) + k * length rows)%nat).
  { intros session table rows k.
    apply (timeit_iter_count _ (length rows)).
    intros s. by apply strategy_count. }
  split; [|split].
  - intros session table rows session' Hrun.
    apply (strategy_try_done _ _ _ _ _ _ _ _ Hs) in Hrun. subst session'.
    unfold Py.len. rewrite (strategy_count strategy) by done. lia.
  - intros session table rows k session' Hempty Hrun.
    apply (iter_try_done _ (λ s, strategy s table rows buffer_size)) in Hrun;
      [|intros s1 s2; by apply strategy_try_done].
    subst session'. unfold Py.len. rewrite Hiter, Hempty. cbn. lia.
  - intros engine table row_pad col_pad deleted session' rows Hdel Hrun.
    unfold try_execute in Hdel.
    destruct (statement_error store _ table Delete []); [done|].
    injection Hdel as <-.
    apply (timeit_repeat_try_done _ (λ s, strategy s table rows buffer_size)) in Hrun;
      [|intros s1 s2; by apply strategy_try_done].
    subst session'. cbn [fst select_count].
    rewrite timeit_repeat_run_iter. unfold Py.len. rewrite Hiter. cbn [view execute run_statement length].
    unfold rows. rewrite length_generate_rows. lia.
Qed.

Lemma inserted_row_count_accepted_witness :
  let table := snd (setup_db None "sqlite:///app.db" 3 2 0 0) in
  let rows := generate_rows table 2 0 0 in
  let session :=
    execute (Session_open (create_all (Build_Engine "sqlite:///app.db" None)))
            table Delete [] in
  insert_values_params_try (variable_limit_store 250000) session table rows 1
  = Done (insert_values_params session table rows 1)
  ∧ Py.len (view (insert_values_params session table rows 1)) = 2.
Proof.
  assert (Hrun :
    insert_values_params_try (variable_limit_store 250000)
      (execute (Session_open (create_all (Build_Engine "sqlite:///app.db" None)))
               (snd (setup_db None "sqlite:///app.db" 3 2 0 0)) Delete [])
      (snd (setup_db None "sqlite:///app.db" 3 2 0 0))
      (generate_rows (snd (setup_db None "sqlite:///app.db" 3 2 0 0)) 2 0 0) 1
    = Done (insert_values_params
              (execute (Session_open (create_all (Build_Engine "sqlite:///app.db" None)))
                       (snd (setup_db None "sqlite:///app.db" 3 2 0 0)) Delete [])
              (snd (setup_db None "sqlite:///app.db" 3 2 0 0))
              (generate_rows (snd (setup_db None "sqlite:///app.db" 3 2 0 0)) 2 0 0) 1))
    by (vm_compute; reflexivity).
  split; [exact Hrun|].
  assert (H1 : 1 ≤ 1) by lia. assert (H0 : 0 ≤ 2) by lia.
  destruct (inserted_row_count_accepted (variable_limit_store 250000)
              insert_values_params_try insert_values_params 1 2 2 2
              (or_introl (conj eq_refl eq_refl)) H1 H0 H0 H0) as (Hone & _ & _).
  rewrite (Hone _ _ _ _ Hrun). reflexivity.
Defined.

(** ** Stored content of the two strategies *)





(** ** Flushes and the commit when a flush may raise *)

Lemma count_commits_flushes (stmt : list Row → Event) batches :
  (∀ b, is_commit (stmt b) = false) → count_commits (stmt <$> batches) = 0%nat.
Proof.
  intros Hstmt. unfold count_commits.
  induction batches as [|b batches IH]; [done|].
  rewrite fmap_cons, filter_cons_False; [done | by rewrite Hstmt].
Qed.

Lemma accepted_trace stmt flush s rows bs :
  (∀ s b, trace (flush s b) = trace s ++ [stmt b]) →
  (∀ b, is_commit (stmt b) = false) →
  1 ≤ bs →
  ∃ full rest,
    trace (buffered_insert flush s rows bs) = trace s ++ issued stmt full rest
    ∧ concat full ++ rest = rows
    ∧ Forall (λ b, Py.len b = bs) full
    ∧ Py.len rest < bs
    ∧ count_commits (issued stmt full rest) = 1%nat
    ∧ last (issued stmt full rest) = Some Commit.
Proof.
  intros Hflush Hstmt Hbs.
  destruct (buffered_insert_trace stmt flush s rows bs Hflush Hbs)
    as (full & rest & Ht & Hc & Hf & Hl).
  exists full, rest. repeat split; try done.
  - by apply count_commits_issued.
  - unfold issued. by rewrite !app_assoc, last_snoc.
Qed.

(** The loop with its invariant: the flushes issued so far are full
    batches, and with the buffer and the rows not yet consumed they make
    up the input; the loop ends with a buffer below [bs], or raises on a
    buffer of [bs] rows. *)
Lemma buffered_loop_try_batches verdict flush (stmt : list Row → Event) bs rows s buf
    r buf' :
  (∀ s b, trace (flush s b) = trace s ++ [stmt b]) →
  1 ≤ bs → Py.len buf < bs →
  buffered_loop_try verdict flush bs s buf rows = (r, buf') →
  ∃ batches rest,
    trace (match r with Done s' | Raises _ s' => s' end)
    = trace s ++ (stmt <$> batches)
    ∧ Forall (λ b, Py.len b = bs) batches
    ∧ concat batches ++ buf' ++ rest = buf ++ rows
    ∧ match r with
      | Done _ => rest = [] ∧ Py.len buf' < bs
      | Raises _ _ => Py.len buf' = bs
      end.
Proof.
  intros Hflush Hbs. revert s buf.
  induction rows as [|row rows IH]; intros s buf Hbuf Hrun; cbn in Hrun.
  - simplify_eq. exists [], []. cbn. by rewrite !app_nil_r.
  - assert (Hlen : Py.len (buf ++ [row]) = Py.len buf + 1).
    { unfold Py.len. rewrite length_app. cbn. lia. }
    destruct (Z.geb_spec (Py.len (buf ++ [row])) bs) as [Hge|Hlt].
    + destruct (verdict s (buf ++ [row])) as [e|] eqn:Hv.
      * simplify_eq. exists [], rows. cbn. rewrite app_nil_r.
        repeat split; [done | by rewrite <- app_assoc | lia].
      * destruct (IH (flush s (buf ++ [row])) []) as (batches & rest & Ht & Hf & Hc & Hr);
          [unfold Py.len; cbn; lia | done |].
        exists ((buf ++ [row]) :: batches), rest. repeat split.
        -- by rewrite Ht, Hflush, fmap_cons, <- app_assoc.
        -- constructor; [lia | done].
        -- cbn [concat]. cbn in Hc. by rewrite <- !app_assoc, Hc.
        -- done.
    + destruct (IH s (buf ++ [row])) as (batches & rest & Ht & Hf & Hc & Hr);
        [lia | done |].
      exists batches, rest. repeat split; try done.
      by rewrite Hc, <- app_assoc.
Qed.

(** An invocation that raises has sent a prefix of the rows, in batches
    of at most [bs] rows, and has not committed. *)
Lemma raised_trace verdict commit_verdict flush stmt s rows bs e s' :
  (∀ s b, trace (flush s b) = trace s ++ [stmt b]) →
  (∀ b, is_commit (stmt b) = false) →
  1 ≤ bs →
  buffered_try verdict commit_verdict flush s rows bs = Raises e s' →
  ∃ batches, trace s' = trace s ++ (stmt <$> batches)
             ∧ Forall (λ b, 1 ≤ Py.len b ≤ bs) batches
             ∧ concat batches `prefix_of` rows
             ∧ count_commits (added s s') = 0%nat.
Proof.
  intros Hflush Hstmt Hbs Hrun. unfold buffered_try in Hrun.
  destruct (buffered_loop_try verdict flush bs s [] rows) as [r buf] eqn:Hloop.
  destruct (buffered_loop_try_batches verdict flush stmt bs rows s [] r buf Hflush Hbs)
    as (full & rest & Ht & Hf & Hc & Hr); [unfold Py.len; cbn; lia | done |].
  cbn [app] in Hc.
  assert (Hfull : Forall (λ b, 1 ≤ Py.len b ≤ bs) full).
  { eapply Forall_impl; [exact Hf|]. intros b Hb. cbn in Hb. lia. }
  assert (Hsent : ∀ batches s1,
             trace s1 = trace s ++ (stmt <$> batches) →
             Forall (λ b, 1 ≤ Py.len b ≤ bs) batches →
             concat batches `prefix_of` rows →
             ∃ batches, trace s1 = trace s ++ (stmt <$> batches)
                        ∧ Forall (λ b, 1 ≤ Py.len b ≤ bs) batches
                        ∧ concat batches `prefix_of` rows
                        ∧ count_commits (added s s1) = 0%nat).
  { intros batches s1 Ht1 Hf1 Hp1. exists batches. repeat split; try done.
    rewrite (added_app _ _ _ Ht1). by apply count_commits_flushes. }
  destruct r as [s1|e1 s1].
  - destruct Hr as [-> Hlt]. rewrite app_nil_r in Hc.
    destruct (Z.gtb_spec (Py.len buf) 0) as [Hpos|Hzero].
    + destruct (verdict s1 buf) eqn:Hv.
      * simplify_eq. apply (Hsent full); [done | done |]. by exists buf.
      * destruct (commit_verdict (flush s1 buf)); [|done]. simplify_eq.
        apply (Hsent (full ++ [buf])).
        -- by rewrite Hflush, Ht, fmap_app, <- app_assoc.
        -- apply Forall_app. split; [done|]. apply Forall_singleton. lia.
        -- rewrite concat_app. cbn [concat]. rewrite app_nil_r.
           exists []. by rewrite app_nil_r.
    + destruct (commit_verdict s1); [|done]. simplify_eq.
      apply (Hsent full); [done | done |]. by exists buf.
  - simplify_eq. apply (Hsent full); [done | done |]. by exists (buf ++ rest).
Qed.

(** C4 fails as stated.  On a store that rejects statements binding more
    than 250000 variables, with the script's own 1000 rows of 251 columns
    and the default buffer size, the first in-loop flush of
    [insert_values_params] raises: the invocation ends there, and no
    commit is issued. *)
Lemma flush_discipline_counterexample :
  let col_pad := Py.len_str (Py.str 251) - 1 in
  let row_pad := Py.len_str (Py.str 1000) - 1 in
  let table := snd (setup_db None "sqlite:///app.db" 251 1000 col_pad row_pad) in
  let rows := generate_rows table 1000 row_pad col_pad in
  let session :=
    execute (Session_open (create_all {| url := "sqlite:///app.db";
                                         mytable := None |})) table Delete [] in
  1 ≤ 1000
  ∧ insert_values_params_try (variable_limit_store 250000) session table rows 1000
    = Raises OperationalError session
  ∧ count_commits (added session session) = 0%nat.
Proof.
  cbv zeta. split; [lia|]. split.
  - apply values_over_limit; [apply generate_rows_over_columns | lia | |].
    + rewrite len_generate_rows; lia.
    + rewrite len_setup_db_columns; lia.
  - unfold added. by rewrite drop_all.
Qed.

(** C4, amended.  For a buffer size of at least one, an invocation of
    either strategy in which the store raises nothing adds to the trace
    a sequence of in-loop flushes of exactly [buffer_size] rows each, then
    a flush of the remainder when it is not empty (fewer than
    [buffer_size] rows), then one commit, and nothing else; the flushed
    batches are the input rows in order.  An invocation in which the
    store raises has issued flushes only, of at most [buffer_size] rows
    each and carrying a prefix of the input rows, and no commit.  A loop
    step that flushes leaves the buffer empty, and so does the statement
    after the loop. *)
Theorem flush_discipline_accepted store session table rows buffer_size :
  1 ≤ buffer_size →
  (∀ session',
     insert_values_params_try store session table rows buffer_size = Done session' →
     ∃ full rest,
       trace session' = trace session ++ issued values_event full rest
       ∧ concat full ++ rest = rows
       ∧ Forall (λ b, Py.len b = buffer_size) full
       ∧ Py.len rest < buffer_size
       ∧ count_commits (issued values_event full rest) = 1%nat
       ∧ last (issued values_event full rest) = Some Commit)
  ∧ (∀ session',
       insert_values_executemany_try store session table rows buffer_size
       = Done session' →
       ∃ full rest,
         trace session' = trace session ++ issued executemany_event full rest
         ∧ concat full ++ rest = rows
         ∧ Forall (λ b, Py.len b = buffer_size) full
         ∧ Py.len rest < buffer_size
         ∧ count_commits (issued executemany_event full rest) = 1%nat
         ∧ last (issued executemany_event full rest) = Some Commit)
  ∧ (∀ e session',
       insert_values_params_try store session table rows buffer_size
       = Raises e session' →
       ∃ batches,
         trace session' = trace session ++ (values_event <$> batches)
         ∧ Forall (λ b, 1 ≤ Py.len b ≤ buffer_size) batches
         ∧ concat batches `prefix_of` rows
         ∧ count_commits (added session session') = 0%nat)
  ∧ (∀ e session',
       insert_values_executemany_try store session table rows buffer_size
       = Raises e session' →
       ∃ batches,
         trace session' = trace session ++ (executemany_event <$> batches)
         ∧ Forall (λ b, 1 ≤ Py.len b ≤ buffer_size) batches
         ∧ concat batches `prefix_of` rows
         ∧ count_commits (added session session') = 0%nat)
  ∧ (∀ s buffer row,
       insert_values_params_body table buffer_size (s, buffer) row
       = (execute s table (InsertValues (buffer ++ [row])) [], [])
       ∧ buffer_size ≤ Py.len (buffer ++ [row])
       ∨ insert_values_params_body table buffer_size (s, buffer) row
         = (s, buffer ++ [row])
         ∧ Py.len (buffer ++ [row]) < buffer_size)
  ∧ (∀ s buffer row,
       insert_values_executemany_body table buffer_size (s, buffer) row
       = (execute s table Insert (buffer ++ [row]), [])
       ∧ buffer_size ≤ Py.len (buffer ++ [row])
       ∨ insert_values_executemany_body table buffer_size (s, buffer) row
         = (s, buffer ++ [row])
         ∧ Py.len (buffer ++ [row]) < buffer_size)
  ∧ (∀ st, snd (insert_values_params_rest table st) = [])
  ∧ (∀ st, snd (insert_values_executemany_rest table st) = []).
Proof.
  intros Hbs.
  split; [|split; [|split; [|split; [|split; [|split; [|split]]]]]].
  - intros session' Hrun.
    apply (strategy_try_done _ insert_values_params) in Hrun; [|by left].
    subst session'. rewrite insert_values_params_buffered.
    by apply accepted_trace.
  - intros session' Hrun.
    apply (strategy_try_done _ insert_values_executemany) in Hrun; [|by right].
    subst session'. rewrite insert_values_executemany_buffered.
    by apply accepted_trace.
  - intros e session' Hrun. rewrite insert_values_params_try_buffered in Hrun.
    by apply (raised_trace _ _ _ values_event) in Hrun.
  - intros e session' Hrun. rewrite insert_values_executemany_try_buffered in Hrun.
    by apply (raised_trace _ _ _ executemany_event) in Hrun.
  - intros s buffer row.
    apply (buffered_body_clears (flush_values table)).
  - intros s buffer row.
    apply (buffered_body_clears (flush_executemany table)).
  - intros st. apply (buffered_rest_buffer (flush_values table)).
  - intros st. apply (buffered_rest_buffer (flush_executemany table)).
Qed.

Lemma flush_discipline_accepted_witness :
  let table := snd (setup_db None "sqlite:///app.db" 1 3 0 0) in
  let rows := generate_rows table 3 0 0 in
  let session := Session_open (Build_Engine "sqlite:///app.db" (Some [])) in
  ∃ full rest,
    trace (insert_values_params session table rows 2)
    = trace session ++ issued values_event full rest
    ∧ concat full ++ rest = rows
    ∧ Forall (λ b, Py.len b = 2) full
    ∧ Py.len rest < 2.
Proof.
  assert (H : 1 ≤ 2) by lia.
  destruct (flush_discipline_accepted (variable_limit_store 250000)
              (Session_open (Build_Engine "sqlite:///app.db" (Some [])))
              (snd (setup_db None "sqlite:///app.db" 1 3 0 0))
              (generate_rows (snd (setup_db None "sqlite:///app.db" 1 3 0 0)) 3 0 0)
              2 H) as [Hdone _].
  destruct (Hdone (insert_values_params
                     (Session_open (Build_Engine "sqlite:///app.db" (Some [])))
                     (snd (setup_db None "sqlite:///app.db" 1 3 0 0))
                     (generate_rows (snd (setup_db None "sqlite:///app.db" 1 3 0 0))
                                    3 0 0) 2))
    as (full & rest & Ht & Hc & Hf & Hl & _).
  { vm_compute. reflexivity. }
  exists full, rest. repeat split; assumption.
Defined.

(** ** How [benchmark] ends, whatever the store does *)

(** X3. With at least one column, one timed invocation and one row, and
    a row count of at most 10 or a power of ten (so that all row indices
    print to the same width), [benchmark] never fails its own checks:
    either the store raises an exception, or it returns with the table
    dropped; and it returns when the store accepts every call, for every
    buffer size and whatever rows the table held before. *)
Theorem benchmark_try_passes store database connect_str number_of_cols
    number_of_rows timeit_number timeit_repeat buffer_size :
  1 ≤ number_of_cols → 1 ≤ number_of_rows →
  number_of_rows ≤ 10 ∨ (∃ k, 0 ≤ k ∧ number_of_rows = 10 ^ k) →
  1 ≤ timeit_number → 1 ≤ timeit_repeat →
  let result := benchmark_try store database connect_str number_of_cols
                              number_of_rows timeit_number timeit_repeat
                              buffer_size in
  (fst result = Ended Returned ∨ ∃ e, fst result = StoreRaised e)
  ∧ (fst result = Ended Returned →
     snd result = {| url := connect_str; mytable := None |})
  ∧ (accepts_all store →
     result = (Ended Returned, {| url := connect_str; mytable := None |})).
Proof.
  intros Hcols Hrows Hshape HN HR result.
  pose proof (benchmark_passes database connect_str number_of_cols number_of_rows
                timeit_number timeit_repeat buffer_size Hcols Hrows Hshape HN HR)
    as Hpath.
  split; [|split].
  - destruct result as [[o|e] engine] eqn:Hres; [|right; by exists e].
    left. apply benchmark_try_ended in Hres. rewrite Hpath in Hres. by simplify_eq.
  - destruct result as [[o|e] engine] eqn:Hres; [|done].
    intros _. apply benchmark_try_ended in Hres. rewrite Hpath in Hres.
    by simplify_eq.
  - intros Hall. unfold result. rewrite benchmark_try_accepted by done.
    by rewrite Hpath.
Qed.

Lemma benchmark_try_passes_witness :
  let result := benchmark_try (variable_limit_store 250000) None "sqlite:///app.db"
                              90 100 1000 3 1000 in
  fst result = Ended Returned ∨ ∃ e, fst result = StoreRaised e.
Proof.
  apply benchmark_try_passes; [lia | lia | | lia | lia].
  right. exists 2. split; [lia | reflexivity].
Defined.

(** X4. With at least one column and one timed invocation, and a row
    count above 10 that is not a power of ten, [benchmark] never returns:
    either the store raises an exception, or the second assertion of
    [check_and_clean] fails in the first trial because the row that sorts
    last is not the last generated row.  When the store accepts every
    call it is the assertion that fails, and the table is neither emptied
    nor dropped: every inserted row stays committed. *)
Theorem benchmark_try_fails store database connect_str number_of_cols number_of_rows
    timeit_number timeit_repeat buffer_size :
  1 ≤ number_of_cols → 10 < number_of_rows → (∀ k, number_of_rows ≠ 10 ^ k) →
  1 ≤ timeit_number → 1 ≤ timeit_repeat →
  let col_pad := Py.len_str (Py.str number_of_cols) - 1 in
  let row_pad := Py.len_str (Py.str number_of_rows) - 1 in
  let result := benchmark_try store database connect_str number_of_cols
                              number_of_rows timeit_number timeit_repeat
                              buffer_size in
  (fst result = Ended AssertionError ∨ ∃ e, fst result = StoreRaised e)
  ∧ (accepts_all store →
     result
     = (Ended AssertionError,
        {| url := connect_str;
           mytable :=
             Some (mjoin (replicate
                            (Z.to_nat timeit_repeat * Z.to_nat timeit_number)
                            (row_tuple number_of_cols row_pad col_pad
                               <$> Py.range number_of_rows))) |})).
Proof.
  intros Hcols Hrows Hshape HN HR col_pad row_pad result.
  pose proof (benchmark_fails database connect_str number_of_cols number_of_rows
                timeit_number timeit_repeat buffer_size Hcols Hrows Hshape HN HR)
    as Hpath. cbv zeta in Hpath.
  split.
  - destruct result as [[o|e] engine] eqn:Hres; [|right; by exists e].
    left. apply benchmark_try_ended in Hres. rewrite Hpath in Hres. by simplify_eq.
  - intros Hall. unfold result. rewrite benchmark_try_accepted by done.
    by rewrite Hpath.
Qed.

Lemma benchmark_try_fails_witness :
  let result := benchmark_try (variable_limit_store 250000) None "sqlite:///app.db"
                              90 101 1000 3 1000 in
  fst result = Ended AssertionError ∨ ∃ e, fst result = StoreRaised e.
Proof.
  assert (Hshape : ∀ k, 101 ≠ 10 ^ k).
  { intros k Hk. destruct (Z.le_gt_cases k 2) as [Hle|Hgt].
    - assert (10 ^ k ≤ 10 ^ 2) by (apply Z.pow_le_mono_r; lia).
      change (10 ^ 2) with 100 in *. lia.
    - assert (10 ^ 3 ≤ 10 ^ k) by (apply Z.pow_le_mono_r; lia).
      change (10 ^ 3) with 1000 in *. lia. }
  assert (H90 : 1 ≤ 90) by lia. assert (H101 : 10 < 101) by lia.
  assert (H1000 : 1 ≤ 1000) by lia. assert (H3 : 1 ≤ 3) by lia.
  exact (proj1 (benchmark_try_fails (variable_limit_store 250000) None
                  "sqlite:///app.db" 90 101 1000 3 1000
                  H90 H101 Hshape H1000 H3)).
Defined.

(** X5. With at least one column and non-negative counts, a run that
    inserts nothing (no rows, or no timed invocation) does not pass:
    either the store raises an exception, or the count assertion holds
    with 0 rows, the ordered query returns [None], and indexing it ends
    [benchmark] with [TypeError] in the first trial, as it does when the
    store accepts every call. *)
Theorem benchmark_try_empty_run store database connect_str number_of_cols
    number_of_rows timeit_number timeit_repeat buffer_size :
  1 ≤ number_of_cols →
  0 ≤ number_of_rows → 0 ≤ timeit_number → 0 ≤ timeit_repeat →
  timeit_repeat * timeit_number * number_of_rows = 0 →
  let result := benchmark_try store database connect_str number_of_cols
                              number_of_rows timeit_number timeit_repeat
                              buffer_size in
  (fst result = Ended TypeError ∨ ∃ e, fst result = StoreRaised e)
  ∧ (accepts_all store → fst result = Ended TypeError).
Proof.
  intros Hcols Hrows HN HR Hzero result.
  pose proof (benchmark_empty_run database connect_str number_of_cols number_of_rows
                timeit_number timeit_repeat buffer_size Hcols Hrows HN HR Hzero)
    as Hpath.
  split.
  - destruct result as [[o|e] engine] eqn:Hres; [|right; by exists e].
    left. apply benchmark_try_ended in Hres. rewrite Hres in Hpath.
    cbn in Hpath. by subst o.
  - intros Hall. unfold result. rewrite benchmark_try_accepted by done.
    cbn [fst]. by rewrite Hpath.
Qed.

Lemma benchmark_try_empty_run_witness :
  let result := benchmark_try (variable_limit_store 250000) None "sqlite:///app.db"
                              90 0 1000 3 1000 in
  fst result = Ended TypeError ∨ ∃ e, fst result = StoreRaised e.
Proof.
  apply benchmark_try_empty_run; lia.
Defined.

(** X11. With a negative row count and at least one timed invocation,
    no row is generated, and [benchmark] does not pass: either the store
    raises an exception (as SQLite does on a table without columns), or
    the table holds 0 rows while the asserted count is negative and the
    count assertion of [check_and_clean] fails in the first trial, as it
    does when the store accepts every call. *)
Theorem benchmark_try_negative_rows store database connect_str number_of_cols
    number_of_rows timeit_number timeit_repeat buffer_size :
  number_of_rows < 0 → 1 ≤ timeit_number → 1 ≤ timeit_repeat →
  let result := benchmark_try store database connect_str number_of_cols
                              number_of_rows timeit_number timeit_repeat
                              buffer_size in
  (∀ table row_pad col_pad, generate_rows table number_of_rows row_pad col_pad = [])
  ∧ (fst result = Ended AssertionError ∨ ∃ e, fst result = StoreRaised e)
  ∧ (accepts_all store → fst result = Ended AssertionError).
Proof.
  intros Hrows HN HR result.
  destruct (benchmark_negative_rows database connect_str number_of_cols
              number_of_rows timeit_number timeit_repeat buffer_size Hrows HN HR)
    as [_ Hpath].
  split; [|split].
  - intros table row_pad col_pad. apply length_zero_iff_nil.
    rewrite length_generate_rows. lia.
  - destruct result as [[o|e] engine] eqn:Hres; [|right; by exists e].
    left. apply benchmark_try_ended in Hres. rewrite Hres in Hpath.
    cbn in Hpath. by subst o.
  - intros Hall. unfold result. rewrite benchmark_try_accepted by done.
    cbn [fst]. by rewrite Hpath.
Qed.

Lemma benchmark_try_negative_rows_witness :
  let result := benchmark_try (variable_limit_store 250000) None "sqlite:///app.db"
                              90 (-3) 1000 3 1000 in
  fst result = Ended AssertionError ∨ ∃ e, fst result = StoreRaised e.
Proof.
  refine (proj1 (proj2 (benchmark_try_negative_rows (variable_limit_store 250000)
                          None "sqlite:///app.db" 90 (-3) 1000 3 1000 _ _ _))); lia.
Defined.

(** ** Trials and prior content when the store may raise *)

(** X6. For rows whose keys are exactly the column names of the table,
    a trial of [benchmark] does not depend on the strategy unless the
    store raises: when neither trial ends with an exception of the store,
    the trial with [insert_values_params] and the trial with
    [insert_values_executemany] end the same way and leave the same
    database behind. *)
Theorem trials_agree_accepted store engine table rows number_of_rows number_of_cols
    timeit_number timeit_repeat buffer_size :
  Forall (over_columns table) rows →
  let trial strategy_try :=
    benchmark_trial_try store strategy_try engine table rows number_of_rows
                        number_of_cols timeit_number timeit_repeat buffer_size in
  (∀ e, fst (trial insert_values_params_try) ≠ StoreRaised e) →
  (∀ e, fst (trial insert_values_executemany_try) ≠ StoreRaised e) →
  trial insert_values_params_try = trial insert_values_executemany_try.
Proof.
  intros Hall trial Hp He. unfold trial in *.
  destruct (benchmark_trial_try store insert_values_params_try _ _ _ _ _ _ _ _)
    as [[o1|e1] engine1] eqn:H1; [|by destruct (Hp e1)].
  destruct (benchmark_trial_try store insert_values_executemany_try _ _ _ _ _ _ _ _)
    as [[o2|e2] engine2] eqn:H2; [|by destruct (He e2)].
  apply (benchmark_trial_try_ended _ _ insert_values_params) in H1; [|by left].
  apply (benchmark_trial_try_ended _ _ insert_values_executemany) in H2; [|by right].
  rewrite trials_agree in H1 by done. rewrite H1 in H2. by simplify_eq.
Qed.

Lemma trials_agree_accepted_witness :
  let table := snd (setup_db None "sqlite:///app.db" 2 3 0 0) in
  let rows := generate_rows table 3 0 0 in
  let engine := create_all {| url := "sqlite:///app.db"; mytable := None |} in
  benchmark_trial_try (variable_limit_store 250000) insert_values_params_try
                      engine table rows 3 2 1 2 2
  = benchmark_trial_try (variable_limit_store 250000) insert_values_executemany_try
                        engine table rows 3 2 1 2 2.
Proof.
  cbv zeta. apply trials_agree_accepted.
  - apply generate_rows_over_columns.
  - intros e. vm_compute. discriminate.
  - intros e. vm_compute. discriminate.
Defined.

(** X7. With the same store and connect string, the way [benchmark] ends
    does not depend on what the database held before, unless the store
    raises: each trial starts by deleting all rows of the table, so two
    runs that differ only in the prior content, neither of which ends
    with an exception of the store, end the same way. *)
Theorem benchmark_try_prior_content store database1 database2 connect_str
    number_of_cols number_of_rows timeit_number timeit_repeat buffer_size :
  let run database :=
    benchmark_try store database connect_str number_of_cols number_of_rows
                  timeit_number timeit_repeat buffer_size in
  (∀ e, fst (run database1) ≠ StoreRaised e) →
  (∀ e, fst (run database2) ≠ StoreRaised e) →
  fst (run database1) = fst (run database2).
Proof.
  intros run H1 H2. unfold run in *.
  destruct (benchmark_try store database1 _ _ _ _ _ _) as [[o1|e1] engine1] eqn:Hr1;
    [|by destruct (H1 e1)].
  destruct (benchmark_try store database2 _ _ _ _ _ _) as [[o2|e2] engine2] eqn:Hr2;
    [|by destruct (H2 e2)].
  apply benchmark_try_ended in Hr1. apply benchmark_try_ended in Hr2.
  pose proof (benchmark_outcome_independent database1 database2 connect_str
                connect_str number_of_cols number_of_rows timeit_number
                timeit_repeat buffer_size) as Hsame.
  rewrite Hr1, Hr2 in Hsame. cbn in Hsame. by subst o2.
Qed.

Lemma benchmark_try_prior_content_witness :
  fst (benchmark_try (variable_limit_store 250000)
         (Some [[Some "left"; Some "over"]; [Some "rows"; None]])
         "sqlite:///app.db" 2 3 1 2 2)
  = fst (benchmark_try (variable_limit_store 250000) None
           "sqlite:///app.db" 2 3 1 2 2).
Proof.
  apply (benchmark_try_prior_content (variable_limit_store 250000)
           (Some [[Some "left"; Some "over"]; [Some "rows"; None]]) None
           "sqlite:///app.db" 2 3 1 2 2).
  - intros e. vm_compute. discriminate.
  - intros e. vm_compute. discriminate.
Defined.

(** ** The statements of an invocation, batch by batch *)

Lemma buffered_insert_batches stmt flush s rows bs :
  (∀ s b, trace (flush s b) = trace s ++ [stmt b]) →
  1 ≤ bs →
  ∃ batches,
    added s (buffered_insert flush s rows bs) = (stmt <$> batches) ++ [Commit]
    ∧ concat batches = rows
    ∧ Forall (λ b, 1 ≤ Py.len b ≤ bs) batches
    ∧ Py.len batches = (Py.len rows + bs - 1) / bs.
Proof.
  intros Hflush Hbs.
  pose proof (buffered_insert_statements stmt flush s rows bs Hflush Hbs) as Hcount.
  destruct (buffered_insert_trace stmt flush s rows bs Hflush Hbs)
    as (full & rest & Ht & Hc & Hf & Hl).
  apply added_app in Ht. rewrite Ht in Hcount |- *.
  rewrite length_issued in Hcount. unfold issued.
  assert (Hfull : Forall (λ b, 1 ≤ Py.len b ≤ bs) full).
  { eapply Forall_impl; [exact Hf|]. intros b Hb. cbn in Hb. lia. }
  destruct (decide (rest = [])) as [->|Hne].
  - exists full. rewrite app_nil_r in Hc. repeat split; try done. lia.
  - exists (full ++ [rest]). rewrite fmap_app, concat_app, <- app_assoc.
    cbn [fmap list_fmap concat]. rewrite app_nil_r.
    repeat split; try done.
    + apply Forall_app. split; [done|]. apply Forall_singleton.
      destruct rest; [done|]. unfold Py.len in *. cbn [length] in *. lia.
    + unfold Py.len in *. rewrite length_app. cbn [length]. lia.
Qed.

(** X8. For a buffer size of at least one, an invocation of either
    strategy in which the store raises nothing adds to the trace one
    insert statement per batch and then the commit, where the batches
    are the input rows cut in order into pieces of at least one and at
    most [buffer_size] rows, and there are
    [(len(rows) + buffer_size - 1) // buffer_size] of them:
    [insert_values_params] sends each batch as a multi-row VALUES
    statement, [insert_values_executemany] as the parameter list of one
    insert statement. *)
Theorem statements_issued_accepted store session table rows buffer_size :
  1 ≤ buffer_size →
  (∀ session',
     insert_values_params_try store session table rows buffer_size = Done session' →
     ∃ batches,
       added session session'
       = ((λ batch, Execute (InsertValues batch) []) <$> batches) ++ [Commit]
       ∧ concat batches = rows
       ∧ Forall (λ batch, 1 ≤ Py.len batch ≤ buffer_size) batches
       ∧ Py.len batches = (Py.len rows + buffer_size - 1) / buffer_size)
  ∧ (∀ session',
       insert_values_executemany_try store session table rows buffer_size
       = Done session' →
       ∃ batches,
         added session session'
         = ((λ batch, Execute Insert batch) <$> batches) ++ [Commit]
         ∧ concat batches = rows
         ∧ Forall (λ batch, 1 ≤ Py.len batch ≤ buffer_size) batches
         ∧ Py.len batches = (Py.len rows + buffer_size - 1) / buffer_size).
Proof.
  intros Hbs. split; intros session' Hrun.
  - apply (strategy_try_done _ insert_values_params) in Hrun; [|by left].
    subst session'. rewrite insert_values_params_buffered.
    by apply (buffered_insert_batches values_event).
  - apply (strategy_try_done _ insert_values_executemany) in Hrun; [|by right].
    subst session'. rewrite insert_values_executemany_buffered.
    by apply (buffered_insert_batches executemany_event).
Qed.

Lemma statements_issued_accepted_witness :
  let table := snd (setup_db None "sqlite:///app.db" 1 5 0 0) in
  let rows := generate_rows table 5 0 0 in
  let session := Session_open (Build_Engine "sqlite:///app.db" (Some [])) in
  ∃ batches,
    added session (insert_values_executemany session table rows 2)
    = ((λ batch, Execute Insert batch) <$> batches) ++ [Commit]
    ∧ concat batches = rows
    ∧ Py.len batches = 3.
Proof.
  assert (H : 1 ≤ 2) by lia.
  destruct (statements_issued_accepted (variable_limit_store 250000)
              (Session_open (Build_Engine "sqlite:///app.db" (Some [])))
              (snd (setup_db None "sqlite:///app.db" 1 5 0 0))
              (generate_rows (snd (setup_db None "sqlite:///app.db" 1 5 0 0)) 5 0 0)
              2 H) as [_ Hdone].
  destruct (Hdone (insert_values_executemany
                     (Session_open (Build_Engine "sqlite:///app.db" (Some [])))
                     (snd (setup_db None "sqlite:///app.db" 1 5 0 0))
                     (generate_rows (snd (setup_db None "sqlite:///app.db" 1 5 0 0))
                                    5 0 0) 2))
    as (batches & Ht & Hc & _ & Hl).
  { vm_compute. reflexivity. }
  exists batches. repeat split; assumption.
Defined.

(** ** A buffer larger than the input *)

Lemma buffered_loop_try_short verdict flush bs rows s buf :
  Py.len buf + Py.len rows < bs →
  buffered_loop_try verdict flush bs s buf rows = (Done s, buf ++ rows).
Proof.
  revert buf. induction rows as [|row rows IH]; intros buf Hlen.
  - by rewrite app_nil_r.
  - cbn [buffered_loop_try].
    assert (Hl : Py.len (buf ++ [row]) = Py.len buf + 1).
    { unfold Py.len. rewrite length_app. cbn. lia. }
    assert (Hr : Py.len (row :: rows) = Py.len rows + 1).
    { unfold Py.len. cbn [length]. lia. }
    destruct (Z.geb_spec (Py.len (buf ++ [row])) bs) as [Hge|Hlt].
    + assert (0 ≤ Py.len rows) by (unfold Py.len; lia). lia.
    + rewrite IH by lia. by rewrite <- app_assoc.
Qed.

Lemma buffered_try_short verdict commit_verdict flush s rows bs :
  Py.len rows < bs →
  buffered_try verdict commit_verdict flush s rows bs
  = match rows with
    | [] => match commit_verdict s with
            | Some e => Raises e s
            | None => Done (commit s)
            end
    | _ :: _ =>
        match verdict s rows with
        | Some e => Raises e s
        | None => match commit_verdict (flush s rows) with
                  | Some e => Raises e (flush s rows)
                  | None => Done (commit (flush s rows))
                  end
        end
    end.
Proof.
  intros Hlt. unfold buffered_try.
  rewrite buffered_loop_try_short by (unfold Py.len in *; cbn [length]; lia).
  rewrite app_nil_l. destruct rows as [|row rows].
  - done.
  - destruct (Z.gtb_spec (Py.len (row :: rows)) 0) as [_|Hle].
    + by destruct (verdict s (row :: rows)).
    + unfold Py.len in Hle. cbn [length] in Hle. lia.
Qed.

(** X9. When the buffer size exceeds the number of rows, the loop of
    either strategy flushes nothing, and the invocation is: for no rows,
    the commit alone; otherwise one insert statement carrying all rows
    (as a multi-row VALUES statement for [insert_values_params], as the
    parameter list for [insert_values_executemany]) followed by the
    commit.  An exception of the store in the insert statement ends the
    invocation before the commit. *)
Theorem single_flush_accepted store session table rows buffer_size :
  Py.len rows < buffer_size →
  insert_values_params_try store session table rows buffer_size
  = match rows with
    | [] => try_commit store session
    | _ :: _ =>
        match try_execute store session table (InsertValues rows) [] with
        | Raises e session => Raises e session
        | Done session => try_commit store session
        end
    end
  ∧ insert_values_executemany_try store session table rows buffer_size
    = match rows with
      | [] => try_commit store session
      | _ :: _ =>
          match try_execute store session table Insert rows with
          | Raises e session => Raises e session
          | Done session => try_commit store session
          end
      end.
Proof.
  intros Hlt. split.
  - rewrite insert_values_params_try_buffered, buffered_try_short by done.
    unfold try_commit, try_execute, flush_values.
    destruct rows as [|row rows]; [done|].
    by destruct (statement_error store session table (InsertValues (row :: rows)) []).
  - rewrite insert_values_executemany_try_buffered, buffered_try_short by done.
    unfold try_commit, try_execute, flush_executemany.
    destruct rows as [|row rows]; [done|].
    by destruct (statement_error store session table Insert (row :: rows)).
Qed.

Lemma single_flush_accepted_witness :
  let table := snd (setup_db None "sqlite:///app.db" 251 1000 2 3) in
  let rows := generate_rows table 1000 3 2 in
  let session := Session_open (Build_Engine "sqlite:///app.db" (Some [])) in
  insert_values_executemany_try (variable_limit_store 250000) session table rows 1001
  = match rows with
    | [] => try_commit (variable_limit_store 250000) session
    | _ :: _ =>
        match try_execute (variable_limit_store 250000) session table Insert rows with
        | Raises e session => Raises e session
        | Done session => try_commit (variable_limit_store 250000) session
        end
    end.
Proof.
  cbv zeta.
  apply (single_flush_accepted (variable_limit_store 250000)
           (Session_open (Build_Engine "sqlite:///app.db" (Some [])))
           (snd (setup_db None "sqlite:///app.db" 251 1000 2 3))
           (generate_rows (snd (setup_db None "sqlite:///app.db" 251 1000 2 3))
                          1000 3 2) 1001).
  rewrite len_generate_rows; lia.
Defined.
